(** * Katalist: schema synthesis, caller detection and source transformation

    A shallow embedding of the katalist library
    (src/jsonToZodSchema.ts, src/katalist.ts, src/transformer.ts) and the
    properties its specification states about it.

    Layout: the embedding comes first (one module per source file), the
    lemmas and theorems follow. *)

From Stdlib Require Import String Ascii List Bool.
Import ListNotations.
Set Warnings "-register-all".
Open Scope list_scope.
Open Scope string_scope.

(* ================================================================== *)
(** ** JavaScript string operations used by the sources                *)
(* ================================================================== *)

Module JsString.

(** One-character string. *)
Definition chr (n : nat) : string := String (ascii_of_nat n) EmptyString.

Definition dquote : string := chr 34.
Definition backslash : ascii := ascii_of_nat 92.
Definition slash : ascii := ascii_of_nat 47.
Definition newline : ascii := ascii_of_nat 10.

(** [s.substring(n)]. *)
Fixpoint drop (n : nat) (s : string) : string :=
  match n, s with
  | O, _ => s
  | S _, EmptyString => EmptyString
  | S k, String _ t => drop k t
  end.

(** [s.startsWith(p)]. *)
Fixpoint startsWith (p s : string) : bool :=
  match p, s with
  | EmptyString, _ => true
  | String a p', String b s' => Ascii.eqb a b && startsWith p' s'
  | String _ _, EmptyString => false
  end.

(** [s.includes(p)]. *)
Fixpoint includes (p s : string) : bool :=
  startsWith p s ||
  match s with
  | EmptyString => false
  | String _ t => includes p t
  end.

(** [s.endsWith(p)]. *)
Definition endsWith (p s : string) : bool :=
  Nat.leb (String.length p) (String.length s) &&
  String.eqb (drop (String.length s - String.length p) s) p.

(** [s.replace(p, r)] with a string pattern: the first occurrence of [p]
    only.  The replacement is taken literally, which is what JavaScript
    does when [r] holds no dollar sign. *)
Fixpoint replaceFirst (p r s : string) : string :=
  if startsWith p s then r ++ drop (String.length p) s
  else match s with
       | EmptyString => EmptyString
       | String c t => String c (replaceFirst p r t)
       end.

(** The replacement text of [replace] once its patterns are expanded:
    [$$] gives a dollar sign, [$&] the matched text, [$`] the text
    before the match and [$'] the text after it.  The patterns of the
    sources have no capture group, so a dollar sign before any other
    character stands for itself. *)
Fixpoint expandReplacement (matched before after replacement : string)
  : string :=
  match replacement with
  | EmptyString => EmptyString
  | String a rest =>
      if Ascii.eqb a "$" then
        match rest with
        | String b rest' =>
            if Ascii.eqb b "$" then
              "$" ++ expandReplacement matched before after rest'
            else if Ascii.eqb b "&" then
              matched ++ expandReplacement matched before after rest'
            else if Ascii.eqb b "`" then
              before ++ expandReplacement matched before after rest'
            else if Ascii.eqb b "'" then
              after ++ expandReplacement matched before after rest'
            else String a (expandReplacement matched before after rest)
        | EmptyString => String a EmptyString
        end
      else String a (expandReplacement matched before after rest)
  end.

(** [s.replace(p, r)] from the text [before] on: the first occurrence of
    the literal text [p], the replacement expanded. *)
Fixpoint replaceFrom (before p r s : string) : string :=
  if startsWith p s then
    expandReplacement p before (drop (String.length p) s) r
    ++ drop (String.length p) s
  else match s with
       | EmptyString => EmptyString
       | String c t =>
           String c (replaceFrom (before ++ String c EmptyString) p r t)
       end.

(** [s.replace(p, r)] with a string pattern, or with a regular
    expression that matches the literal text [p] and has no flag. *)
Definition replace (p r s : string) : string :=
  replaceFrom EmptyString p r s.

(** [s.replace(/c/g, d)] for a one-character pattern. *)
Fixpoint replaceAllChar (c d : ascii) (s : string) : string :=
  match s with
  | EmptyString => EmptyString
  | String a t =>
      String (if Ascii.eqb a c then d else a) (replaceAllChar c d t)
  end.

(** [s.split(sep)] for a one-character separator: always at least one
    piece. *)
Fixpoint split (sep : ascii) (s : string) : list string :=
  match s with
  | EmptyString => [EmptyString]
  | String a t =>
      if Ascii.eqb a sep then EmptyString :: split sep t
      else match split sep t with
           | [] => [String a EmptyString]
           | piece :: rest => String a piece :: rest
           end
  end.

(** Membership of a string in an array: [xs.includes(x)]. *)
Definition arrayIncludes (x : string) (xs : list string) : bool :=
  existsb (String.eqb x) xs.

End JsString.

(* ================================================================== *)
(** ** src/transformer.ts: the output path of a transformation         *)
(* ================================================================== *)

Module OutputPath.
Import JsString.

(** [sourceFilePath.replace(".ts", ".transformed.ts")]
    (transformHttpClientCall, the branch taken when the flag is set). *)
Definition transformedPath (sourceFilePath : string) : string :=
  replaceFirst ".ts" ".transformed.ts" sourceFilePath.

(** The path the formatted text is written to. *)
Definition writeTarget (sourceFilePath : string) (addTransformFilePath : bool)
  : string :=
  if addTransformFilePath then transformedPath sourceFilePath
  else sourceFilePath.

(** What the documentation of the flag describes: the marker goes right
    before the final [.ts] extension of the path. *)
Definition insertBeforeExtension (sourceFilePath : string) : option string :=
  if endsWith ".ts" sourceFilePath
  then Some (String.substring 0 (String.length sourceFilePath - 3)
               sourceFilePath ++ ".transformed.ts")
  else None.

End OutputPath.

(* ================================================================== *)
(** ** src/katalist.ts: the caller-detection probe                      *)
(* ================================================================== *)

Module CallerDetection.
Import JsString.

(** The class [\s] on code units below 256: tab, line feed, vertical tab,
    form feed, carriage return, space and the no-break space. *)
Definition isSpace (a : ascii) : bool :=
  let n := nat_of_ascii a in
  (Nat.leb 9 n && Nat.leb n 13) || Nat.eqb n 32 || Nat.eqb n 160.

(** The class [[^\s):]]. *)
Definition pathChar (a : ascii) : bool :=
  negb (isSpace a || Nat.eqb (nat_of_ascii a) 41 || Nat.eqb (nat_of_ascii a) 58).

(** [\.(?:ts|js|tsx|jsx)] at the head of [s].  The alternatives are tried
    in order and nothing follows the group, so [tsx] and [jsx] are never
    the ones chosen: [ts] and [js] succeed first on the same input. *)
Definition extensionAt (s : string) : option string :=
  if startsWith ".ts" s then Some ".ts"
  else if startsWith ".js" s then Some ".js"
  else None.

(** [[^\s):]+\.(?:ts|js|tsx|jsx)] at the head of [s]: the greedy class
    takes as many characters as it can and gives them back one at a time
    until the extension follows, so the match is the longest one. *)
Fixpoint pathBody (s : string) : option string :=
  match s with
  | EmptyString => None
  | String c t =>
      if pathChar c then
        match pathBody t with
        | Some m => Some (String c m)
        | None =>
            match extensionAt t with
            | Some e => Some (String c e)
            | None => None
            end
        end
      else None
  end.

(** [\/[^\s):]+\.(?:ts|js|tsx|jsx)]. *)
Definition slashPath (s : string) : option string :=
  match s with
  | String c t =>
      if Ascii.eqb c slash
      then option_map (String c) (pathBody t)
      else None
  | EmptyString => None
  end.

(** The capture group [((?:file:\/\/)?\/[^\s):]+\.(?:ts|js|tsx|jsx))]. *)
Definition captureAt (s : string) : option string :=
  if startsWith "file://" s
  then option_map (String.append "file://") (slashPath (drop 7 s))
  else slashPath s.

(** The whole pattern anchored at the head of [s]: an optional opening
    parenthesis, then the group. *)
Definition matchAt (s : string) : option string :=
  match s with
  | String c t => if Nat.eqb (nat_of_ascii c) 40 then captureAt t else captureAt s
  | EmptyString => None
  end.

(** [line.match(/\(?((?:file:\/\/)?\/[^\s):]+\.(?:ts|js|tsx|jsx))/)]:
    the leftmost match; the result is [fileMatch[1]]. *)
Fixpoint fileMatch (line : string) : option string :=
  match matchAt line with
  | Some m => Some m
  | None =>
      match line with
      | EmptyString => None
      | String _ t => fileMatch t
      end
  end.

(** Removal of the [file://] protocol. *)
Definition stripProtocol (filePath : string) : string :=
  if startsWith "file://" filePath then drop 7 filePath else filePath.

(** [filePath.replace(/\\/g, "/")]. *)
Definition normalizePath (filePath : string) : string :=
  replaceAllChar backslash slash filePath.

Definition isKatalistLibraryFile (normalizedPath : string) : bool :=
  includes "/node_modules/katalist/" normalizedPath
  || endsWith "/katalist/src/katalist.ts" normalizedPath
  || includes "/katalist/dist/index.js" normalizedPath
  || includes "/katalist/dist/index.cjs" normalizedPath.

Definition isNodeModuleFile (normalizedPath : string) : bool :=
  includes "/node_modules/" normalizedPath
  && negb (isKatalistLibraryFile normalizedPath).

Definition isInternalLibrary (normalizedPath : string) : bool :=
  isKatalistLibraryFile normalizedPath
  || isNodeModuleFile normalizedPath
  || includes "ts-morph" normalizedPath.

(** The empty string is falsy. *)
Definition truthy (s : string) : bool :=
  negb (String.eqb s EmptyString).

(** One iteration of the loop over the stack lines: [Some path] when the
    line makes the function return, [None] when the loop goes on. *)
Definition inspectLine (line : string) : option string :=
  match fileMatch line with
  | None => None
  | Some captured =>
      let filePath := stripProtocol captured in
      if negb (truthy filePath) then None
      else
        let normalizedPath := normalizePath filePath in
        if truthy filePath && negb (isInternalLibrary normalizedPath)
        then Some filePath
        else None
  end.

Fixpoint scanLines (stackLines : list string) : option string :=
  match stackLines with
  | [] => None
  | line :: rest =>
      match inspectLine line with
      | Some filePath => Some filePath
      | None => scanLines rest
      end
  end.

(** [getCallerFilePath]: [stack] is [error.stack], [None] when the engine
    provides no trace.  The logger only reports; it is left out. *)
Definition getCallerFilePath (stack : option string) : option string :=
  match stack with
  | None => None
  | Some s =>
      if truthy s then scanLines (split newline s) else None
  end.

(** Every character of [s] is in the class [[^\s):]]. *)
Fixpoint allPathChars (s : string) : bool :=
  match s with
  | EmptyString => true
  | String c t => pathChar c && allPathChars t
  end.

(** The text after a path in a frame: nothing, or something that starts
    outside the class (the colon before the line number). *)
Definition endsPath (tail : string) : bool :=
  match tail with
  | EmptyString => true
  | String c _ => negb (pathChar c)
  end.

(** A frame of the trace, by what the loop does with it. *)
Definition isLibraryFrame (line : string) : Prop :=
  exists captured,
    fileMatch line = Some captured /\
    isInternalLibrary (normalizePath (stripProtocol captured)) = true.

Definition isUserFrame (line : string) (filePath : string) : Prop :=
  exists captured,
    fileMatch line = Some captured /\
    filePath = stripProtocol captured /\
    isInternalLibrary (normalizePath filePath) = false.

Definition singleLine (line : string) : Prop :=
  includes (String newline EmptyString) line = false.

(** A frame of a V8 trace, [<lead>(<path><tail>] with the path
    [/<stem><ext>], after [file://] or not:
    [    at main (file:///home/u/src/api.ts:3:5)]. *)
Definition frame (lead : string) (protocol : bool) (stem ext tail : string)
  : string :=
  lead ++ "(" ++ (if protocol then "file://" else EmptyString)
  ++ "/" ++ stem ++ ext ++ tail.

(** The frame is on one line, nothing before its parenthesis holds a
    slash, its path is made of characters that are neither white space
    nor [)] nor [:], the extension is [.ts] or [.js] and what follows
    starts outside that class (the colon of the line number). *)
Definition plainFrame (lead stem ext tail : string) : Prop :=
  includes "/" lead = false
  /\ singleLine lead
  /\ stem <> EmptyString
  /\ allPathChars stem = true
  /\ (ext = ".ts" \/ ext = ".js")
  /\ endsPath tail = true
  /\ singleLine tail.

End CallerDetection.

(* ================================================================== *)
(** ** src/jsonToZodSchema.ts: schema synthesis                         *)
(* ================================================================== *)

Module SchemaSynthesis.

(** A JSON value.  Object members are kept in [Object.entries] order; a
    number is kept as its literal, only its being a number matters. *)
Inductive json : Type :=
| JNull
| JBool (b : bool)
| JNumber (literal : string)
| JString (s : string)
| JArray (elements : list json)
| JObject (members : list (string * json)).

(** The [type] member of a schema node: one name, or several. *)
Inductive typeField : Type :=
| TypeName (name : string)
| TypeUnion (names : list string).

(** A node of the JSON-schema tree that generate-schema builds: the
    members the library reads or writes. *)
Inductive schema : Type :=
| Schema (dialect : option string)            (* $schema *)
         (title : option string)
         (type : option typeField)
         (properties : option (list (string * schema)))
         (items : option schema)
         (required : option (list string)).

Definition dialectOf (s : schema) : option string :=
  match s with Schema d _ _ _ _ _ => d end.
Definition titleOf (s : schema) : option string :=
  match s with Schema _ t _ _ _ _ => t end.
Definition typeOf (s : schema) : option typeField :=
  match s with Schema _ _ ty _ _ _ => ty end.
Definition propertiesOf (s : schema) : option (list (string * schema)) :=
  match s with Schema _ _ _ p _ _ => p end.
Definition itemsOf (s : schema) : option schema :=
  match s with Schema _ _ _ _ i _ => i end.
Definition requiredOf (s : schema) : option (list string) :=
  match s with Schema _ _ _ _ _ r => r end.

(** [x.type === name]. *)
Definition typeIs (name : string) (s : schema) : bool :=
  match typeOf s with
  | Some (TypeName n) => String.eqb n name
  | _ => false
  end.

(** The names that survive the filter of [addRequiredToAllObjects]:
    every property whose type is not ["null"]. *)
Definition requiredProps (props : list (string * schema)) : list string :=
  map fst (filter (fun entry => negb (typeIs "null" (snd entry))) props).

(** [addRequiredToAllObjects]: the in-place update, as the updated tree. *)
Fixpoint addRequiredToAllObjects (s : schema) : schema :=
  match s with
  | Schema d t ty props items req =>
      match props with
      | Some ps =>
          if typeIs "object" s then
            let names := requiredProps ps in
            let req' := match names with [] => req | _ :: _ => Some names end in
            Schema d t ty
              (Some (map (fun entry =>
                            (fst entry, addRequiredToAllObjects (snd entry))) ps))
              items req'
          else s
      | None => s
      end
  end.

(** [jsontoJsonSchema]; [generate] is [generateSchema.json] of the
    generate-schema package. *)
Definition jsontoJsonSchema (generate : json -> schema)
  (value : json) (title : string) : schema :=
  match generate value with
  | Schema _ _ ty props items req =>
      addRequiredToAllObjects (Schema None (Some title) ty props items req)
  end.

(** Modelled from the spec: the inference of the generate-schema package,
    which is not part of the repository.  Section 4.1: field types follow
    the standard widening rules (string, number, boolean, null, nested
    object, array of T), section 8: the items of an array are described
    from its first element. *)
Fixpoint inferSchema (value : json) : schema :=
  let leaf name := Schema None None (Some (TypeName name)) None None None in
  match value with
  | JNull => leaf "null"
  | JBool _ => leaf "boolean"
  | JNumber _ => leaf "number"
  | JString _ => leaf "string"
  | JArray elements =>
      Schema None None (Some (TypeName "array")) None
        (match elements with
         | [] => None
         | first :: _ => Some (inferSchema first)
         end)
        None
  | JObject members =>
      Schema None None (Some (TypeName "object"))
        (Some (map (fun member => (fst member, inferSchema (snd member)))
                 members))
        None None
  end.

(** The invariant of the specification at one node: an object node lists
    as required exactly its properties whose type is not null (a missing
    [required] member lists nothing). *)
Definition requiredIsExact (s : schema) : bool :=
  match propertiesOf s with
  | Some ps =>
      if typeIs "object" s then
        match requiredOf s with
        | Some names =>
            if list_eq_dec string_dec names (requiredProps ps) then true else false
        | None =>
            match requiredProps ps with [] => true | _ :: _ => false end
        end
      else true
  | None => true
  end.

(** The invariant at every node of the tree, the items of arrays
    included. *)
Fixpoint everyObjectExact (s : schema) : bool :=
  requiredIsExact s &&
  match s with
  | Schema _ _ _ props items _ =>
      match props with
      | Some ps => forallb (fun entry => everyObjectExact (snd entry)) ps
      | None => true
      end &&
      match items with
      | Some i => everyObjectExact i
      | None => true
      end
  end.

(** The invariant at the nodes the recursion of
    [addRequiredToAllObjects] reaches: object nodes linked by
    [properties]. *)
Fixpoint everyReachedObjectExact (s : schema) : bool :=
  match s with
  | Schema _ _ _ props _ _ =>
      match props with
      | Some ps =>
          if typeIs "object" s then
            requiredIsExact s &&
            forallb (fun entry => everyReachedObjectExact (snd entry)) ps
          else true
      | None => true
      end
  end.

(** No node of the tree carries a [required] member yet. *)
Fixpoint noRequired (s : schema) : bool :=
  match s with
  | Schema _ _ _ props items req =>
      match req with None => true | Some _ => false end &&
      match props with
      | Some ps => forallb (fun entry => noRequired (snd entry)) ps
      | None => true
      end &&
      match items with
      | Some i => noRequired i
      | None => true
      end
  end.

End SchemaSynthesis.

(* ================================================================== *)
(** ** src/katalist.ts: the client facade                               *)
(* ================================================================== *)

Module Facade.
Import JsString SchemaSynthesis.

(** An exception, by its message. *)
Definition exn : Type := string.

(** A computation that returns or throws. *)
Inductive completion (A : Type) : Type :=
| Returned (value : A)
| Thrown (error : exn).
Arguments Returned {A} value.
Arguments Thrown {A} error.

Definition bind {A B : Type} (m : completion A) (k : A -> completion B)
  : completion B :=
  match m with
  | Returned a => k a
  | Thrown e => Thrown e
  end.

Notation "x <- m ;; k" := (bind m (fun x => k))
  (at level 61, m at next level, right associativity).

(** [try { m } catch (_) { }]. *)
Definition tryCatch (m : completion unit) : completion unit :=
  match m with
  | Returned u => Returned u
  | Thrown _ => Returned tt
  end.

(** [KatalistGeneratingSchemaOptions]; a missing flag is [false], a
    missing string is [None]. *)
Record KatalistGeneratingSchemaOptions : Type := {
  generateSchema : bool;
  interfaceName : option string;
  generateInputSchema : bool;
  inputInterfaceName : option string;
  sourceFile : option string
}.

(** Truthiness of an optional string: present and not empty. *)
Definition given (s : option string) : bool :=
  match s with
  | Some text => negb (String.eqb text EmptyString)
  | None => false
  end.

Definition textOf (s : option string) : string :=
  match s with Some text => text | None => EmptyString end.

(** What the facade calls and does not define itself. *)
Record Collaborators : Type := {
  (** [error.stack] at the time of the call *)
  stack : option string;
  (** [await response.json()]: throws when the body is not JSON *)
  responseJson : completion json;
  (** [generateSchema.json] of generate-schema *)
  generate : json -> schema;
  (** [jsonSchemaToZod] of json-schema-to-zod *)
  jsonSchemaToZod : schema -> completion string;
  (** [transformHttpClientCall(sourceFile, false)] *)
  transform : string -> completion string
}.

Inductive verb : Type := GET | POST | PUT | DELETE.

(** [jsonToZodSchema]. *)
Definition jsonToZodSchema (c : Collaborators) (value : json) (title : string)
  : completion string :=
  jsonSchemaToZod c (jsontoJsonSchema (generate c) value title).

(** The inner [generateSchema] helper: synthesis, then the write of the
    schema module, which is started and not awaited. *)
Definition generateSchemaFile (c : Collaborators) (data : json)
  (name : string) : completion unit :=
  _ <- jsonToZodSchema c data name ;;
  Returned tt.

(** [typeof x === "object"]: objects, arrays and null. *)
Definition typeofObject (x : json) : bool :=
  match x with
  | JObject _ | JArray _ | JNull => true
  | _ => false
  end.

(** The guarded call of the transformer that closes every hook. *)
Definition guardedTransform (c : Collaborators)
  (o : KatalistGeneratingSchemaOptions) : completion unit :=
  if given (sourceFile o)
  then tryCatch (_ <- transform c (textOf (sourceFile o)) ;; Returned tt)
  else Returned tt.

(** The [afterResponse] hook of [get]. *)
Definition afterResponseGet (c : Collaborators)
  (o : KatalistGeneratingSchemaOptions) : completion unit :=
  if generateSchema o && given (interfaceName o) then
    body <- responseJson c ;;
    match body with
    | JArray elements =>
        match elements with
        | first :: _ =>
            if typeofObject first then
              _ <- generateSchemaFile c body (textOf (interfaceName o)) ;;
              guardedTransform c o
            else Returned tt
        | [] => Returned tt
        end
    | JObject _ =>
        _ <- generateSchemaFile c body (textOf (interfaceName o)) ;;
        guardedTransform c o
    | _ => guardedTransform c o
    end
  else Returned tt.

(** The [afterResponse] hook shared by [post], [put] and [delete]. *)
Definition afterResponseOther (c : Collaborators)
  (o : KatalistGeneratingSchemaOptions) : completion unit :=
  _ <- (if generateSchema o && given (interfaceName o) then
          body <- responseJson c ;;
          match body with
          | JObject _ => generateSchemaFile c body (textOf (interfaceName o))
          | _ => Returned tt
          end
        else Returned tt) ;;
  guardedTransform c o.

(** The [afterResponse] hook of the first version of [get]
    (src/katalist.ts): arrays are not handled, and the transformer runs
    only when a schema was asked for. *)
Definition afterResponseFirstGet (c : Collaborators)
  (o : KatalistGeneratingSchemaOptions) : completion unit :=
  if generateSchema o && given (interfaceName o) then
    body <- responseJson c ;;
    _ <- match body with
         | JObject _ => generateSchemaFile c body (textOf (interfaceName o))
         | _ => Returned tt
         end ;;
    guardedTransform c o
  else Returned tt.

Definition afterResponse (v : verb) : Collaborators ->
  KatalistGeneratingSchemaOptions -> completion unit :=
  match v with
  | GET => afterResponseGet
  | _ => afterResponseOther
  end.

(** The detection of the caller file that opens every verb. *)
Definition withDetectedSource (v : verb) (c : Collaborators)
  (o : KatalistGeneratingSchemaOptions) : KatalistGeneratingSchemaOptions :=
  let wanted :=
    match v with
    | GET | DELETE => generateSchema o && given (interfaceName o)
    | POST | PUT => generateSchema o || generateInputSchema o
    end in
  if wanted && negb (given (sourceFile o)) then
    match CallerDetection.getCallerFilePath (stack c) with
    | Some detected =>
        if negb (String.eqb detected EmptyString)
        then {| generateSchema := generateSchema o;
                interfaceName := interfaceName o;
                generateInputSchema := generateInputSchema o;
                inputInterfaceName := inputInterfaceName o;
                sourceFile := Some detected |}
        else o
    | None => o
    end
  else o.

(** The input schema that [post] and [put] write before the request;
    [data] is the request body, [None] when it is left out. *)
Definition inputSchemaStep (v : verb) (c : Collaborators)
  (o : KatalistGeneratingSchemaOptions) (data : option json)
  : completion unit :=
  match v, data with
  | (POST | PUT), Some (JObject members) =>
      if generateInputSchema o && given (inputInterfaceName o)
      then generateSchemaFile c (JObject members) (textOf (inputInterfaceName o))
      else Returned tt
  | _, _ => Returned tt
  end.

(** A verb of the facade on a response that arrived with a success
    status: ky runs the hook and hands the response to the caller, or
    rejects with what the hook threw. *)
Definition call {Response : Type} (v : verb) (c : Collaborators)
  (o : KatalistGeneratingSchemaOptions) (data : option json)
  (response : Response) : completion Response :=
  let o' := withDetectedSource v c o in
  _ <- inputSchemaStep v c o' data ;;
  _ <- afterResponse v c o' ;;
  Returned response.

End Facade.

(* ================================================================== *)
(** ** The syntax tree the transformer works on (ts-morph)              *)
(* ================================================================== *)

Module Ast.
Import JsString.

(** The node kinds the transformer tells apart; every other kind is
    [OtherSyntax]. *)
Inductive SyntaxKind : Type :=
| Identifier
| StringLiteral
| ObjectLiteralExpression
| PropertyAssignment
| ShorthandPropertyAssignment
| SpreadAssignment
| MethodDeclaration
| PropertyAccessExpression
| CallExpression
| NewExpression
| VariableDeclaration
| FunctionDeclaration
| FunctionExpression
| ArrowFunction
| OtherSyntax.

Definition kind_eqb (a b : SyntaxKind) : bool :=
  match a, b with
  | Identifier, Identifier
  | StringLiteral, StringLiteral
  | ObjectLiteralExpression, ObjectLiteralExpression
  | PropertyAssignment, PropertyAssignment
  | ShorthandPropertyAssignment, ShorthandPropertyAssignment
  | SpreadAssignment, SpreadAssignment
  | MethodDeclaration, MethodDeclaration
  | PropertyAccessExpression, PropertyAccessExpression
  | CallExpression, CallExpression
  | NewExpression, NewExpression
  | VariableDeclaration, VariableDeclaration
  | FunctionDeclaration, FunctionDeclaration
  | FunctionExpression, FunctionExpression
  | ArrowFunction, ArrowFunction
  | OtherSyntax, OtherSyntax => true
  | _, _ => false
  end.

(** A node: its kind, its name, its type arguments and its children.

    - [Identifier]: [name] is the identifier, no children;
    - [StringLiteral]: [name] is the literal value, no children;
    - [ObjectLiteralExpression]: the children are the properties;
    - [PropertyAssignment]: [name] is the property name, the one child is
      the initializer;
    - [ShorthandPropertyAssignment], [MethodDeclaration]: [name] is the
      property name;
    - [SpreadAssignment]: the one child is the spread expression;
    - [PropertyAccessExpression]: [name] is the member name, the one
      child is the object expression;
    - [CallExpression], [NewExpression]: the first child is the callee,
      the others are the arguments; [typeArguments] holds the text of
      each type argument;
    - [VariableDeclaration]: [name] is the variable, the child, when
      there is one, is the initializer;
    - [FunctionDeclaration], [FunctionExpression]: [name] is the function
      name, empty when it has none;
    - [OtherSyntax]: any other syntax; [name] is its own leading text
      (keywords, punctuation), the children follow. *)
Inductive Node : Type :=
| mkNode (kind : SyntaxKind) (name : string) (typeArguments : list string)
         (children : list Node).

Definition getKind (n : Node) : SyntaxKind :=
  match n with mkNode k _ _ _ => k end.
Definition getName (n : Node) : string :=
  match n with mkNode _ nm _ _ => nm end.
Definition getTypeArguments (n : Node) : list string :=
  match n with mkNode _ _ ta _ => ta end.
Definition getChildren (n : Node) : list Node :=
  match n with mkNode _ _ _ cs => cs end.

Definition isKind (k : SyntaxKind) (n : Node) : bool := kind_eqb (getKind n) k.

(** [getExpression()] of a call, a constructor call or a property access;
    [getInitializer()] of a property assignment or a variable. *)
Definition getExpression (n : Node) : option Node := hd_error (getChildren n).
Definition getInitializer (n : Node) : option Node := hd_error (getChildren n).

(** [getArguments()]. *)
Definition getArguments (n : Node) : list Node := tl (getChildren n).

(** A property that answers [getName()]. *)
Definition isNamedProperty (p : Node) : bool :=
  isKind PropertyAssignment p || isKind ShorthandPropertyAssignment p
  || isKind MethodDeclaration p.

Definition propertyNamed (propertyName : string) (p : Node) : bool :=
  isNamedProperty p && String.eqb (getName p) propertyName.

(** [objectLiteral.getProperty(name)]: the first property of that name. *)
Definition getProperty (propertyName : string) (objectLiteral : Node)
  : option Node :=
  find (propertyNamed propertyName) (getChildren objectLiteral).

Definition hasProperty (propertyName : string) (objectLiteral : Node) : bool :=
  match getProperty propertyName objectLiteral with
  | Some _ => true
  | None => false
  end.

(** [property.remove()] for the property [getProperty(name)] returns:
    the literal without its first property of that name. *)
Fixpoint removeFirst (propertyName : string) (properties : list Node)
  : list Node :=
  match properties with
  | [] => []
  | p :: rest =>
      if propertyNamed propertyName p then rest
      else p :: removeFirst propertyName rest
  end.

Definition removeProperty (propertyName : string) (objectLiteral : Node)
  : Node :=
  match objectLiteral with
  | mkNode k nm ta cs => mkNode k nm ta (removeFirst propertyName cs)
  end.

(** [forEachDescendant] order: every node below [n], parents before
    children, left to right. *)
Fixpoint getDescendants (n : Node) : list Node :=
  match n with
  | mkNode _ _ _ cs => flat_map (fun c => c :: getDescendants c) cs
  end.

(** A node with everything below it. *)
Definition subtree (n : Node) : list Node := n :: getDescendants n.

(** The descendants with, for each, its ancestors inside the tree,
    nearest first. *)
Fixpoint getDescendantsIn (ancestors : list Node) (n : Node)
  : list (Node * list Node) :=
  match n with
  | mkNode _ _ _ cs =>
      flat_map
        (fun c => (c, n :: ancestors) :: getDescendantsIn (n :: ancestors) c)
        cs
  end.

(** One edit applied at every node, children before parents. *)
Fixpoint mapTree (edit : Node -> Node) (n : Node) : Node :=
  match n with
  | mkNode k nm ta cs => edit (mkNode k nm ta (map (mapTree edit) cs))
  end.

(** A test that holds at a node and at every node below it. *)
Fixpoint everywhere (p : Node -> bool) (n : Node) : bool :=
  p n &&
  match n with
  | mkNode _ _ _ cs => forallb (everywhere p) cs
  end.

(** The names of the properties of an object literal that have one. *)
Definition propertyNames (objectLiteral : Node) : list string :=
  map getName (filter isNamedProperty (getChildren objectLiteral)).

Fixpoint distinct (names : list string) : bool :=
  match names with
  | [] => true
  | x :: rest => negb (existsb (String.eqb x) rest) && distinct rest
  end.

(** An object literal names each of its properties once, as TypeScript
    requires (error TS1117 otherwise); every other node passes. *)
Definition distinctPropertyNames (n : Node) : bool :=
  if isKind ObjectLiteralExpression n then distinct (propertyNames n)
  else true.


(** An edit that keeps the kind and the name of every node. *)
Definition keepsHead (edit : Node -> Node) : Prop :=
  forall n, getKind (edit n) = getKind n /\ getName (edit n) = getName n.

(** Pieces joined by [", "]. *)
Definition commaList (pieces : list string) : string :=
  String.concat ", " pieces.

Definition typeArgumentsText (typeArgs : list string) : string :=
  match typeArgs with
  | [] => EmptyString
  | _ :: _ => "<" ++ commaList typeArgs ++ ">"
  end.

(** The text of a tree written in one plain layout: tokens joined with
    single spaces after commas and colons, nothing else.  It is the text
    [getText()] returns for an identifier, which is all the locators
    compare a text with; the text of a call as its file spells it, which
    the type-parameter passes rewrite, is not a function of the tree and
    comes from the host (see [Transformer.Host]).  A leaf has no
    children; were there any, their text would follow. *)
Fixpoint getText (n : Node) : string :=
  match n with
  | mkNode k nm ta cs =>
      let texts := map getText cs in
      match k with
      | Identifier => nm ++ String.concat EmptyString texts
      | StringLiteral => dquote ++ nm ++ dquote ++ String.concat EmptyString texts
      | ObjectLiteralExpression =>
          match texts with
          | [] => "{}"
          | _ :: _ => "{ " ++ commaList texts ++ " }"
          end
      | PropertyAssignment => nm ++ ": " ++ String.concat EmptyString texts
      | ShorthandPropertyAssignment => nm ++ String.concat EmptyString texts
      | SpreadAssignment => "..." ++ String.concat EmptyString texts
      | MethodDeclaration => nm ++ String.concat EmptyString texts
      | PropertyAccessExpression =>
          String.concat EmptyString texts ++ "." ++ nm
      | CallExpression =>
          hd EmptyString texts ++ typeArgumentsText ta
          ++ "(" ++ commaList (tl texts) ++ ")"
      | NewExpression =>
          "new " ++ hd EmptyString texts ++ typeArgumentsText ta
          ++ "(" ++ commaList (tl texts) ++ ")"
      | VariableDeclaration =>
          match texts with
          | [] => nm
          | _ :: _ => nm ++ " = " ++ String.concat EmptyString texts
          end
      | FunctionDeclaration | FunctionExpression =>
          "function " ++ nm ++ String.concat EmptyString texts
      | ArrowFunction => String.concat EmptyString texts
      | OtherSyntax => nm ++ String.concat EmptyString texts
      end
  end.

(** An import declaration. *)
Record ImportDeclaration : Type := {
  namedImports : list string;
  moduleSpecifier : string;
  isTypeOnly : bool;
  defaultImport : option string
}.

(** A parsed source file: its absolute path, its import declarations and
    the statements after them. *)
Record SourceFile : Type := {
  getFilePath : string;
  getImportDeclarations : list ImportDeclaration;
  getStatements : list Node
}.

(** [sourceFile.getDescendants()], the imports aside. *)
Definition fileDescendants (sourceFile : SourceFile) : list Node :=
  flat_map subtree (getStatements sourceFile).

(** The same with the ancestors of each node; a statement has none
    inside the tree, its parent is the source file. *)
Definition fileDescendantsIn (sourceFile : SourceFile)
  : list (Node * list Node) :=
  flat_map (fun s => (s, []) :: getDescendantsIn [] s)
    (getStatements sourceFile).

Definition getDescendantsOfKind (k : SyntaxKind) (sourceFile : SourceFile)
  : list Node :=
  filter (isKind k) (fileDescendants sourceFile).

Definition importText (d : ImportDeclaration) : string :=
  "import " ++ (if isTypeOnly d then "type " else EmptyString)
  ++ match defaultImport d with
     | Some x =>
         x ++ match namedImports d with [] => EmptyString | _ :: _ => ", " end
     | None => EmptyString
     end
  ++ match namedImports d with
     | [] => EmptyString
     | _ :: _ => "{ " ++ commaList (namedImports d) ++ " }"
     end
  ++ " from " ++ dquote ++ moduleSpecifier d ++ dquote ++ ";".

(** The text of a file written in the plain layout, one import or
    statement to a line. *)
Definition plainFullText (sourceFile : SourceFile) : string :=
  String.concat (String newline EmptyString)
    (map importText (getImportDeclarations sourceFile)
     ++ map getText (getStatements sourceFile))%list.

End Ast.

(* ================================================================== *)
(** ** src/transformer.ts                                               *)
(* ================================================================== *)

Module Transformer.
Import JsString Ast.

(** What the transformer takes from node:path, from the process, from
    the formatter and from ts-morph.  The tree keeps no layout, so the
    text of a node and the tree of a text are ts-morph's to give. *)
Record Host : Type := {
  dirname : string -> string;
  relative : string -> string -> string;
  join : string -> string -> string;
  cwd : string;
  (** the absolute path ts-morph files a source file under *)
  resolve : string -> string;
  (** [biome.formatContent(projectKey, content, { filePath }).content] *)
  formatContent : string -> string -> string;
  (** the imports and statements ts-morph reads from the text of the
      file at a path *)
  parseSource : string -> string -> list ImportDeclaration * list Node;
  (** [sourceFile.getText()]: the text ts-morph holds for a file, edits
      included *)
  sourceText : SourceFile -> string;
  (** [node.getText()] in the file at a path: the text of the node as
      the file spells it *)
  nodeText : string -> Node -> string;
  (** the node [node.replaceWithText(text)] leaves in the file at a
      path, nothing when it raises *)
  parseExpression : string -> string -> option Node
}.

Record HttpClientInfo : Type := {
  typeName : string;
  functionName : string
}.

(** The filter of [findHttpClientCallsWithZodOutput]. *)
Definition hasZodOutputArgument (newExpr : Node) : bool :=
  match getExpression newExpr with
  | Some expression =>
      String.eqb (getText expression) "HttpClient"
      && existsb (fun arg => isKind ObjectLiteralExpression arg
                             && hasProperty "zodOutput" arg)
           (getArguments newExpr)
  | None => false
  end.

Definition isHttpClientWithZodOutput (n : Node) : bool :=
  isKind NewExpression n && hasZodOutputArgument n.

Definition findHttpClientCallsWithZodOutput (sourceFile : SourceFile)
  : list Node :=
  filter hasZodOutputArgument (getDescendantsOfKind NewExpression sourceFile).

(** The filter of [findKatalistCallsWithSchemaGeneration]. *)
Definition hasSchemaGenerationOptions (callExpr : Node) : bool :=
  match getExpression callExpr with
  | Some expression =>
      if negb (isKind PropertyAccessExpression expression) then false
      else if negb (String.eqb (getName expression) "get") then false
      else
        let args := getArguments callExpr in
        if Nat.ltb (List.length args) 2 then false
        else
          match nth_error args 1 with
          | Some optionsArg =>
              if negb (isKind ObjectLiteralExpression optionsArg) then false
              else hasProperty "generateSchema" optionsArg
                   && hasProperty "interfaceName" optionsArg
          | None => false
          end
  | None => false
  end.

Definition isKatalistCall (n : Node) : bool :=
  isKind CallExpression n && hasSchemaGenerationOptions n.

Definition findKatalistCallsWithSchemaGeneration (sourceFile : SourceFile)
  : list Node :=
  filter hasSchemaGenerationOptions
    (getDescendantsOfKind CallExpression sourceFile).

(** The type name [addTypeParametersToKatalistCalls] derives for one of
    the located calls, [None] on every path that adds nothing. *)
Definition typeNameToAdd (callExpr : Node) : option string :=
  match getExpression callExpr with
  | Some expression =>
      if negb (isKind PropertyAccessExpression expression) then None
      else if Nat.ltb 0 (List.length (getTypeArguments callExpr)) then None
      else
        let args := getArguments callExpr in
        if Nat.leb 2 (List.length args) then
          match nth_error args 1 with
          | Some optionsArg =>
              if isKind ObjectLiteralExpression optionsArg then
                match getProperty "interfaceName" optionsArg with
                | Some interfaceNameProperty =>
                    if isKind PropertyAssignment interfaceNameProperty then
                      match getInitializer interfaceNameProperty with
                      | Some interfaceNameInitializer =>
                          if isKind StringLiteral interfaceNameInitializer
                          then Some (getName interfaceNameInitializer
                                     ++ "SchemaType")
                          else None
                      | None => None
                      end
                    else None
                | None => None
                end
              else None
          | None => None
          end
        else None
  | None => None
  end.

(** [callText.replace(/\.get\(/, `.get<${typeName}>(`)]. *)
Definition newCallText (callText typeName : string) : string :=
  replace ".get(" (".get<" ++ typeName ++ ">(") callText.

Definition withTypeArguments (typeArgs : list string) (n : Node) : Node :=
  match n with mkNode k nm _ cs => mkNode k nm typeArgs cs end.

(** Lines 267 to 274: the text of the call is read, rewritten and put
    back in place of the call; the result is the node ts-morph reads
    from the new text, whatever that is, and nothing when
    [replaceWithText] raises. *)
Definition replaceWithTypeParameter (host : Host) (filePath : string)
  (callExpr : Node) (typeName : string) : option Node :=
  parseExpression host filePath
    (newCallText (nodeText host filePath callExpr) typeName).

(** The body of the loop of [addTypeParametersToKatalistCalls] on one
    located call. *)
Definition addTypeParameter (host : Host) (filePath : string)
  (callExpr : Node) : Node :=
  match typeNameToAdd callExpr with
  | Some typeName =>
      match replaceWithTypeParameter host filePath callExpr typeName with
      | Some replaced => replaced
      | None => callExpr
      end
  | None => callExpr
  end.

Definition typeParameterEdit (host : Host) (filePath : string) (n : Node)
  : Node :=
  if isKatalistCall n then addTypeParameter host filePath n else n.

(** The loop on one subtree.  The located calls come in document order,
    a call before what is below it, and the loop reads each as the file
    had it: a call that is replaced goes with everything below it, a
    call that is kept has the loop go on below it. *)
Fixpoint typeParameters (host : Host) (filePath : string) (n : Node) : Node :=
  match n with
  | mkNode k nm ta cs =>
      if isKatalistCall n then
        match typeNameToAdd n with
        | Some _ => typeParameterEdit host filePath n
        | None => mkNode k nm ta (map (typeParameters host filePath) cs)
        end
      else mkNode k nm ta (map (typeParameters host filePath) cs)
  end.

(** ts-morph forgets a node that is replaced or removed, with everything
    below it, and raises when a forgotten node is used.  The loop
    completes when no replacement raises and no replaced call holds
    another located call. *)
Definition typeParametersComplete (host : Host) (sourceFile : SourceFile)
  : bool :=
  forallb
    (fun callExpr =>
       match typeNameToAdd callExpr with
       | Some typeName =>
           match replaceWithTypeParameter host (getFilePath sourceFile)
                   callExpr typeName with
           | Some _ => negb (existsb isKatalistCall (getDescendants callExpr))
           | None => false
           end
       | None => true
       end)
    (findKatalistCallsWithSchemaGeneration sourceFile).

Definition withStatements (sourceFile : SourceFile) (statements : list Node)
  : SourceFile :=
  {| getFilePath := getFilePath sourceFile;
     getImportDeclarations := getImportDeclarations sourceFile;
     getStatements := statements |}.

(** [addTypeParametersToKatalistCalls]; [None] when the loop raises. *)
Definition addTypeParametersToKatalistCalls (host : Host)
  (sourceFile : SourceFile) : option SourceFile :=
  if typeParametersComplete host sourceFile
  then Some (withStatements sourceFile
               (map (typeParameters host (getFilePath sourceFile))
                  (getStatements sourceFile)))
  else None.

(** [calculateHttpSchemasPath]. *)
Definition calculateHttpSchemasPath (host : Host) (sourceFilePath : string)
  : string :=
  let sourceDir := dirname host sourceFilePath in
  let relativeToRoot := relative host sourceDir (cwd host) in
  let httpSchemasPath := join host relativeToRoot "http-schemas" in
  if startsWith ".." httpSchemasPath then httpSchemasPath
  else "./" ++ httpSchemasPath.

(** The schema name of a type name: the type name without its first
    [SchemaType]. *)
Definition schemaNameOf (typeName : string) : string :=
  replaceFirst "SchemaType" EmptyString typeName.

(** The test [hasImport] of [addKatalistSchemaImports]. *)
Definition hasImport (existingImports : list ImportDeclaration)
  (schemaName typeName : string) : bool :=
  existsb
    (fun importDecl =>
       includes schemaName (moduleSpecifier importDecl)
       && existsb (fun namedImport => String.eqb namedImport typeName)
            (namedImports importDecl))
    existingImports.

Definition schemaImport (httpSchemasBasePath schemaName typeName : string)
  : ImportDeclaration :=
  {| namedImports := [typeName];
     moduleSpecifier := httpSchemasBasePath ++ "/" ++ schemaName;
     isTypeOnly := true;
     defaultImport := None |}.

(** The import declarations the loop of [addKatalistSchemaImports] adds,
    in order.  [existingImports] is read once, before the loop. *)
Definition importsToAdd (existingImports : list ImportDeclaration)
  (httpSchemasBasePath : string) (katalistCalls : list Node)
  : list ImportDeclaration :=
  flat_map
    (fun callExpr =>
       match getTypeArguments callExpr with
       | typeName :: _ =>
           let schemaName := schemaNameOf typeName in
           if hasImport existingImports schemaName typeName then []
           else [schemaImport httpSchemasBasePath schemaName typeName]
       | [] => []
       end)
    katalistCalls.

(** [addKatalistSchemaImports]. *)
Definition addKatalistSchemaImports (host : Host) (sourceFile : SourceFile)
  : SourceFile :=
  let existingImports := getImportDeclarations sourceFile in
  let httpSchemasBasePath :=
    calculateHttpSchemasPath host (getFilePath sourceFile) in
  let katalistCalls := findKatalistCallsWithSchemaGeneration sourceFile in
  {| getFilePath := getFilePath sourceFile;
     getImportDeclarations :=
       (existingImports
        ++ importsToAdd existingImports httpSchemasBasePath katalistCalls)%list;
     getStatements := getStatements sourceFile |}.

(** The body of the inner loop of [removeZodOutput] on one argument. *)
Definition removeZodOutputFrom (arg : Node) : Node :=
  if isKind ObjectLiteralExpression arg && hasProperty "zodOutput" arg
  then removeProperty "forceFileTransform" (removeProperty "zodOutput" arg)
  else arg.

Definition zodOutputEdit (n : Node) : Node :=
  if isHttpClientWithZodOutput n then
    match n with
    | mkNode k nm ta (expression :: args) =>
        mkNode k nm ta (expression :: map removeZodOutputFrom args)
    | _ => n
    end
  else n.

(** The properties [removeZodOutput] removes from one argument. *)
Definition zodOutputRemovals (arg : Node) : list Node :=
  if isKind ObjectLiteralExpression arg && hasProperty "zodOutput" arg
  then match getProperty "zodOutput" arg with Some p => [p] | None => [] end
       ++ match getProperty "forceFileTransform" arg with
          | Some p => [p]
          | None => []
          end
  else [].

(** The loop of [removeZodOutput] completes when no removed property
    holds another located constructor call. *)
Definition zodOutputRemovalComplete (sourceFile : SourceFile) : bool :=
  forallb
    (fun call =>
       forallb
         (fun removed =>
            negb (existsb isHttpClientWithZodOutput (subtree removed)))
         (flat_map zodOutputRemovals (getArguments call)))
    (findHttpClientCallsWithZodOutput sourceFile).

(** [removeZodOutput], as the source file it leaves; [None] when the
    loop raises. *)
Definition removeZodOutput (sourceFile : SourceFile) : option SourceFile :=
  if zodOutputRemovalComplete sourceFile
  then Some (withStatements sourceFile
               (map (mapTree zodOutputEdit) (getStatements sourceFile)))
  else None.

(** The three removals of [removeSchemaGenerationOptions] on an options
    literal. *)
Definition removeGenerationOptions (optionsArg : Node) : Node :=
  removeProperty "sourceFile"
    (removeProperty "interfaceName"
       (removeProperty "generateSchema" optionsArg)).

Definition generationOptionsEdit (n : Node) : Node :=
  if isKatalistCall n then
    match n with
    | mkNode k nm ta (expression :: url :: optionsArg :: rest) =>
        if isKind ObjectLiteralExpression optionsArg
        then mkNode k nm ta
               (expression :: url :: removeGenerationOptions optionsArg :: rest)
        else n
    | _ => n
    end
  else n.

(** The properties [removeSchemaGenerationOptions] removes from one
    located call. *)
Definition generationOptionRemovals (call : Node) : list Node :=
  match nth_error (getArguments call) 1 with
  | Some optionsArg =>
      if isKind ObjectLiteralExpression optionsArg then
        flat_map
          (fun propertyName =>
             match getProperty propertyName optionsArg with
             | Some p => [p]
             | None => []
             end)
          ["generateSchema"; "interfaceName"; "sourceFile"]
      else []
  | None => []
  end.

Definition generationOptionsRemovalComplete (sourceFile : SourceFile) : bool :=
  forallb
    (fun call =>
       forallb
         (fun removed => negb (existsb isKatalistCall (subtree removed)))
         (generationOptionRemovals call))
    (findKatalistCallsWithSchemaGeneration sourceFile).

(** [removeSchemaGenerationOptions], as the source file it leaves. *)
Definition removeSchemaGenerationOptions (sourceFile : SourceFile)
  : option SourceFile :=
  if generationOptionsRemovalComplete sourceFile
  then Some (withStatements sourceFile
               (map (mapTree generationOptionsEdit) (getStatements sourceFile)))
  else None.

(** [formatWithBiome]. *)
Definition formatWithBiome (host : Host) (sourceFile : SourceFile) : string :=
  formatContent host (sourceText host sourceFile) (getFilePath sourceFile).

(** The four passes of [transformHttpClientCall] on the parsed file. *)
Definition transformSourceFile (host : Host) (sourceFile : SourceFile)
  : option SourceFile :=
  match addTypeParametersToKatalistCalls host sourceFile with
  | Some typed =>
      match removeZodOutput (addKatalistSchemaImports host typed) with
      | Some cleaned => removeSchemaGenerationOptions cleaned
      | None => None
      end
  | None => None
  end.

(** The files on disk: the text at each path that has a file. *)
Definition Disk : Type := string -> option string.

(** [write(path, content)] of bun. *)
Definition write (path content : string) (disk : Disk) : Disk :=
  fun p => if String.eqb p path then Some content else disk p.

(** The file ts-morph reads from a text found at a path. *)
Definition parsedAt (host : Host) (sourceFilePath content : string)
  : SourceFile :=
  let parsed := parseSource host (resolve host sourceFilePath) content in
  {| getFilePath := resolve host sourceFilePath;
     getImportDeclarations := fst parsed;
     getStatements := snd parsed |}.

(** [project.addSourceFileAtPath] followed by [getSourceFileOrThrow]:
    nothing when the path has no file. *)
Definition addSourceFileAtPath (host : Host) (disk : Disk)
  (sourceFilePath : string) : option SourceFile :=
  match disk sourceFilePath with
  | Some content => Some (parsedAt host sourceFilePath content)
  | None => None
  end.

(** [transformHttpClientCall]: the formatted text it returns and the
    disk it leaves; [None] when it raises (no file at the path, or a
    pass that raises). *)
Definition transformHttpClientCall (host : Host) (disk : Disk)
  (sourceFilePath : string) (addTransformFilePath : bool)
  : option (string * Disk) :=
  match addSourceFileAtPath host disk sourceFilePath with
  | Some sourceFile =>
      match transformSourceFile host sourceFile with
      | Some transformed =>
          let formatted := formatWithBiome host transformed in
          Some (formatted,
                write (OutputPath.writeTarget sourceFilePath
                         addTransformFilePath)
                  formatted disk)
      | None => None
      end
  | None => None
  end.

(** A property that [removeSchemaGenerationOptions] looks up. *)
Definition isGenerationOption (p : Node) : bool :=
  propertyNamed "generateSchema" p || propertyNamed "interfaceName" p
  || propertyNamed "sourceFile" p.

(** Whether the node has a second argument that is an object literal. *)
Definition secondArgumentIsLiteral (n : Node) : bool :=
  match nth_error (getArguments n) 1 with
  | Some optionsArg => isKind ObjectLiteralExpression optionsArg
  | None => false
  end.

Definition notKatalistCall (n : Node) : bool := negb (isKatalistCall n).
Definition notHttpClientWithZodOutput (n : Node) : bool :=
  negb (isHttpClientWithZodOutput n).

(** Neither locator matches the node. *)
Definition unmatched (n : Node) : bool :=
  negb (isKatalistCall n) && negb (isHttpClientWithZodOutput n).

(** The three tree edits of [transformHttpClientCall], in order, on one
    subtree of the file at a path. *)
Definition rewrite (host : Host) (filePath : string) (n : Node) : Node :=
  mapTree generationOptionsEdit
    (mapTree zodOutputEdit (typeParameters host filePath n)).

(** The first pass when each call is read back, from its new text, as
    the call itself with the one type argument: what the pattern
    [/\.get\(/] is written for. *)
Definition typeArgumentEdit (n : Node) : Node :=
  if isKatalistCall n then
    match typeNameToAdd n with
    | Some typeName => withTypeArguments [typeName] n
    | None => n
    end
  else n.

(** Every call of the file that the first pass types is read back that
    way by the host. *)
Definition typedAsWritten (host : Host) (sourceFile : SourceFile) : Prop :=
  forall callExpr typeName,
    In callExpr (findKatalistCallsWithSchemaGeneration sourceFile) ->
    typeNameToAdd callExpr = Some typeName ->
    parseExpression host (getFilePath sourceFile)
      (newCallText (nodeText host (getFilePath sourceFile) callExpr) typeName)
    = Some (withTypeArguments [typeName] callExpr).

(** The three tree edits on one subtree when the calls are typed as
    written. *)
Definition rewriteAsWritten (n : Node) : Node :=
  mapTree generationOptionsEdit
    (mapTree zodOutputEdit (mapTree typeArgumentEdit n)).




(** No object literal of the file names a property twice. *)
Definition distinctKeys (sourceFile : SourceFile) : bool :=
  forallb (everywhere distinctPropertyNames) (getStatements sourceFile).

(** An edit that leaves object literals alone. *)
Definition sparesLiterals (edit : Node -> Node) : Prop :=
  forall n, isKind ObjectLiteralExpression n = true -> edit n = n.

Definition gentle (edit : Node -> Node) : Prop :=
  keepsHead edit /\ sparesLiterals edit.


(** An edit that keeps the property names of object literals distinct. *)
Definition keepsDistinct (edit : Node -> Node) : Prop :=
  forall n, everywhere distinctPropertyNames n = true ->
            everywhere distinctPropertyNames (edit n) = true.

(** [extractSchemaNameFromZodOutput]. *)
Definition extractSchemaNameFromZodOutput (zodOutputProperty : Node)
  : option string :=
  match getInitializer zodOutputProperty with
  | Some initializer =>
      if negb (isKind ObjectLiteralExpression initializer) then None
      else
        match getProperty "schemaName" initializer with
        | Some schemaNameProperty =>
            if negb (isKind PropertyAssignment schemaNameProperty) then None
            else
              match getInitializer schemaNameProperty with
              | Some schemaNameInitializer =>
                  if negb (isKind StringLiteral schemaNameInitializer)
                  then None
                  else Some (getName schemaNameInitializer
                             ++ "OutputSchemaType")
              | None => None
              end
        | None => None
        end
  | None => None
  end.

(** [isFunctionVariableDeclaration]. *)
Definition isFunctionVariableDeclaration (n : Node) : bool :=
  if negb (isKind VariableDeclaration n) then false
  else
    match getInitializer n with
    | Some initializer =>
        isKind ArrowFunction initializer || isKind FunctionExpression initializer
    | None => false
    end.

(** [x || "anonymous"]. *)
Definition orAnonymous (x : string) : string :=
  if String.eqb x EmptyString then "anonymous" else x.

(** [getNodeName]. *)
Definition getNodeName (n : Node) : string :=
  if isKind VariableDeclaration n then orAnonymous (getName n)
  else if isKind FunctionDeclaration n then orAnonymous (getName n)
  else if isKind FunctionExpression n then orAnonymous (getName n)
  else "anonymous".

(** [findContainingFunctionName(node)], from the ancestors of [node],
    nearest first; the source file ends the chain. *)
Fixpoint findContainingFunctionName (ancestors : list Node) : string :=
  match ancestors with
  | [] => "global"
  | current :: above =>
      if isKind FunctionDeclaration current || isKind FunctionExpression current
      then getNodeName current
      else if isKind ArrowFunction current then
        match above with
        | parent :: _ =>
            if isKind VariableDeclaration parent then getNodeName parent
            else "anonymous"
        | [] => "anonymous"
        end
      else if isFunctionVariableDeclaration current then getNodeName current
      else findContainingFunctionName above
  end.

(** [extractTypeFromHttpClientArgs]. *)
Fixpoint extractTypeFromHttpClientArgs (args : list Node) : option string :=
  match args with
  | [] => None
  | arg :: rest =>
      if negb (isKind ObjectLiteralExpression arg)
      then extractTypeFromHttpClientArgs rest
      else
        match getProperty "zodOutput" arg with
        | Some zodOutputProperty =>
            if isKind PropertyAssignment zodOutputProperty
            then extractSchemaNameFromZodOutput zodOutputProperty
            else extractTypeFromHttpClientArgs rest
        | None => extractTypeFromHttpClientArgs rest
        end
  end.

(** A [Map] with string keys, in insertion order. *)
Definition BindingMap : Type := list (string * HttpClientInfo).

(** [map.set(key, value)]. *)
Fixpoint mapSet (key : string) (value : HttpClientInfo) (m : BindingMap)
  : BindingMap :=
  match m with
  | [] => [(key, value)]
  | (k, v) :: rest =>
      if String.eqb k key then (k, value) :: rest
      else (k, v) :: mapSet key value rest
  end.

(** The constructor calls with [zodOutput], each with its ancestors. *)
Definition httpClientSites (sourceFile : SourceFile)
  : list (Node * list Node) :=
  filter (fun site => isHttpClientWithZodOutput (fst site))
    (fileDescendantsIn sourceFile).

(** The state of the loop of [extractHttpClientVariablesWithZodOutput]:
    the map and the flag [processedFirstFunction]. *)
Definition extractionStep (functionNames : option (list string))
  (state : BindingMap * bool) (site : Node * list Node) : BindingMap * bool :=
  let (httpClientToTypeMap, processedFirstFunction) := state in
  let (call, ancestors) := site in
  match ancestors with
  | parent :: above =>
      if negb (isKind VariableDeclaration parent) then state
      else
        let variableName := getName parent in
        let functionName := findContainingFunctionName above in
        let names := match functionNames with Some l => l | None => [] end in
        if Nat.ltb 0 (List.length names)
           && negb (arrayIncludes functionName names)
           && negb (arrayIncludes "<anonymous>" names)
        then state
        else if arrayIncludes "<anonymous>" names && processedFirstFunction
        then state
        else
          match extractTypeFromHttpClientArgs (getArguments call) with
          | Some typeName =>
              (mapSet (variableName ++ ":" ++ functionName)
                 {| typeName := typeName; functionName := functionName |}
                 httpClientToTypeMap,
               true)
          | None => state
          end
  | [] => state
  end.

(** [extractHttpClientVariablesWithZodOutput]. *)
Definition extractHttpClientVariablesWithZodOutput (sourceFile : SourceFile)
  (functionNames : option (list string)) : BindingMap :=
  fst (fold_left (extractionStep functionNames)
         (httpClientSites sourceFile) ([], false)).

(** The binding a constructor site gives when nothing filters it out. *)
Definition bindingOf (site : Node * list Node)
  : option (string * HttpClientInfo) :=
  match snd site with
  | parent :: above =>
      if isKind VariableDeclaration parent then
        match extractTypeFromHttpClientArgs (getArguments (fst site)) with
        | Some typeName =>
            let functionName := findContainingFunctionName above in
            Some (getName parent ++ ":" ++ functionName,
                  {| typeName := typeName; functionName := functionName |})
        | None => None
        end
      else None
  | [] => None
  end.

(** The bindings of a file, in source order, before any filter. *)
Definition allBindings (sourceFile : SourceFile)
  : list (string * HttpClientInfo) :=
  flat_map (fun site => match bindingOf site with
                        | Some b => [b]
                        | None => []
                        end)
    (httpClientSites sourceFile).

End Transformer.

(* ================================================================== *)
(** ** Builders and sample inputs                                       *)
(* ================================================================== *)

Module Build.
Import JsString Ast Transformer.

Definition ident (text : string) : Node := mkNode Identifier text [] [].
Definition str (value : string) : Node := mkNode StringLiteral value [] [].
Definition tok (text : string) : Node := mkNode OtherSyntax text [] [].
Definition obj (properties : list Node) : Node :=
  mkNode ObjectLiteralExpression EmptyString [] properties.
Definition prop (name : string) (initializer : Node) : Node :=
  mkNode PropertyAssignment name [] [initializer].
Definition access (object : Node) (member : string) : Node :=
  mkNode PropertyAccessExpression member [] [object].
Definition call (callee : Node) (typeArgs : list string) (args : list Node)
  : Node :=
  mkNode CallExpression EmptyString typeArgs (callee :: args).
Definition new (callee : Node) (args : list Node) : Node :=
  mkNode NewExpression EmptyString [] (callee :: args).
Definition await (e : Node) : Node := mkNode OtherSyntax "await " [] [e].
Definition variable (name : string) (initializer : Node) : Node :=
  mkNode VariableDeclaration name [] [initializer].
Definition const (name : string) (initializer : Node) : Node :=
  mkNode OtherSyntax "const " [] [variable name initializer; tok ";"].
Definition function (name : string) (body : list Node) : Node :=
  mkNode FunctionDeclaration name [] (tok "() { " :: body ++ [tok " }"])%list.
Definition arrow (body : list Node) : Node :=
  mkNode ArrowFunction EmptyString [] (tok "() => { " :: body ++ [tok " }"])%list.

(** [client.get(url, { generateSchema: true, interfaceName: "<name>" })]
    with further properties [more]. *)
Definition taggedGet (client : Node) (url : Node) (name : string)
  (more : list Node) : Node :=
  call (access client "get") []
    [url; obj (prop "generateSchema" (tok "true")
               :: prop "interfaceName" (str name) :: more)].

(** [client.get<type>(url, {})]. *)
Definition typedGet (client : Node) (url : Node) (typeName : string) : Node :=
  call (access client "get") [typeName] [url; obj []].



(** [client.get(url, ...options)] and [client.get(url, options)]. *)
Definition spreadGet : Node :=
  call (access (ident "client") "get") []
    [str "https://example.org/posts";
     mkNode OtherSyntax "..." [] [ident "options"]].
Definition identifierGet : Node :=
  call (access (ident "client") "get") []
    [str "https://example.org/posts"; ident "options"].

(** [const <variable> = new HttpClient({ zodOutput: { schemaName:
    "<schema>" }, forceFileTransform: true });]. *)
Definition clientDeclaration (variableName schemaName : string) : Node :=
  const variableName
    (new (ident "HttpClient")
       [obj [prop "zodOutput" (obj [prop "schemaName" (str schemaName)]);
             prop "forceFileTransform" (tok "true")]]).

(** A client in the function [foo], then one in each of two callbacks
    passed to [run], then one in the function [bar]. *)
Definition correlationSample : list Node :=
  [function "foo" [clientDeclaration "a" "A"];
   call (ident "run") [] [arrow [clientDeclaration "b" "B"]];
   call (ident "run") [] [arrow [clientDeclaration "c" "C"]];
   function "bar" [clientDeclaration "d" "D"]].

(** A file that already imports [UserSchemaType] from a module of its
    own, and calls the tagged [get]. *)
Definition fileWithOwnImport : SourceFile :=
  {| getFilePath := "/proj/src/api.ts";
     getImportDeclarations :=
       [{| namedImports := ["UserSchemaType"];
           moduleSpecifier := "./models/User";
           isTypeOnly := false;
           defaultImport := None |}];
     getStatements :=
       [const "user"
          (await (taggedGet (ident "client") (str "https://example.org/users/1")
                    "User" []))] |}.

(** The same call in a file without imports. *)
Definition fileWithTaggedGet : SourceFile :=
  {| getFilePath := "/proj/src/api.ts";
     getImportDeclarations := [];
     getStatements :=
       [const "user"
          (await (taggedGet (ident "client") (str "https://example.org/users/1")
                    "User" []))] |}.

(** tests/test-transformation.ts before the run: the call of [get]
    still carries its generation options. *)
Definition testTransformationBefore : SourceFile :=
  {| getFilePath := "/proj/tests/test-transformation.ts";
     getImportDeclarations :=
       [{| namedImports := ["Katalist"];
           moduleSpecifier := "..";
           isTypeOnly := false;
           defaultImport := None |}];
     getStatements :=
       [const "katalist" (call (ident "Katalist") [] []);
        mkNode OtherSyntax "await " []
          [call
             (access
                (taggedGet (ident "katalist")
                   (str "https://jsonplaceholder.typicode.com/posts/1")
                   "Post" [])
                "json")
             [] [];
           tok ";"]] |}.

(** tests/test-transformation.ts as the repository has it. *)
Definition testTransformationAfter : SourceFile :=
  {| getFilePath := "/proj/tests/test-transformation.ts";
     getImportDeclarations :=
       [{| namedImports := ["Katalist"];
           moduleSpecifier := "..";
           isTypeOnly := false;
           defaultImport := None |};
        {| namedImports := ["PostSchemaType"];
           moduleSpecifier := "../http-schemas/Post";
           isTypeOnly := true;
           defaultImport := None |}];
     getStatements :=
       [const "katalist" (call (ident "Katalist") [] []);
        mkNode OtherSyntax "await " []
          [call
             (access
                (typedGet (ident "katalist")
                   (str "https://jsonplaceholder.typicode.com/posts/1")
                   "PostSchemaType")
                "json")
             [] [];
           tok ";"]] |}.

(** The source that tests/integration.test.ts writes before it calls the
    facade: one call of each verb, each with generation options. *)
Definition integrationSource : SourceFile :=
  let generation name :=
    [prop "generateSchema" (tok "true"); prop "interfaceName" (str name)] in
  let input name :=
    [prop "generateInputSchema" (tok "true");
     prop "inputInterfaceName" (str name)] in
  {| getFilePath := "/proj/test-source.ts";
     getImportDeclarations :=
       [{| namedImports := ["Katalist"];
           moduleSpecifier := "./index";
           isTypeOnly := false;
           defaultImport := None |}];
     getStatements :=
       [const "katalist" (call (ident "Katalist") [] []);
        const "post"
          (await (call (access (ident "katalist") "get") []
                    [str "https://jsonplaceholder.typicode.com/posts/1";
                     obj (generation "Post")]));
        const "newPost"
          (await (call (access (ident "katalist") "post") []
                    [str "https://jsonplaceholder.typicode.com/posts";
                     obj [prop "title" (str "Test Post")];
                     obj (input "CreatePostInput" ++ generation "Post")%list]));
        const "updatedPost"
          (await (call (access (ident "katalist") "put") []
                    [str "https://jsonplaceholder.typicode.com/posts/1";
                     obj [prop "title" (str "Updated Post")];
                     obj (input "UpdatePostInput" ++ generation "Post")%list]));
        const "deleteResult"
          (await (call (access (ident "katalist") "delete") []
                    [str "https://jsonplaceholder.typicode.com/posts/1";
                     obj (generation "DeleteResult")]))] |}.

(** A reader that knows the listed trees: a text is read as the first
    of them that the plain layout writes that way. *)
Definition readNode (known : list Node) (text : string) : option Node :=
  find (fun n => String.eqb (getText n) text) known.

Definition readFile (known : list SourceFile) (text : string)
  : list ImportDeclaration * list Node :=
  match find (fun f => String.eqb (plainFullText f) text) known with
  | Some f => (getImportDeclarations f, getStatements f)
  | None => ([], [])
  end.

(** A host whose project root is [/proj] and whose sources sit one
    directory below it; its files are written in the plain layout, its
    formatter returns what it is given, and it reads the listed files
    and, in a TypeScript file, the listed expressions.  In a JavaScript
    file [replaceWithText] raises on a text with type arguments; the
    listed expressions all have some. *)
Definition hostOf (files : list SourceFile) (expressions : list Node) : Host :=
  {| dirname := fun _ => "/proj/src";
     relative := fun _ _ => "..";
     join := fun a b => a ++ "/" ++ b;
     cwd := "/proj";
     resolve := fun path => path;
     formatContent := fun content _ => content;
     parseSource := fun _ text => readFile files text;
     sourceText := plainFullText;
     nodeText := fun _ n => getText n;
     parseExpression :=
       fun path text =>
         if endsWith ".js" path then None else readNode expressions text |}.

(** The calls of a file that the first pass types, each with the type
    argument it is to get. *)
Definition typedCalls (sourceFile : SourceFile) : list Node :=
  flat_map
    (fun callExpr =>
       match typeNameToAdd callExpr with
       | Some typeName => [withTypeArguments [typeName] callExpr]
       | None => []
       end)
    (findKatalistCallsWithSchemaGeneration sourceFile).

Definition sourceOf (statements : list Node) : SourceFile :=
  {| getFilePath := "/proj/src/api.ts";
     getImportDeclarations := [];
     getStatements := statements |}.

(** The disk with one file, written in the plain layout. *)
Definition diskWith (path : string) (content : SourceFile) : Disk :=
  write path (plainFullText content) (fun _ => None).

(** [m.get(k, opts)], a call of [get] whose second argument is an
    identifier, and the tagged call
    [m.get(k, opts).get(url, { generateSchema: true, interfaceName:
    "User" })] made on its result. *)
Definition cacheGet (typeArgs : list string) : Node :=
  call (access (ident "m") "get") typeArgs [ident "k"; ident "opts"].

Definition chainedGet (typeArgs : list string) : Node :=
  taggedGet (cacheGet typeArgs) (str "https://example.org/users/1") "User" [].

Definition fileWithChainedGet : SourceFile :=
  {| getFilePath := "/proj/src/api.ts";
     getImportDeclarations := [];
     getStatements := [const "user" (await (chainedGet []))] |}.








(** The host of [fileWithChainedGet]: the text that the first pass makes
    of the tagged call, [m.get<UserSchemaType>(k, opts).get(url, { ... })], is
    read as the tagged call on [m.get<UserSchemaType>(k, opts)]. *)
Definition chainHost : Host :=
  hostOf [fileWithChainedGet] [chainedGet ["UserSchemaType"]].

(** The host that knows the sample files and what their calls are typed
    to. *)
Definition sampleFiles : list SourceFile :=
  [fileWithOwnImport; fileWithTaggedGet; testTransformationBefore;
   integrationSource].

Definition sampleHost : Host :=
  hostOf sampleFiles (flat_map typedCalls sampleFiles).

End Build.

Module Samples.
Import JsString.

Definition nl : string := String newline EmptyString.

(** A frame inside the installed library, and a frame of a user file
    whose path is written with backslashes. *)
Definition libraryFrame : string :=
  "    at get (/app/node_modules/katalist/dist/index.js:12:3)".
Definition userFrame : string :=
  "    at main (/home/u\src\api.ts:3:5)".
Definition componentFrame : string :=
  "    at render (/home/u/src/page.tsx:3:5)".
Definition plainUserFrame : string :=
  "    at main (file:///home/u/src/api.ts:3:5)".

End Samples.

Module SchemaSamples.
Import SchemaSynthesis.

(** [{ "xs": [ { "a": "s" } ] }]. *)
Definition objectInArray : json :=
  JObject [("xs", JArray [JObject [("a", JString "s")]])].

(** [[ { "a": "s" } ]]. *)
Definition arrayOfObjects : json := JArray [JObject [("a", JString "s")]].

Definition stringNode : schema :=
  Schema None None (Some (TypeName "string")) None None None.

End SchemaSamples.

Module FacadeSamples.
Import SchemaSynthesis Facade.

(** Options that ask for a schema named [User] and name the source. *)
Definition userOptions : KatalistGeneratingSchemaOptions :=
  {| generateSchema := true;
     interfaceName := Some "User";
     generateInputSchema := false;
     inputInterfaceName := None;
     sourceFile := Some "/proj/src/api.ts" |}.

(** A response whose body is not JSON. *)
Definition notJson : Collaborators :=
  {| stack := None;
     responseJson := Thrown "SyntaxError: Unexpected token";
     generate := inferSchema;
     jsonSchemaToZod := fun _ => Returned "z.object({})";
     transform := fun _ => Returned "formatted" |}.

(** A JSON response for which the schema module cannot be built. *)
Definition synthesisFails : Collaborators :=
  {| stack := None;
     responseJson := Returned (JObject [("id", JNumber "1")]);
     generate := inferSchema;
     jsonSchemaToZod := fun _ => Thrown "Error: unsupported schema";
     transform := fun _ => Returned "formatted" |}.

(** A JSON response after which the transformer raises. *)
Definition transformFails : Collaborators :=
  {| stack := None;
     responseJson := Returned (JObject [("id", JNumber "1")]);
     generate := inferSchema;
     jsonSchemaToZod := fun _ => Returned "z.object({ id: z.number() })";
     transform := fun _ => Thrown "Error: File not found" |}.

End FacadeSamples.

(* ================================================================== *)
(** ** src/jsonToZodSchema.ts: what the pass over the schema keeps      *)
(* ================================================================== *)

Module SchemaShape.
Import SchemaSynthesis.

(** The tree with every [required] member taken away: what is left is
    what [addRequiredToAllObjects] has no assignment for. *)
Fixpoint withoutRequired (s : schema) : schema :=
  match s with
  | Schema d t ty props items _ =>
      Schema d t ty
        (match props with
         | Some ps =>
             Some (map (fun entry => (fst entry, withoutRequired (snd entry))) ps)
         | None => None
         end)
        (match items with
         | Some i => Some (withoutRequired i)
         | None => None
         end)
        None
  end.

(** No node of the tree has an empty [required] array. *)
Fixpoint noEmptyRequired (s : schema) : bool :=
  match s with
  | Schema _ _ _ props items req =>
      match req with Some [] => false | _ => true end &&
      match props with
      | Some ps => forallb (fun entry => noEmptyRequired (snd entry)) ps
      | None => true
      end &&
      match items with
      | Some i => noEmptyRequired i
      | None => true
      end
  end.

End SchemaShape.

(* ================================================================== *)
(** ** src/jsonToZodSchema.ts, src/katalist.ts: the schema module       *)
(* ================================================================== *)

Module SchemaModule.
Import JsString.

(** The text [writeZodSchema] writes; [formatted] is what prettier made
    of the zod expression. *)
Definition fileContent (title formatted : string) : string :=
  "import { z } from " ++ dquote ++ "zod" ++ dquote
  ++ String newline (String newline EmptyString)
  ++ "export const " ++ title ++ "Schema = " ++ formatted
  ++ String newline EmptyString
  ++ "export type " ++ title ++ "SchemaType = z.infer<typeof "
  ++ title ++ "Schema>;".

(** The path [generateSchema] (and [generateOutputSchema] before it)
    passes to [writeZodSchema]. *)
Definition schemaPath (interfaceName : string) : string :=
  "./http-schemas/" ++ interfaceName ++ ".ts".

End SchemaModule.

(* ================================================================== *)
(** ** src/transformer.ts: cases of the located calls                   *)
(* ================================================================== *)

Module Located.
Import JsString Ast Transformer.


(** Nothing below the node is matched by a locator. *)
Definition nothingMatchedBelow (n : Node) : bool :=
  forallb unmatched (getDescendants n).

(** A node that is matched holds no other matched node. *)
Definition flatNode (n : Node) : bool :=
  unmatched n || nothingMatchedBelow n.

(** No matched node of the file holds another matched node. *)
Definition flat (sourceFile : SourceFile) : bool :=
  forallb flatNode (fileDescendants sourceFile).

(** The test [generationOptionsRemovalComplete] makes on one located
    call, and the one [zodOutputRemovalComplete] makes on one located
    constructor call. *)
Definition callRemovalsClean (call : Node) : bool :=
  forallb (fun removed => negb (existsb isKatalistCall (subtree removed)))
    (generationOptionRemovals call).

Definition constructorRemovalsClean (call : Node) : bool :=
  forallb
    (fun removed => negb (existsb isHttpClientWithZodOutput (subtree removed)))
    (flat_map zodOutputRemovals (getArguments call)).

Definition cleanIfCall (n : Node) : bool :=
  negb (isKatalistCall n) || callRemovalsClean n.

Definition cleanIfConstructor (n : Node) : bool :=
  negb (isHttpClientWithZodOutput n) || constructorRemovalsClean n.

End Located.

(* ================================================================== *)
(** ** src/transformer.ts: the binding map and the method calls         *)
(* ================================================================== *)

Module Bindings.
Import JsString Ast Transformer.

(** [map.get(key)]. *)
Definition mapGet (key : string) (m : BindingMap) : option HttpClientInfo :=
  option_map snd (find (fun entry => String.eqb (fst entry) key) m).

(** An ancestor at which the walk of [findContainingFunctionName]
    returns. *)
Definition stopsWalk (n : Node) : bool :=
  isKind FunctionDeclaration n || isKind FunctionExpression n
  || isKind ArrowFunction n || isFunctionVariableDeclaration n.

End Bindings.

(* ================================================================== *)
(** ** src/katalist.ts: what a call of the facade does outside          *)
(* ================================================================== *)

Module FacadeEffects.
Import JsString SchemaSynthesis Facade SchemaModule.

(** The two things a verb does besides the request: it starts
    [writeZodSchema(zodSchema, title, path)], and it calls
    [transformHttpClientCall(sourceFile, false)]. *)
Inductive effect : Type :=
| SchemaWrite (zodSchema title path : string)
| Transform (sourceFilePath : string).

(** A computation with the effects it had, in order. *)
Definition traced (A : Type) : Type := (list effect * completion A)%type.

Definition ret {A : Type} (a : A) : traced A := ([], Returned a).

Definition lift {A : Type} (m : completion A) : traced A := ([], m).

Definition emit (e : effect) : traced unit := ([e], Returned tt).

Definition bindT {A B : Type} (m : traced A) (k : A -> traced B) : traced B :=
  match m with
  | (log, Returned a) => let (log', r) := k a in ((log ++ log')%list, r)
  | (log, Thrown e) => (log, Thrown e)
  end.

(** The inner [generateSchema] helper of the facade. *)
Definition generateSchemaT (c : Collaborators) (data : json) (name : string)
  : traced unit :=
  bindT (lift (jsonToZodSchema c data name)) (fun zodSchema =>
  emit (SchemaWrite zodSchema name (schemaPath name))).

(** The guarded call of the transformer. *)
Definition guardedTransformT (c : Collaborators)
  (o : KatalistGeneratingSchemaOptions) : traced unit :=
  if given (sourceFile o)
  then bindT (emit (Transform (textOf (sourceFile o))))
         (fun _ => lift (tryCatch (bind (transform c (textOf (sourceFile o)))
                                     (fun _ => Returned tt))))
  else ret tt.

(** The [afterResponse] hook of [get]. *)
Definition afterResponseGetT (c : Collaborators)
  (o : KatalistGeneratingSchemaOptions) : traced unit :=
  if generateSchema o && given (interfaceName o) then
    bindT (lift (responseJson c)) (fun body =>
    match body with
    | JArray elements =>
        match elements with
        | first :: _ =>
            if typeofObject first then
              bindT (generateSchemaT c body (textOf (interfaceName o)))
                (fun _ => guardedTransformT c o)
            else ret tt
        | [] => ret tt
        end
    | JObject _ =>
        bindT (generateSchemaT c body (textOf (interfaceName o)))
          (fun _ => guardedTransformT c o)
    | _ => guardedTransformT c o
    end)
  else ret tt.

(** The [afterResponse] hook shared by [post], [put] and [delete]. *)
Definition afterResponseOtherT (c : Collaborators)
  (o : KatalistGeneratingSchemaOptions) : traced unit :=
  bindT (if generateSchema o && given (interfaceName o) then
           bindT (lift (responseJson c)) (fun body =>
           match body with
           | JObject _ => generateSchemaT c body (textOf (interfaceName o))
           | _ => ret tt
           end)
         else ret tt)
    (fun _ => guardedTransformT c o).

Definition afterResponseT (v : verb) : Collaborators ->
  KatalistGeneratingSchemaOptions -> traced unit :=
  match v with
  | GET => afterResponseGetT
  | _ => afterResponseOtherT
  end.

(** The input schema of [post] and [put]. *)
Definition inputSchemaStepT (v : verb) (c : Collaborators)
  (o : KatalistGeneratingSchemaOptions) (data : option json) : traced unit :=
  match v, data with
  | (POST | PUT), Some (JObject members) =>
      if generateInputSchema o && given (inputInterfaceName o)
      then generateSchemaT c (JObject members) (textOf (inputInterfaceName o))
      else ret tt
  | _, _ => ret tt
  end.

(** A verb of the facade on a response that arrived with a success
    status, with its effects. *)
Definition callT {Response : Type} (v : verb) (c : Collaborators)
  (o : KatalistGeneratingSchemaOptions) (data : option json)
  (response : Response) : traced Response :=
  let o' := withDetectedSource v c o in
  bindT (inputSchemaStepT v c o' data) (fun _ =>
  bindT (afterResponseT v c o') (fun _ =>
  ret response)).

Definition isTransform (e : effect) : bool :=
  match e with Transform _ => true | SchemaWrite _ _ _ => false end.

Definition isSchemaWrite (e : effect) : bool :=
  match e with SchemaWrite _ _ _ => true | Transform _ => false end.

End FacadeEffects.

Module MethodCalls.
Import JsString Ast Transformer Bindings.

(** [findHttpClientsReferences]. *)
Definition findHttpClientsReferences (sourceFile : SourceFile) : list Node :=
  filter (fun identifier => String.eqb (getText identifier) "HttpClient")
    (getDescendantsOfKind Identifier sourceFile).

(** One turn of the first loop of [findHttpClientMethodCalls]: the
    variable a constructor call [new HttpClient(...)] initialises. *)
Definition httpClientVariableOf (site : Node * list Node) : list string :=
  let (newExpr, ancestors) := site in
  if isKind NewExpression newExpr then
    match getExpression newExpr with
    | Some expression =>
        if isKind Identifier expression
           && String.eqb (getText expression) "HttpClient"
        then
          match ancestors with
          | parent :: _ =>
              if isKind VariableDeclaration parent then [getName parent]
              else []
          | [] => []
          end
        else []
    | None => []
    end
  else [].

(** The set [httpClientVariables]; only membership is asked of it. *)
Definition httpClientVariables (sourceFile : SourceFile) : list string :=
  flat_map httpClientVariableOf (fileDescendantsIn sourceFile).

Definition httpMethods : list string := ["get"; "post"; "put"; "delete"].

(** The filter of [findHttpClientMethodCalls]. *)
Definition methodCallFilter (variables : list string) (callExpr : Node)
  : bool :=
  match getExpression callExpr with
  | Some expression =>
      if isKind PropertyAccessExpression expression then
        match getExpression expression with
        | Some object =>
            isKind Identifier object
            && arrayIncludes (getText object) variables
            && arrayIncludes (getName expression) httpMethods
        | None => false
        end
      else false
  | None => false
  end.

Definition isHttpClientMethodCall (variables : list string) (n : Node) : bool :=
  isKind CallExpression n && methodCallFilter variables n.

(** [findHttpClientMethodCalls]. *)
Definition findHttpClientMethodCalls (sourceFile : SourceFile) : list Node :=
  filter (methodCallFilter (httpClientVariables sourceFile))
    (getDescendantsOfKind CallExpression sourceFile).

(** What the body of the loop of [addTypeParametersToMethodCalls] finds
    for one call, [ancestors] being those of the call: the client name,
    the method name and the type name to write, [None] on every path
    that writes nothing. *)
Definition methodCallTyping (httpClientToTypeMap : BindingMap)
  (ancestors : list Node) (callExpr : Node)
  : option (string * string * string) :=
  match getExpression callExpr with
  | Some expression =>
      if negb (isKind PropertyAccessExpression expression) then None
      else
        let methodName := getName expression in
        match getExpression expression with
        | Some object =>
            if negb (isKind Identifier object) then None
            else
              let httpClientName := getText object in
              let functionName := findContainingFunctionName ancestors in
              let key := httpClientName ++ ":" ++ functionName in
              match mapGet key httpClientToTypeMap with
              | Some httpClientInfo =>
                  if Nat.eqb (List.length (getTypeArguments callExpr)) 0
                  then Some (httpClientName, methodName,
                             typeName httpClientInfo)
                  else None
              | None => None
              end
        | None => None
        end
  | None => None
  end.

(** [callText.replace(`${httpClientName}.${methodName}(`,
    `${httpClientName}.${methodName}<${typeName}>(`)]. *)
Definition newMethodCallText (callText : string)
  (httpClientName methodName typeName : string) : string :=
  replace (httpClientName ++ "." ++ methodName ++ "(")
    (httpClientName ++ "." ++ methodName ++ "<" ++ typeName ++ ">(")
    callText.

(** Lines 682 to 688: the text of the call is read, rewritten and put
    back in place of the call; the result is the node ts-morph reads
    from the new text, nothing when [replaceWithText] raises. *)
Definition replaceWithMethodType (host : Host) (filePath : string)
  (callExpr : Node) (httpClientName methodName typeName : string)
  : option Node :=
  parseExpression host filePath
    (newMethodCallText (nodeText host filePath callExpr) httpClientName
       methodName typeName).

(** The body of the loop on one node of the file. *)
Definition methodCallEdit (host : Host) (filePath : string)
  (variables : list string) (httpClientToTypeMap : BindingMap)
  (ancestors : list Node) (n : Node) : Node :=
  if isHttpClientMethodCall variables n then
    match methodCallTyping httpClientToTypeMap ancestors n with
    | Some (httpClientName, methodName, typeName) =>
        match replaceWithMethodType host filePath n httpClientName methodName
                typeName with
        | Some replaced => replaced
        | None => n
        end
    | None => n
    end
  else n.

(** The loop on one subtree, [ancestors] being those of the node.  The
    located calls come in document order, a call before what is below
    it, and the loop reads each as the file had it: a call that is
    replaced goes with everything below it, a call that is kept has the
    loop go on below it. *)
Fixpoint methodCalls (host : Host) (filePath : string)
  (variables : list string) (httpClientToTypeMap : BindingMap)
  (ancestors : list Node) (n : Node) : Node :=
  match n with
  | mkNode k nm ta cs =>
      let below :=
        mkNode k nm ta
          (map (methodCalls host filePath variables httpClientToTypeMap
                  (n :: ancestors)) cs) in
      if isHttpClientMethodCall variables n then
        match methodCallTyping httpClientToTypeMap ancestors n with
        | Some _ =>
            methodCallEdit host filePath variables httpClientToTypeMap
              ancestors n
        | None => below
        end
      else below
  end.

(** The located method calls with their ancestors. *)
Definition methodCallSites (variables : list string) (sourceFile : SourceFile)
  : list (Node * list Node) :=
  filter (fun site => isHttpClientMethodCall variables (fst site))
    (fileDescendantsIn sourceFile).

(** The loop completes when no replacement raises and no replaced call
    holds another of the located calls (ts-morph forgets what is below a
    replaced node). *)
Definition methodCallsComplete (host : Host) (variables : list string)
  (httpClientToTypeMap : BindingMap) (sourceFile : SourceFile) : bool :=
  forallb
    (fun site =>
       match methodCallTyping httpClientToTypeMap (snd site) (fst site) with
       | Some (httpClientName, methodName, typeName) =>
           match replaceWithMethodType host (getFilePath sourceFile)
                   (fst site) httpClientName methodName typeName with
           | Some _ =>
               negb (existsb (isHttpClientMethodCall variables)
                       (getDescendants (fst site)))
           | None => false
           end
       | None => true
       end)
    (methodCallSites variables sourceFile).

(** [addTypeParametersToMethodCalls] on the calls
    [findHttpClientMethodCalls] returns for the file; [None] when the
    loop raises. *)
Definition addTypeParametersToMethodCalls (host : Host)
  (sourceFile : SourceFile) (httpClientToTypeMap : BindingMap)
  : option SourceFile :=
  let variables := httpClientVariables sourceFile in
  if methodCallsComplete host variables httpClientToTypeMap sourceFile
  then Some (withStatements sourceFile
               (map (methodCalls host (getFilePath sourceFile) variables
                       httpClientToTypeMap [])
                  (getStatements sourceFile)))
  else None.

(** [typeName.replace("OutputSchemaType", "")]. *)
Definition outputSchemaNameOf (typeName : string) : string :=
  replaceFirst "OutputSchemaType" EmptyString typeName.

(** The import declarations the loop of [addSchemaTypeImports] adds, in
    the order of the values of the map. *)
Definition outputImportsToAdd (existingImports : list ImportDeclaration)
  (httpSchemasBasePath : string) (httpClientToTypeMap : BindingMap)
  : list ImportDeclaration :=
  flat_map
    (fun entry =>
       let typeName := typeName (snd entry) in
       let schemaName := outputSchemaNameOf typeName in
       if hasImport existingImports (schemaName ++ "Output") typeName then []
       else [schemaImport httpSchemasBasePath (schemaName ++ "Output")
               typeName])
    httpClientToTypeMap.

(** [addSchemaTypeImports]. *)
Definition addSchemaTypeImports (host : Host) (sourceFile : SourceFile)
  (httpClientToTypeMap : BindingMap) : SourceFile :=
  let existingImports := getImportDeclarations sourceFile in
  let httpSchemasBasePath :=
    calculateHttpSchemasPath host (getFilePath sourceFile) in
  {| getFilePath := getFilePath sourceFile;
     getImportDeclarations :=
       (existingImports
        ++ outputImportsToAdd existingImports httpSchemasBasePath
             httpClientToTypeMap)%list;
     getStatements := getStatements sourceFile |}.

(** [addTypeToHttpClientCall]: the formatted text it returns and the
    source file it leaves; [None] when it raises. *)
Definition addTypeToHttpClientCall (host : Host) (sourceFile : SourceFile)
  (functionNames : option (list string)) : option (string * SourceFile) :=
  let httpClientToTypeMap :=
    extractHttpClientVariablesWithZodOutput sourceFile functionNames in
  match addTypeParametersToMethodCalls host sourceFile httpClientToTypeMap with
  | Some typed =>
      let result := addSchemaTypeImports host typed httpClientToTypeMap in
      Some (formatWithBiome host result, result)
  | None => None
  end.

(** An argument from which [extractTypeFromHttpClientArgs] returns: an
    object literal whose [zodOutput] is a property assignment. *)
Definition carriesZodOutput (arg : Node) : bool :=
  isKind ObjectLiteralExpression arg
  && match getProperty "zodOutput" arg with
     | Some zodOutputProperty => isKind PropertyAssignment zodOutputProperty
     | None => false
     end.

(** The source of the example in the documentation of the module: a
    function that makes a client with an embedded schema and calls it. *)
Definition getUsersSource : SourceFile :=
  Build.sourceOf
    [Build.function "getUsers"
       [Build.clientDeclaration "httpClient" "User";
        mkNode OtherSyntax "return " []
          [Build.call (Build.access (Build.ident "httpClient") "get") []
             [Build.str "/users"];
           Build.tok ";"]]].

(** A host that reads that file and, from its text, the call of the
    client with the type of the embedded schema. *)
Definition getUsersHost : Host :=
  Build.hostOf [getUsersSource]
    [Build.call (Build.access (Build.ident "httpClient") "get")
       ["UserOutputSchemaType"] [Build.str "/users"]].

End MethodCalls.

(* ================================================================== *)
(** ** src/katalist.ts, first version: the caller-detection probe       *)
(* ================================================================== *)

Module FirstProbe.
Import JsString.

(** [[^\s]+\.(?:ts|js|tsx|jsx)] at the head of [s]: the greedy class
    takes the whole run of characters that are not white space and gives
    them back one at a time until the extension follows. *)
Fixpoint runBody (s : string) : option string :=
  match s with
  | EmptyString => None
  | String c t =>
      if negb (CallerDetection.isSpace c) then
        match runBody t with
        | Some m => Some (String c m)
        | None =>
            match CallerDetection.extensionAt t with
            | Some e => Some (String c e)
            | None => None
            end
        end
      else None
  end.

(** The capture group [((?:file:\/\/)?[^\s]+\.(?:ts|js|tsx|jsx))] at the
    head of [s]: the optional protocol is tried first, then left out. *)
Definition captureAt (s : string) : option string :=
  if startsWith "file://" s then
    match runBody (drop 7 s) with
    | Some m => Some ("file://" ++ m)
    | None => runBody s
    end
  else runBody s.

(** [line.match(/((?:file:\/\/)?[^\s]+\.(?:ts|js|tsx|jsx))/)]: the
    leftmost match. *)
Fixpoint fileMatch (line : string) : option string :=
  match captureAt line with
  | Some m => Some m
  | None =>
      match line with
      | EmptyString => None
      | String _ t => fileMatch t
      end
  end.

(** Removal of the protocol from what was captured. *)
Definition stripProtocol (captured : string) : string :=
  if CallerDetection.truthy captured && startsWith "file://" captured
  then drop 7 captured
  else captured.

(** The test under which a path is returned. *)
Definition isCallerPath (filePath : string) : bool :=
  CallerDetection.truthy filePath
  && negb (includes "node_modules" filePath)
  && negb (includes "katalist" filePath)
  && negb (includes "ts-morph" filePath)
  && negb (includes "ky" filePath).

Definition inspectLine (line : string) : option string :=
  match fileMatch line with
  | None => None
  | Some captured =>
      let filePath := stripProtocol captured in
      if isCallerPath filePath then Some filePath else None
  end.

Fixpoint scanLines (stackLines : list string) : option string :=
  match stackLines with
  | [] => None
  | line :: rest =>
      match inspectLine line with
      | Some filePath => Some filePath
      | None => scanLines rest
      end
  end.

(** [getCallerFilePath] of the first version. *)
Definition getCallerFilePath (stack : option string) : option string :=
  match stack with
  | None => None
  | Some s =>
      if CallerDetection.truthy s then scanLines (split newline s) else None
  end.

(** No character of [s] is white space. *)
Fixpoint noSpace (s : string) : bool :=
  match s with
  | EmptyString => true
  | String c t => negb (CallerDetection.isSpace c) && noSpace t
  end.

(** The pattern, anchored by [matchHere], matches at no position of
    [lead] in the line [lead ++ rest]. *)
Fixpoint noMatchWithin (matchHere : string -> option string)
  (lead rest : string) : bool :=
  match lead with
  | EmptyString => true
  | String _ t =>
      match matchHere (lead ++ rest) with
      | Some _ => false
      | None => noMatchWithin matchHere t rest
      end
  end.

End FirstProbe.

(* ================================================================== *)
(** ** src/katalist.ts, first version: [get] and what it does outside   *)
(* ================================================================== *)

Module FirstFacade.
Import JsString SchemaSynthesis Facade SchemaModule FacadeEffects.

(** The detection of the caller file that opens [get], with the probe
    of the first version. *)
Definition withDetectedSource (c : Collaborators)
  (o : KatalistGeneratingSchemaOptions) : KatalistGeneratingSchemaOptions :=
  if generateSchema o && given (interfaceName o)
     && negb (given (sourceFile o)) then
    match FirstProbe.getCallerFilePath (stack c) with
    | Some detected =>
        if negb (String.eqb detected EmptyString)
        then {| generateSchema := generateSchema o;
                interfaceName := interfaceName o;
                generateInputSchema := generateInputSchema o;
                inputInterfaceName := inputInterfaceName o;
                sourceFile := Some detected |}
        else o
    | None => o
    end
  else o.

(** The [afterResponse] hook of [get]; [generateOutputSchema] is the
    helper [generateSchemaT] models. *)
Definition afterResponseT (c : Collaborators)
  (o : KatalistGeneratingSchemaOptions) : traced unit :=
  if generateSchema o && given (interfaceName o) then
    bindT (lift (responseJson c)) (fun body =>
    bindT (match body with
           | JObject _ => generateSchemaT c body (textOf (interfaceName o))
           | _ => ret tt
           end)
      (fun _ => guardedTransformT c o))
  else ret tt.

(** [get] on a response that arrived with a success status. *)
Definition getT {Response : Type} (c : Collaborators)
  (o : KatalistGeneratingSchemaOptions) (response : Response)
  : traced Response :=
  let o' := withDetectedSource c o in
  bindT (afterResponseT c o') (fun _ => ret response).

End FirstFacade.

(* ================================================================== *)
(** * Properties                                                       *)
(* ================================================================== *)

Module StringFacts.
Import JsString.
#[local] Arguments Ascii.eqb : simpl never.

Lemma append_empty_r (s : string) : s ++ EmptyString = s.
Proof. induction s as [|c t IH]; [reflexivity | simpl; now rewrite IH]. Qed.

Lemma startsWith_app (p a b : string) :
  startsWith p a = true -> startsWith p (a ++ b) = true.
Proof.
  revert a. induction p as [|x p IH]; intros a H; [reflexivity|].
  destruct a as [|y a]; [discriminate|]. simpl in *.
  apply andb_true_iff in H as [Hxy H]. rewrite Hxy. simpl. now apply IH.
Qed.

Lemma includes_app_l (p a b : string) :
  includes p a = true -> includes p (a ++ b) = true.
Proof.
  induction a as [|y a IH]; simpl; intros H.
  - rewrite orb_false_r in H. destruct p; [|discriminate].
    destruct b; reflexivity.
  - apply orb_true_iff in H as [H|H].
    + change (String y (a ++ b)) with (String y a ++ b).
      rewrite (startsWith_app p (String y a) b H). reflexivity.
    + rewrite (IH H). apply orb_true_r.
Qed.

Lemma includes_app_r (p a b : string) :
  includes p b = true -> includes p (a ++ b) = true.
Proof.
  induction a as [|y a IH]; simpl; intros H; [exact H|].
  rewrite (IH H). apply orb_true_r.
Qed.

Lemma includes_concat (p sep : string) (pieces : list string) (x : string) :
  In x pieces -> includes p x = true ->
  includes p (String.concat sep pieces) = true.
Proof.
  induction pieces as [|y rest IH]; intros Hin Hx; [destruct Hin|].
  destruct rest as [|z rest'].
  - destruct Hin as [->|[]]. exact Hx.
  - change (String.concat sep (y :: z :: rest'))
      with (y ++ sep ++ String.concat sep (z :: rest')).
    destruct Hin as [->|Hin].
    + now apply includes_app_l.
    + apply includes_app_r. apply includes_app_r. now apply IH.
Qed.

Lemma includes_char_app (a : ascii) (s t : string) :
  includes (String a EmptyString) (s ++ t)
  = includes (String a EmptyString) s || includes (String a EmptyString) t.
Proof.
  induction s as [|c s IH].
  - simpl. destruct t; reflexivity.
  - cbn [append]. cbn [includes startsWith]. rewrite IH.
    rewrite !andb_true_r. now rewrite orb_assoc.
Qed.

Lemma includes_char_absent (a : ascii) (s pre post : string) :
  includes (String a EmptyString) s = false -> s <> pre ++ String a post.
Proof.
  intros H ->. rewrite includes_char_app in H.
  apply orb_false_iff in H as [_ H]. cbn [includes startsWith] in H.
  now rewrite Ascii.eqb_refl in H.
Qed.

End StringFacts.

Module OutputPathFacts.
Import JsString OutputPath.
#[local] Arguments Ascii.eqb : simpl never.

Lemma startsWith_ts_app (s rest : string) :
  startsWith ".ts" s = false ->
  s <> EmptyString ->
  startsWith ".ts" (s ++ ".ts" ++ rest) = false.
Proof.
  intros Hp Hne.
  destruct s as [|c1 [|c2 [|c3 t]]]; [congruence| | |]; cbn in *.
  - destruct (Ascii.eqb "." c1); reflexivity.
  - destruct (Ascii.eqb "." c1); [|reflexivity].
    destruct (Ascii.eqb "t" c2); reflexivity.
  - destruct (Ascii.eqb "." c1); [|reflexivity].
    destruct (Ascii.eqb "t" c2); [|reflexivity].
    destruct (Ascii.eqb "s" c3); [discriminate|reflexivity].
Qed.

(** When the extension is the first [.ts] of the path, the marker goes
    right before it. *)
Lemma transformedPath_before_extension (stem : string) :
  includes ".ts" stem = false ->
  transformedPath (stem ++ ".ts") = stem ++ ".transformed.ts".
Proof.
  unfold transformedPath.
  induction stem as [|c t IH]; intros Hinc.
  - reflexivity.
  - simpl in Hinc. apply orb_false_iff in Hinc as [Hp Ht].
    change (String c t ++ ".ts") with (String c (t ++ ".ts")).
    unfold replaceFirst; fold replaceFirst.
    assert (Hpre : startsWith ".ts" (String c (t ++ ".ts")) = false).
    { apply (startsWith_ts_app (String c t) EmptyString); [exact Hp | discriminate]. }
    rewrite Hpre. simpl. f_equal. apply IH. exact Ht.
Qed.

(** C7 (evaluation at the failing input): the marker is inserted at the
    first [.ts] of the path, which here sits in a directory name, and not
    before the extension of the file: the run writes
    [/work/my.transformed.tsapp/api.ts] and no sibling of the source.
    For a path without [.ts] the target is the source itself: a run that
    completes there writes over the original. *)
Theorem C7_marker_at_first_ts_of_path :
  transformedPath "/work/my.tsapp/api.ts" = "/work/my.transformed.tsapp/api.ts"
  /\ insertBeforeExtension "/work/my.tsapp/api.ts"
     = Some "/work/my.tsapp/api.transformed.ts"
  /\ (exists text disk',
        Transformer.transformHttpClientCall Build.sampleHost
          (Build.diskWith "/work/my.tsapp/api.ts" Build.fileWithTaggedGet)
          "/work/my.tsapp/api.ts" true
        = Some (text, disk')
        /\ disk' "/work/my.tsapp/api.transformed.ts" = None
        /\ disk' "/work/my.transformed.tsapp/api.ts" = Some text)
  /\ writeTarget "/work/src/api.js" true = "/work/src/api.js"
  /\ (forall host disk text disk',
        Transformer.transformHttpClientCall host disk "/work/src/api.js" true
        = Some (text, disk') ->
        disk' "/work/src/api.js" = Some text).
Proof.
  split; [reflexivity|]. split; [reflexivity|]. split.
  { eexists. eexists. split; [reflexivity|]. split; reflexivity. }
  split; [reflexivity|].
  intros host disk text disk' H.
  unfold Transformer.transformHttpClientCall in H.
  destruct (Transformer.addSourceFileAtPath host disk "/work/src/api.js");
    [|discriminate].
  destruct (Transformer.transformSourceFile host s); [|discriminate].
  injection H as <- <-. reflexivity.
Qed.

End OutputPathFacts.

Module CallerDetectionFacts.
Import JsString CallerDetection Samples.
#[local] Arguments Ascii.eqb : simpl never.

Lemma split_single (line : string) :
  singleLine line -> split newline line = [line].
Proof.
  unfold singleLine.
  induction line as [|c t IH]; intros H; [reflexivity|].
  simpl in H. apply orb_false_iff in H as [Hc Ht].
  rewrite andb_true_r in Hc. rewrite Ascii.eqb_sym in Hc.
  simpl. rewrite Hc, (IH Ht). reflexivity.
Qed.

Lemma split_two (first rest : string) :
  singleLine first ->
  split newline (first ++ nl ++ rest) = first :: split newline rest.
Proof.
  unfold singleLine.
  induction first as [|c t IH]; intros H.
  - reflexivity.
  - simpl in H. apply orb_false_iff in H as [Hc Ht].
    rewrite andb_true_r in Hc. rewrite Ascii.eqb_sym in Hc.
    change (String c t ++ nl ++ rest) with (String c (t ++ nl ++ rest)).
    simpl. rewrite Hc. simpl in IH. rewrite (IH Ht). reflexivity.
Qed.

Lemma slashPath_head (s m : string) :
  slashPath s = Some m -> exists t, m = String slash t.
Proof.
  destruct s as [|c t]; [discriminate|].
  unfold slashPath. destruct (Ascii.eqb c slash) eqn:E; [|discriminate].
  apply Ascii.eqb_eq in E. subst c.
  destruct (pathBody t) as [b|]; [|discriminate].
  intros [= <-]. eexists. reflexivity.
Qed.

Lemma captureAt_stripped (s c : string) :
  captureAt s = Some c -> exists t, stripProtocol c = String slash t.
Proof.
  unfold captureAt.
  destruct (startsWith "file://" s).
  - destruct (slashPath (drop 7 s)) as [m|] eqn:E; [|discriminate].
    intros [= <-]. apply slashPath_head in E as [t ->].
    exists t. reflexivity.
  - intros E. apply slashPath_head in E as [t ->].
    exists t. reflexivity.
Qed.

(** What the pattern captures is, once the protocol is removed, a path
    that starts with a slash: no [file://] is left in front. *)
Lemma fileMatch_stripped (line c : string) :
  fileMatch line = Some c -> exists t, stripProtocol c = String slash t.
Proof.
  induction line as [|a t IH]; simpl.
  - discriminate.
  - destruct (Nat.eqb (nat_of_ascii a) 40).
    + destruct (captureAt t) eqn:E.
      * intros [= <-]. eapply captureAt_stripped; eauto.
      * exact IH.
    + destruct (captureAt (String a t)) eqn:E.
      * intros [= <-]. eapply captureAt_stripped; eauto.
      * exact IH.
Qed.

Lemma inspect_user_frame (line filePath : string) :
  isUserFrame line filePath -> inspectLine line = Some filePath.
Proof.
  intros (c & Hm & -> & Hext). unfold inspectLine. rewrite Hm.
  destruct (fileMatch_stripped _ _ Hm) as [t Ht].
  assert (Htr : truthy (stripProtocol c) = true) by (rewrite Ht; reflexivity).
  rewrite Htr, Hext. reflexivity.
Qed.

Lemma pathBody_stops (tail : string) :
  endsPath tail = true -> pathBody tail = None.
Proof.
  destruct tail as [|c t]; [reflexivity|]. simpl. intros H.
  apply negb_true_iff in H. now rewrite H.
Qed.

Lemma extensionAt_stops (tail : string) :
  endsPath tail = true -> extensionAt tail = None.
Proof.
  destruct tail as [|c t]; [reflexivity|]. intros H.
  unfold extensionAt. simpl.
  destruct (Ascii.eqb "." c) eqn:E; [|reflexivity].
  apply Ascii.eqb_eq in E. subst c. discriminate H.
Qed.

Lemma pathBody_cons (c : ascii) (t : string) :
  pathBody (String c t)
  = if pathChar c then
      match pathBody t with
      | Some m => Some (String c m)
      | None =>
          match extensionAt t with
          | Some e => Some (String c e)
          | None => None
          end
      end
    else None.
Proof. reflexivity. Qed.

Lemma pathBody_extension_alone (ext tail : string) :
  ext = ".ts" \/ ext = ".js" ->
  endsPath tail = true ->
  pathBody (ext ++ tail) = None /\ extensionAt (ext ++ tail) = Some ext.
Proof.
  intros Hext Htail.
  pose proof (pathBody_stops tail Htail) as Hp.
  pose proof (extensionAt_stops tail Htail) as He.
  destruct Hext as [-> | ->]; split; try reflexivity.
  - change (".ts" ++ tail) with (String "." (String "t" (String "s" tail))).
    rewrite !pathBody_cons, Hp, He. reflexivity.
  - change (".js" ++ tail) with (String "." (String "j" (String "s" tail))).
    rewrite !pathBody_cons, Hp, He. reflexivity.
Qed.

(** The pattern captures a path that ends in [.ts] or [.js] whole: a
    stem of characters of the class, the extension, and then the end of
    the run. *)
Lemma pathBody_exact (stem ext tail : string) :
  stem <> EmptyString ->
  allPathChars stem = true ->
  ext = ".ts" \/ ext = ".js" ->
  endsPath tail = true ->
  pathBody (stem ++ ext ++ tail) = Some (stem ++ ext).
Proof.
  intros Hne Hall Hext Htail.
  induction stem as [|c t IH]; [congruence|].
  simpl in Hall. apply andb_true_iff in Hall as [Hc Ht].
  change (String c t ++ ext ++ tail) with (String c (t ++ ext ++ tail)).
  cbn [pathBody]. rewrite Hc.
  destruct t as [|c' t'].
  - destruct (pathBody_extension_alone ext tail Hext Htail) as [Hp He].
    cbn [append]. now rewrite Hp, He.
  - rewrite IH; [reflexivity | discriminate | exact Ht].
Qed.

(** A frame [... (/stem.ts:line:col)] is captured as [/stem.ts]. *)
Lemma slashPath_exact (stem ext tail : string) :
  stem <> EmptyString ->
  allPathChars stem = true ->
  ext = ".ts" \/ ext = ".js" ->
  endsPath tail = true ->
  slashPath ("/" ++ stem ++ ext ++ tail) = Some ("/" ++ stem ++ ext).
Proof.
  intros Hne Hall Hext Htail. cbn [append slashPath].
  assert (Hs : Ascii.eqb "/" slash = true) by reflexivity. rewrite Hs.
  now rewrite (pathBody_exact stem ext tail Hne Hall Hext Htail).
Qed.

(** Nothing before the parenthesis of a frame matches the pattern when
    it holds no slash. *)
Lemma no_protocol_without_slash (lead rest : string) :
  includes "/" lead = false ->
  startsWith "file://" (lead ++ String "(" rest) = false.
Proof.
  intros H.
  destruct (startsWith "file://" (lead ++ String "(" rest)) eqn:E;
    [exfalso|reflexivity].
  destruct lead as [|a0 lead]; [vm_compute in E; discriminate|].
  cbn [append startsWith] in E. apply andb_true_iff in E as [E0 E].
  destruct lead as [|a1 lead]; [vm_compute in E; discriminate|].
  cbn [append startsWith] in E. apply andb_true_iff in E as [E1 E].
  destruct lead as [|a2 lead]; [vm_compute in E; discriminate|].
  cbn [append startsWith] in E. apply andb_true_iff in E as [E2 E].
  destruct lead as [|a3 lead]; [vm_compute in E; discriminate|].
  cbn [append startsWith] in E. apply andb_true_iff in E as [E3 E].
  destruct lead as [|a4 lead]; [vm_compute in E; discriminate|].
  cbn [append startsWith] in E. apply andb_true_iff in E as [E4 E].
  destruct lead as [|a5 lead]; [vm_compute in E; discriminate|].
  cbn [append startsWith] in E. apply andb_true_iff in E as [E5 _].
  apply Ascii.eqb_eq in E5. subst a5.
  apply (StringFacts.includes_char_absent "/"
           (String a0 (String a1 (String a2 (String a3 (String a4
              (String "/" lead))))))
           (String a0 (String a1 (String a2 (String a3 (String a4
              EmptyString)))))
           lead H).
  reflexivity.
Qed.

Lemma no_capture_without_slash (lead rest : string) :
  includes "/" lead = false ->
  captureAt (lead ++ String "(" rest) = None.
Proof.
  intros H. unfold captureAt.
  rewrite (no_protocol_without_slash lead rest H).
  destruct lead as [|c t]; [reflexivity|].
  cbn [append slashPath].
  cbn [includes startsWith] in H. apply orb_false_iff in H as [Hc _].
  rewrite andb_true_r in Hc. rewrite Ascii.eqb_sym in Hc.
  unfold slash. change (ascii_of_nat 47) with "/"%char. now rewrite Hc.
Qed.

Lemma fileMatch_skips_lead (lead rest : string) :
  includes "/" lead = false ->
  fileMatch (lead ++ String "(" rest) = fileMatch (String "(" rest).
Proof.
  induction lead as [|c t IH]; [reflexivity|]. intros H.
  assert (Ht : includes "/" t = false).
  { cbn [includes] in H. now apply orb_false_iff in H as [_ H]. }
  change (String c t ++ String "(" rest)
    with (String c (t ++ String "(" rest)).
  cbn [fileMatch].
  assert (Hm : matchAt (String c (t ++ String "(" rest)) = None).
  { unfold matchAt.
    destruct (Nat.eqb (nat_of_ascii c) 40).
    - now apply no_capture_without_slash.
    - change (String c (t ++ String "(" rest))
        with (String c t ++ String "(" rest).
      now apply no_capture_without_slash. }
  rewrite Hm. now apply IH.
Qed.

(** The pattern on a plain frame captures its path, with the protocol
    when the frame has it. *)
Lemma fileMatch_of_frame (lead : string) (protocol : bool)
  (stem ext tail : string) :
  plainFrame lead stem ext tail ->
  fileMatch (frame lead protocol stem ext tail)
  = Some ((if protocol then "file://" else EmptyString)
          ++ "/" ++ stem ++ ext).
Proof.
  intros (Hlead & _ & Hne & Hall & Hext & Htail & _). unfold frame.
  change ("(" ++ (if protocol then "file://" else EmptyString)
          ++ "/" ++ stem ++ ext ++ tail)
    with (String "(" ((if protocol then "file://" else EmptyString)
                      ++ "/" ++ stem ++ ext ++ tail)).
  rewrite (fileMatch_skips_lead lead _ Hlead).
  pose proof (slashPath_exact stem ext tail Hne Hall Hext Htail) as Hs.
  destruct protocol.
  - cbn [fileMatch matchAt]. unfold captureAt.
    change (nat_of_ascii "(") with 40. cbn [Nat.eqb].
    change (startsWith "file://" ("file://" ++ "/" ++ stem ++ ext ++ tail))
      with true.
    change (drop 7 ("file://" ++ "/" ++ stem ++ ext ++ tail))
      with ("/" ++ stem ++ ext ++ tail).
    now rewrite Hs.
  - cbn [fileMatch matchAt]. unfold captureAt.
    change (nat_of_ascii "(") with 40. cbn [Nat.eqb].
    change (startsWith "file://" (EmptyString ++ "/" ++ stem ++ ext ++ tail))
      with false.
    cbv iota. change (EmptyString ++ "/" ++ stem ++ ext ++ tail)
      with ("/" ++ stem ++ ext ++ tail).
    now rewrite Hs.
Qed.

(** What one turn of the loop does with a plain frame. *)
Lemma inspectLine_of_frame (lead : string) (protocol : bool)
  (stem ext tail : string) :
  plainFrame lead stem ext tail ->
  inspectLine (frame lead protocol stem ext tail)
  = if isInternalLibrary (normalizePath ("/" ++ stem ++ ext)) then None
    else Some ("/" ++ stem ++ ext).
Proof.
  intros Hf. unfold inspectLine. rewrite (fileMatch_of_frame _ _ _ _ _ Hf).
  assert (Hstrip : stripProtocol
                     ((if protocol then "file://" else EmptyString)
                      ++ "/" ++ stem ++ ext)
                   = "/" ++ stem ++ ext).
  { destruct protocol; reflexivity. }
  rewrite Hstrip.
  change (truthy ("/" ++ stem ++ ext)) with true. cbn [negb andb].
  now destruct (isInternalLibrary (normalizePath ("/" ++ stem ++ ext))).
Qed.

Lemma pathChars_on_one_line (s : string) :
  allPathChars s = true -> singleLine s.
Proof.
  unfold singleLine. induction s as [|c t IH]; [reflexivity|].
  cbn [allPathChars]. intros H. apply andb_true_iff in H as [Hc Ht].
  cbn [includes startsWith]. rewrite (IH Ht), andb_true_r, orb_false_r.
  destruct (Ascii.eqb newline c) eqn:E; [|reflexivity].
  apply Ascii.eqb_eq in E. subst c. discriminate Hc.
Qed.

Lemma frame_on_one_line (lead : string) (protocol : bool)
  (stem ext tail : string) :
  plainFrame lead stem ext tail ->
  singleLine (frame lead protocol stem ext tail).
Proof.
  intros (_ & Hl & _ & Hall & Hext & _ & Ht).
  pose proof (pathChars_on_one_line stem Hall) as Hs.
  unfold singleLine, frame in *.
  rewrite !StringFacts.includes_char_app, Hl, Hs, Ht.
  destruct protocol, Hext as [-> | ->]; reflexivity.
Qed.

(** C5 (as amended): the trace is a library frame followed by a user
    frame, both plain frames (the path of a [.ts] or [.js] file, then
    the colon of the line number), the first with a path that the code
    classifies as library-internal, the second with one that it does
    not.  The probe returns the path of the user frame, without the
    [file://] of the frame and otherwise as the frame spells it: the
    separators are replaced in the copy that is classified, not in the
    value returned.  It returns nothing when the library frame is the
    only line, when the trace is empty and when there is no trace. *)
Theorem C5_caller_file_of_two_frames
  (libLead libStem libExt libTail lead stem ext tail : string)
  (libProtocol protocol : bool) :
  plainFrame libLead libStem libExt libTail ->
  plainFrame lead stem ext tail ->
  isInternalLibrary (normalizePath ("/" ++ libStem ++ libExt)) = true ->
  isInternalLibrary (normalizePath ("/" ++ stem ++ ext)) = false ->
  getCallerFilePath
    (Some (frame libLead libProtocol libStem libExt libTail ++ nl
           ++ frame lead protocol stem ext tail))
  = Some ("/" ++ stem ++ ext)
  /\ getCallerFilePath
       (Some (frame libLead libProtocol libStem libExt libTail))
     = None
  /\ getCallerFilePath (Some EmptyString) = None
  /\ getCallerFilePath None = None.
Proof.
  intros Hlib Huser Hint Hext.
  pose proof (frame_on_one_line _ libProtocol _ _ _ Hlib) as Hl1.
  pose proof (frame_on_one_line _ protocol _ _ _ Huser) as Hl2.
  pose proof (inspectLine_of_frame _ libProtocol _ _ _ Hlib) as Hi1.
  pose proof (inspectLine_of_frame _ protocol _ _ _ Huser) as Hi2.
  rewrite Hint in Hi1. rewrite Hext in Hi2.
  assert (Htr : forall rest,
            truthy (frame libLead libProtocol libStem libExt libTail ++ rest)
            = true).
  { intros rest. unfold frame. destruct libLead; reflexivity. }
  repeat split.
  - unfold getCallerFilePath. rewrite Htr.
    rewrite (split_two _ _ Hl1), (split_single _ Hl2).
    cbn [scanLines]. now rewrite Hi1, Hi2.
  - unfold getCallerFilePath.
    rewrite <- (StringFacts.append_empty_r
                  (frame libLead libProtocol libStem libExt libTail)) at 1.
    rewrite Htr. rewrite (split_single _ Hl1). cbn [scanLines].
    now rewrite Hi1.
Qed.

Lemma C5_caller_file_of_two_frames_witness :
  getCallerFilePath (Some (libraryFrame ++ nl ++ plainUserFrame))
  = Some "/home/u/src/api.ts".
Proof.
  apply (C5_caller_file_of_two_frames
           "    at get " "app/node_modules/katalist/dist/index" ".js" ":12:3)"
           "    at main " "home/u/src/api" ".ts" ":3:5)" false true).
  - repeat split; try reflexivity; [discriminate | now right].
  - repeat split; try reflexivity; [discriminate | now left].
  - reflexivity.
  - reflexivity.
Defined.

(** C5 (counterexample): a library frame followed by a user frame whose
    path is written with backslashes: the probe returns the path with
    its backslashes, not the normalised path. *)
Lemma C5_separators_are_not_normalized :
  libraryFrame
  = frame "    at get " false "app/node_modules/katalist/dist/index" ".js"
      ":12:3)"
  /\ userFrame = frame "    at main " false "home/u\src\api" ".ts" ":3:5)"
  /\ isInternalLibrary (normalizePath "/app/node_modules/katalist/dist/index.js")
     = true
  /\ isInternalLibrary (normalizePath "/home/u\src\api.ts") = false
  /\ normalizePath "/home/u\src\api.ts" = "/home/u/src/api.ts"
  /\ getCallerFilePath (Some (libraryFrame ++ nl ++ userFrame))
     = Some "/home/u\src\api.ts"
  /\ getCallerFilePath (Some (libraryFrame ++ nl ++ userFrame))
     <> Some (normalizePath "/home/u\src\api.ts").
Proof.
  repeat split; try reflexivity. discriminate.
Qed.

(** A [.tsx] file is captured without its last letter, the alternative
    [ts] being tried before [tsx]. *)
Lemma tsx_is_captured_as_ts :
  fileMatch componentFrame = Some "/home/u/src/page.ts".
Proof. reflexivity. Qed.

End CallerDetectionFacts.

Module SchemaSynthesisFacts.
Import SchemaSynthesis SchemaSamples.

(** Induction on a schema tree, through its properties and its items. *)
Lemma schema_induction (P : schema -> Prop) :
  (forall d t ty props items req,
      match props with
      | Some ps => Forall (fun entry => P (snd entry)) ps
      | None => True
      end ->
      match items with
      | Some i => P i
      | None => True
      end ->
      P (Schema d t ty props items req)) ->
  forall s, P s.
Proof.
  intros step.
  exact (fix go (s : schema) : P s :=
           match s with
           | Schema d t ty props items req =>
               step d t ty props items req
                 (match props
                        return match props with
                               | Some ps => Forall (fun entry => P (snd entry)) ps
                               | None => True
                               end
                  with
                  | Some ps =>
                      (fix all (l : list (string * schema))
                         : Forall (fun entry => P (snd entry)) l :=
                         match l with
                         | [] => Forall_nil _
                         | entry :: rest =>
                             Forall_cons entry (go (snd entry)) (all rest)
                         end) ps
                  | None => I
                  end)
                 (match items
                        return match items with
                               | Some i => P i
                               | None => True
                               end
                  with
                  | Some i => go i
                  | None => I
                  end)
           end).
Qed.

Lemma typeOf_addRequired (s : schema) :
  typeOf (addRequiredToAllObjects s) = typeOf s.
Proof.
  destruct s as [d t ty [ps|] items req]; simpl; [|reflexivity].
  destruct (typeIs "object" (Schema d t ty (Some ps) items req)); reflexivity.
Qed.

Lemma typeIs_addRequired (name : string) (s : schema) :
  typeIs name (addRequiredToAllObjects s) = typeIs name s.
Proof. unfold typeIs. rewrite typeOf_addRequired. reflexivity. Qed.

Lemma requiredProps_addRequired (ps : list (string * schema)) :
  requiredProps
    (map (fun entry => (fst entry, addRequiredToAllObjects (snd entry))) ps)
  = requiredProps ps.
Proof.
  unfold requiredProps.
  induction ps as [|[k v] rest IH]; [reflexivity|].
  simpl. rewrite typeIs_addRequired.
  destruct (negb (typeIs "null" v)); simpl; now rewrite IH.
Qed.

(** On a tree that carries no [required] member yet, every object node
    that the recursion reaches, through [properties] of object nodes,
    ends with exactly its non-null properties as [required]. *)
Lemma addRequired_exact_where_reached (s : schema) :
  noRequired s = true ->
  everyReachedObjectExact (addRequiredToAllObjects s) = true.
Proof.
  induction s as [d t ty props items req IHp IHi] using schema_induction.
  intros Hno. simpl in Hno.
  apply andb_true_iff in Hno as [Hno Hitems].
  apply andb_true_iff in Hno as [Hreq Hprops].
  destruct req; [discriminate|].
  destruct props as [ps|]; [|reflexivity].
  simpl.
  destruct (typeIs "object" (Schema d t ty (Some ps) items None)) eqn:Hobj.
  - simpl.
    assert (Hobj' : forall r,
               typeIs "object"
                 (Schema d t ty
                    (Some (map (fun entry =>
                                  (fst entry, addRequiredToAllObjects (snd entry)))
                             ps)) items r) = true) by (intros r; exact Hobj).
    rewrite Hobj'. apply andb_true_iff. split.
    + unfold requiredIsExact. simpl. rewrite Hobj'.
      rewrite requiredProps_addRequired.
      destruct (requiredProps ps) eqn:E; [reflexivity|].
      destruct (list_eq_dec string_dec (s :: l) (s :: l)); congruence.
    + rewrite forallb_forall. intros entry Hin.
      apply in_map_iff in Hin as (e0 & <- & Hin0). simpl.
      rewrite Forall_forall in IHp. apply (IHp e0 Hin0).
      rewrite forallb_forall in Hprops. exact (Hprops e0 Hin0).
  - simpl. rewrite Hobj. reflexivity.
Qed.

(** C3 (evaluation at the failing input): for [{ "xs": [ { "a": "s" } ] }]
    the object node inside the array ends without a [required] member,
    although its property [a] is not null; the nodes outside arrays are
    exact.  The same holds for the items of a top-level array, the shape
    the facade passes for an array response. *)
Theorem C3_object_inside_array_is_skipped :
  let result := jsontoJsonSchema inferSchema objectInArray "T" in
  result
  = Schema None (Some "T") (Some (TypeName "object"))
      (Some [("xs",
              Schema None None (Some (TypeName "array")) None
                (Some (Schema None None (Some (TypeName "object"))
                         (Some [("a", stringNode)]) None None))
                None)])
      None (Some ["xs"])
  /\ everyObjectExact result = false
  /\ everyReachedObjectExact result = true
  /\ jsontoJsonSchema inferSchema arrayOfObjects "T"
     = Schema None (Some "T") (Some (TypeName "array")) None
         (Some (Schema None None (Some (TypeName "object"))
                  (Some [("a", stringNode)]) None None))
         None
  /\ everyObjectExact (jsontoJsonSchema inferSchema arrayOfObjects "T")
     = false.
Proof. repeat split; reflexivity. Qed.

End SchemaSynthesisFacts.

Module FacadeFacts.
Import SchemaSynthesis Facade FacadeSamples.

Lemma guardedTransform_returns (c : Collaborators)
  (o : KatalistGeneratingSchemaOptions) :
  guardedTransform c o = Returned tt.
Proof.
  unfold guardedTransform.
  destruct (given (sourceFile o)); [|reflexivity].
  destruct (transform c (textOf (sourceFile o))); reflexivity.
Qed.

Lemma generateSchemaFile_returns (c : Collaborators) (data : json)
  (name : string) :
  (forall s, exists z, jsonSchemaToZod c s = Returned z) ->
  generateSchemaFile c data name = Returned tt.
Proof.
  intros Hz. unfold generateSchemaFile, jsonToZodSchema.
  destruct (Hz (jsontoJsonSchema (generate c) data name)) as [z ->].
  reflexivity.
Qed.

Lemma afterResponse_returns (v : verb) (c : Collaborators)
  (o : KatalistGeneratingSchemaOptions) (body : json) :
  responseJson c = Returned body ->
  (forall s, exists z, jsonSchemaToZod c s = Returned z) ->
  afterResponse v c o = Returned tt.
Proof.
  intros Hj Hz.
  assert (Hget : afterResponseGet c o = Returned tt).
  { unfold afterResponseGet.
    destruct (generateSchema o && given (interfaceName o)); [|reflexivity].
    rewrite Hj. simpl.
    destruct body as [| | | |[|first rest]|members]; simpl;
      try apply guardedTransform_returns; try reflexivity.
    - destruct (typeofObject first); [|reflexivity].
      rewrite (generateSchemaFile_returns _ _ _ Hz). simpl.
      apply guardedTransform_returns.
    - rewrite (generateSchemaFile_returns _ _ _ Hz). simpl.
      apply guardedTransform_returns. }
  assert (Hother : afterResponseOther c o = Returned tt).
  { unfold afterResponseOther.
    destruct (generateSchema o && given (interfaceName o)); simpl.
    - rewrite Hj. simpl.
      destruct body; simpl; try apply guardedTransform_returns.
      rewrite (generateSchemaFile_returns _ _ _ Hz). simpl.
      apply guardedTransform_returns.
    - apply guardedTransform_returns. }
  destruct v; assumption.
Qed.

(** The first version of [get] behaves the same way. *)
Lemma afterResponseFirstGet_returns (c : Collaborators)
  (o : KatalistGeneratingSchemaOptions) (body : json) :
  responseJson c = Returned body ->
  (forall s, exists z, jsonSchemaToZod c s = Returned z) ->
  afterResponseFirstGet c o = Returned tt.
Proof.
  intros Hj Hz. unfold afterResponseFirstGet.
  destruct (generateSchema o && given (interfaceName o)); [|reflexivity].
  rewrite Hj. simpl.
  destruct body; simpl; try apply guardedTransform_returns.
  rewrite (generateSchemaFile_returns _ _ _ Hz). simpl.
  apply guardedTransform_returns.
Qed.

Lemma afterResponseFirstGet_throws :
  afterResponseFirstGet notJson userOptions
  = Thrown "SyntaxError: Unexpected token".
Proof. reflexivity. Qed.

(** C4 (as amended): when the body of the response parses as JSON and
    the schema module can be built from any schema, every verb returns
    the response to its caller, whatever the transformer does: what the
    transformer raises never leaves the hook. *)
Theorem C4_transform_errors_are_swallowed {Response : Type} (v : verb)
  (c : Collaborators) (o : KatalistGeneratingSchemaOptions)
  (data : option json) (response : Response) (body : json) :
  responseJson c = Returned body ->
  (forall s, exists z, jsonSchemaToZod c s = Returned z) ->
  call v c o data response = Returned response.
Proof.
  intros Hj Hz. unfold call.
  assert (Hin : inputSchemaStep v c (withDetectedSource v c o) data
                = Returned tt).
  { unfold inputSchemaStep.
    destruct v, data as [[]|]; try reflexivity;
      (destruct (generateInputSchema (withDetectedSource _ c o)
                 && given (inputInterfaceName (withDetectedSource _ c o)));
       [apply (generateSchemaFile_returns _ _ _ Hz) | reflexivity]). }
  rewrite Hin. simpl.
  rewrite (afterResponse_returns v c _ body Hj Hz). reflexivity.
Qed.

Lemma C4_transform_errors_are_swallowed_witness :
  call GET transformFails userOptions None 200 = Returned 200.
Proof.
  apply (C4_transform_errors_are_swallowed GET transformFails userOptions None
           200 (JObject [("id", JNumber "1")])).
  - reflexivity.
  - intros s. exists "z.object({ id: z.number() })". reflexivity.
Defined.

(** C4 (counterexample): a [get] that asks for a schema, on a response
    that arrived and whose body is not JSON, is rejected with the error
    of the parser; so is one for which the synthesis raises. *)
Lemma C4_parse_and_synthesis_errors_propagate :
  call GET notJson userOptions None 200
  = Thrown "SyntaxError: Unexpected token"
  /\ call GET synthesisFails userOptions None 200
     = Thrown "Error: unsupported schema"
  /\ call DELETE notJson userOptions None 200 <> Returned 200.
Proof. repeat split; try reflexivity. discriminate. Qed.

End FacadeFacts.

Module TreeFacts.
Import JsString Ast.

(** Induction on a tree, through the children of each node. *)
Lemma Node_induction (P : Node -> Prop) :
  (forall k nm ta cs, Forall P cs -> P (mkNode k nm ta cs)) ->
  forall n, P n.
Proof.
  intros step.
  exact (fix go (n : Node) : P n :=
           match n with
           | mkNode k nm ta cs =>
               step k nm ta cs
                 ((fix all (l : list Node) : Forall P l :=
                     match l with
                     | [] => Forall_nil _
                     | c :: rest => Forall_cons c (go c) (all rest)
                     end) cs)
           end).
Qed.

Lemma kind_eqb_eq (a b : SyntaxKind) : kind_eqb a b = true <-> a = b.
Proof. split; [destruct a, b; simpl; congruence | intros ->; destruct b; reflexivity]. Qed.

Lemma isKind_eq (k : SyntaxKind) (n : Node) : isKind k n = true <-> getKind n = k.
Proof. unfold isKind. apply kind_eqb_eq. Qed.

Lemma in_descendants (k : SyntaxKind) (nm : string) (ta : list string)
  (cs : list Node) (c m : Node) :
  In c cs -> In m (subtree c) -> In m (getDescendants (mkNode k nm ta cs)).
Proof.
  intros Hc Hm. simpl. apply in_flat_map. exists c. split; assumption.
Qed.

Lemma in_subtree_child (k : SyntaxKind) (nm : string) (ta : list string)
  (cs : list Node) (c m : Node) :
  In c cs -> In m (subtree c) -> In m (subtree (mkNode k nm ta cs)).
Proof. intros Hc Hm. right. eapply in_descendants; eauto. Qed.

Lemma everywhere_forall (p : Node -> bool) (n : Node) :
  everywhere p n = true <-> (forall m, In m (subtree n) -> p m = true).
Proof.
  induction n as [k nm ta cs IH] using Node_induction.
  rewrite Forall_forall in IH. split.
  - intros H m Hm. simpl in H. apply andb_true_iff in H as [Hn Hcs].
    destruct Hm as [<-|Hm]; [exact Hn|].
    simpl in Hm. apply in_flat_map in Hm as (c & Hc & Hm).
    rewrite forallb_forall in Hcs.
    apply (IH c Hc); [apply Hcs; exact Hc | exact Hm].
  - intros H. simpl. apply andb_true_iff. split.
    + apply H. left. reflexivity.
    + apply forallb_forall. intros c Hc. apply (IH c Hc).
      intros m Hm. apply H. eapply in_subtree_child; eauto.
Qed.

(** An edit that changes no node of a tree leaves the tree as it is. *)
Lemma mapTree_id (edit : Node -> Node) (n : Node) :
  (forall m, In m (subtree n) -> edit m = m) -> mapTree edit n = n.
Proof.
  induction n as [k nm ta cs IH] using Node_induction.
  rewrite Forall_forall in IH. intros H. simpl.
  assert (Hcs : map (mapTree edit) cs = cs).
  { rewrite <- (map_id cs) at 2. apply map_ext_in. intros c Hc.
    apply (IH c Hc). intros m Hm. apply H. eapply in_subtree_child; eauto. }
  rewrite Hcs. apply H. left. reflexivity.
Qed.

Lemma mapTree_head (edit : Node -> Node) (n : Node) :
  keepsHead edit ->
  getKind (mapTree edit n) = getKind n /\ getName (mapTree edit n) = getName n.
Proof. intros H. destruct n as [k nm ta cs]. simpl. apply (H (mkNode k nm ta _)). Qed.

Lemma mapTree_isKind (edit : Node -> Node) (k : SyntaxKind) (n : Node) :
  keepsHead edit -> isKind k (mapTree edit n) = isKind k n.
Proof. intros H. unfold isKind. now rewrite (proj1 (mapTree_head edit n H)). Qed.

Lemma mapTree_propertyNamed (edit : Node -> Node) (name : string) (n : Node) :
  keepsHead edit ->
  propertyNamed name (mapTree edit n) = propertyNamed name n.
Proof.
  intros H. unfold propertyNamed, isNamedProperty.
  rewrite !(mapTree_isKind edit _ n H), (proj2 (mapTree_head edit n H)).
  reflexivity.
Qed.

Lemma find_map_propertyNamed (edit : Node -> Node) (name : string)
  (cs : list Node) :
  keepsHead edit ->
  find (propertyNamed name) (map (mapTree edit) cs)
  = option_map (mapTree edit) (find (propertyNamed name) cs).
Proof.
  intros H. induction cs as [|c rest IH]; [reflexivity|].
  simpl. rewrite (mapTree_propertyNamed edit name c H).
  destruct (propertyNamed name c); [reflexivity | exact IH].
Qed.

(** Whether a literal has a property of some name is not changed by an
    edit below it. *)
Lemma hasProperty_rebuilt (edit : Node -> Node) (name : string)
  (k : SyntaxKind) (nm : string) (ta : list string) (cs : list Node) :
  keepsHead edit ->
  hasProperty name (mkNode k nm ta (map (mapTree edit) cs))
  = hasProperty name (mkNode k nm ta cs).
Proof.
  intros H. unfold hasProperty, getProperty. simpl.
  rewrite (find_map_propertyNamed edit name cs H).
  destruct (find (propertyNamed name) cs); reflexivity.
Qed.

Lemma child_in_subtree (s m c : Node) :
  In m (subtree s) -> In c (getChildren m) -> In c (subtree s).
Proof.
  induction s as [k nm ta cs IH] using Node_induction.
  rewrite Forall_forall in IH. intros [<-|Hm] Hc.
  - right. apply (in_descendants k nm ta cs c c Hc). now left.
  - right. simpl in Hm. apply in_flat_map in Hm as (x & Hx & Hm).
    apply (in_descendants k nm ta cs x c Hx). now apply (IH x Hx).
Qed.

Lemma child_in_file (sourceFile : SourceFile) (m c : Node) :
  In m (fileDescendants sourceFile) -> In c (getChildren m) ->
  In c (fileDescendants sourceFile).
Proof.
  unfold fileDescendants. intros Hm Hc.
  apply in_flat_map in Hm as (s & Hs & Hm). apply in_flat_map.
  exists s. split; [exact Hs|]. now apply (child_in_subtree s m c).
Qed.

End TreeFacts.

Module TransformerFacts.
Import JsString Ast Transformer TreeFacts.

Lemma withTypeArguments_head (typeArgs : list string) (n : Node) :
  getKind (withTypeArguments typeArgs n) = getKind n
  /\ getName (withTypeArguments typeArgs n) = getName n.
Proof. destruct n; split; reflexivity. Qed.

Lemma typeArgumentEdit_head (n : Node) :
  getKind (typeArgumentEdit n) = getKind n
  /\ getName (typeArgumentEdit n) = getName n.
Proof.
  unfold typeArgumentEdit.
  destruct (isKatalistCall n); [|split; reflexivity].
  destruct (typeNameToAdd n) as [typeName|]; [|split; reflexivity].
  apply withTypeArguments_head.
Qed.

Lemma not_call_of_literal (n : Node) :
  isKind ObjectLiteralExpression n = true -> isKind CallExpression n = false.
Proof. unfold isKind. destruct (getKind n); simpl; congruence. Qed.

Lemma not_new_of_literal (n : Node) :
  isKind ObjectLiteralExpression n = true -> isKind NewExpression n = false.
Proof. unfold isKind. destruct (getKind n); simpl; congruence. Qed.

Lemma typeArgumentEdit_gentle : gentle typeArgumentEdit.
Proof.
  split.
  - intros n. apply typeArgumentEdit_head.
  - intros n H. unfold typeArgumentEdit, isKatalistCall.
    rewrite (not_call_of_literal n H). reflexivity.
Qed.

Lemma zodOutputEdit_gentle : gentle zodOutputEdit.
Proof.
  split.
  - intros n. unfold zodOutputEdit.
    destruct (isHttpClientWithZodOutput n); [|split; reflexivity].
    destruct n as [k nm ta [|e args]]; split; reflexivity.
  - intros n H. unfold zodOutputEdit, isHttpClientWithZodOutput.
    rewrite (not_new_of_literal n H). reflexivity.
Qed.

Lemma generationOptionsEdit_gentle : gentle generationOptionsEdit.
Proof.
  split.
  - intros n. unfold generationOptionsEdit.
    destruct (isKatalistCall n); [|split; reflexivity].
    destruct n as [k nm ta [|e [|u [|o rest]]]]; try (split; reflexivity).
    destruct (isKind ObjectLiteralExpression o); split; reflexivity.
  - intros n H. unfold generationOptionsEdit, isKatalistCall.
    rewrite (not_call_of_literal n H). reflexivity.
Qed.

(** Below a gentle edit a literal keeps its kind and its property names. *)
Lemma hasProperty_mapTree (edit : Node -> Node) (name : string) (o : Node) :
  gentle edit ->
  isKind ObjectLiteralExpression o = true ->
  hasProperty name (mapTree edit o) = hasProperty name o.
Proof.
  intros [Hh Hs] Ho. destruct o as [k nm ta cs]. simpl.
  rewrite (Hs (mkNode k nm ta (map (mapTree edit) cs)) Ho).
  apply hasProperty_rebuilt. exact Hh.
Qed.

(** The filter of the locator sees the same thing before and after a
    gentle edit of the children. *)
Lemma hasSchemaGenerationOptions_rebuilt (edit : Node -> Node)
  (k : SyntaxKind) (nm : string) (ta : list string) (cs : list Node) :
  gentle edit ->
  hasSchemaGenerationOptions (mkNode k nm ta (map (mapTree edit) cs))
  = hasSchemaGenerationOptions (mkNode k nm ta cs).
Proof.
  intros Hg. pose proof (proj1 Hg) as Hh.
  unfold hasSchemaGenerationOptions, getExpression, getArguments. simpl.
  destruct cs as [|e args]; [reflexivity|]. simpl.
  rewrite (mapTree_isKind edit _ e Hh), (proj2 (mapTree_head edit e Hh)).
  destruct (negb (isKind PropertyAccessExpression e)); [reflexivity|].
  destruct (negb (String.eqb (getName e) "get")); [reflexivity|].
  rewrite length_map.
  destruct (Nat.ltb (List.length args) 2); [reflexivity|].
  destruct args as [|u [|o rest]]; try reflexivity. simpl.
  rewrite (mapTree_isKind edit _ o Hh).
  destruct (isKind ObjectLiteralExpression o) eqn:Ho; [|reflexivity]. simpl.
  rewrite !(hasProperty_mapTree edit _ o Hg Ho). reflexivity.
Qed.

Lemma isKatalistCall_rebuilt (edit : Node -> Node)
  (k : SyntaxKind) (nm : string) (ta : list string) (cs : list Node) :
  gentle edit ->
  isKatalistCall (mkNode k nm ta (map (mapTree edit) cs))
  = isKatalistCall (mkNode k nm ta cs).
Proof.
  intros Hg. unfold isKatalistCall.
  rewrite (hasSchemaGenerationOptions_rebuilt edit k nm ta cs Hg). reflexivity.
Qed.

Lemma typeArgumentEdit_skips (n : Node) :
  isKatalistCall n = false -> typeArgumentEdit n = n.
Proof. unfold typeArgumentEdit. now intros ->. Qed.

Lemma generationOptionsEdit_skips (n : Node) :
  isKatalistCall n = false -> generationOptionsEdit n = n.
Proof. unfold generationOptionsEdit. now intros ->. Qed.

Lemma zodOutputEdit_skips (n : Node) :
  isHttpClientWithZodOutput n = false -> zodOutputEdit n = n.
Proof. unfold zodOutputEdit. now intros ->. Qed.


Lemma located_calls_in (sourceFile : SourceFile) (n : Node) :
  In n (findKatalistCallsWithSchemaGeneration sourceFile) <->
  In n (fileDescendants sourceFile) /\ isKatalistCall n = true.
Proof.
  unfold findKatalistCallsWithSchemaGeneration, getDescendantsOfKind,
    isKatalistCall.
  rewrite !filter_In, andb_true_iff. tauto.
Qed.

Lemma located_constructors_in (sourceFile : SourceFile) (n : Node) :
  In n (findHttpClientCallsWithZodOutput sourceFile) <->
  In n (fileDescendants sourceFile) /\ isHttpClientWithZodOutput n = true.
Proof.
  unfold findHttpClientCallsWithZodOutput, getDescendantsOfKind,
    isHttpClientWithZodOutput.
  rewrite !filter_In, andb_true_iff. tauto.
Qed.

(** The first pass below a node that is not located. *)
Lemma typeParameters_unlocated (host : Host) (filePath : string)
  (k : SyntaxKind) (nm : string) (ta : list string) (cs : list Node) :
  isKatalistCall (mkNode k nm ta cs) = false ->
  typeParameters host filePath (mkNode k nm ta cs)
  = mkNode k nm ta (map (typeParameters host filePath) cs).
Proof. intros H. cbn [typeParameters]. now rewrite H. Qed.

(** The first pass replaces located calls only: every other node keeps
    its kind and its name. *)
Lemma typeParameters_head (host : Host) (filePath : string) (n : Node) :
  isKind CallExpression n = false ->
  getKind (typeParameters host filePath n) = getKind n
  /\ getName (typeParameters host filePath n) = getName n.
Proof.
  intros Hk. destruct n as [k nm ta cs].
  rewrite typeParameters_unlocated; [split; reflexivity|].
  unfold isKatalistCall, isKind in *. cbn [getKind] in *.
  now rewrite Hk.
Qed.

Lemma typeParameters_id (host : Host) (filePath : string) (n : Node) :
  (forall m, In m (subtree n) -> isKatalistCall m = false) ->
  typeParameters host filePath n = n.
Proof.
  induction n as [k nm ta cs IH] using Node_induction. intros H.
  rewrite typeParameters_unlocated by (apply H; now left).
  f_equal. rewrite <- (map_id cs) at 2. apply map_ext_in.
  intros c Hc. rewrite Forall_forall in IH. apply (IH c Hc).
  intros m Hm. apply H.
  right. apply (in_descendants k nm ta cs c m Hc Hm).
Qed.



Lemma filter_none {A : Type} (f : A -> bool) (l : list A) :
  (forall x, In x l -> f x = false) -> filter f l = [].
Proof.
  induction l as [|a l IH]; intros H; [reflexivity|].
  simpl. rewrite (H a (or_introl eq_refl)). apply IH.
  intros x Hx. apply H. right. exact Hx.
Qed.

Lemma in_fileDescendants (sourceFile : SourceFile) (s m : Node) :
  In s (getStatements sourceFile) -> In m (subtree s) ->
  In m (fileDescendants sourceFile).
Proof.
  intros Hs Hm. unfold fileDescendants. apply in_flat_map.
  exists s. split; assumption.
Qed.

Lemma withStatements_same (sourceFile : SourceFile) :
  withStatements sourceFile (getStatements sourceFile) = sourceFile.
Proof. destruct sourceFile; reflexivity. Qed.

Lemma statements_unchanged (edit : Node -> Node) (sourceFile : SourceFile) :
  (forall m, In m (fileDescendants sourceFile) -> edit m = m) ->
  map (mapTree edit) (getStatements sourceFile) = getStatements sourceFile.
Proof.
  intros H. rewrite <- (map_id (getStatements sourceFile)) at 2.
  apply map_ext_in. intros s Hs. apply mapTree_id.
  intros m Hm. apply H. eapply in_fileDescendants; eauto.
Qed.

Lemma no_located_calls (sourceFile : SourceFile) :
  (forall m, In m (fileDescendants sourceFile) -> isKatalistCall m = false) ->
  findKatalistCallsWithSchemaGeneration sourceFile = [].
Proof.
  intros H. unfold findKatalistCallsWithSchemaGeneration, getDescendantsOfKind.
  apply filter_none. intros x Hx. apply filter_In in Hx as [Hx Hk].
  specialize (H x Hx). unfold isKatalistCall in H. rewrite Hk in H. exact H.
Qed.

Lemma no_located_constructors (sourceFile : SourceFile) :
  (forall m, In m (fileDescendants sourceFile) ->
             isHttpClientWithZodOutput m = false) ->
  findHttpClientCallsWithZodOutput sourceFile = [].
Proof.
  intros H. unfold findHttpClientCallsWithZodOutput, getDescendantsOfKind.
  apply filter_none. intros x Hx. apply filter_In in Hx as [Hx Hk].
  specialize (H x Hx). unfold isHttpClientWithZodOutput in H.
  rewrite Hk in H. exact H.
Qed.

(** A file in which the locators match nothing goes through the four
    passes unchanged, and none of them raises. *)
Lemma transform_of_unmatched_file (host : Host) (sourceFile : SourceFile) :
  (forall m, In m (fileDescendants sourceFile) -> unmatched m = true) ->
  findKatalistCallsWithSchemaGeneration sourceFile = []
  /\ findHttpClientCallsWithZodOutput sourceFile = []
  /\ addTypeParametersToKatalistCalls host sourceFile = Some sourceFile
  /\ addKatalistSchemaImports host sourceFile = sourceFile
  /\ removeZodOutput sourceFile = Some sourceFile
  /\ removeSchemaGenerationOptions sourceFile = Some sourceFile
  /\ transformSourceFile host sourceFile = Some sourceFile.
Proof.
  intros H.
  assert (Hc : forall m, In m (fileDescendants sourceFile) ->
                         isKatalistCall m = false).
  { intros m Hm. specialize (H m Hm). unfold unmatched in H.
    apply andb_true_iff in H as [H _]. now apply negb_true_iff in H. }
  assert (Hn : forall m, In m (fileDescendants sourceFile) ->
                         isHttpClientWithZodOutput m = false).
  { intros m Hm. specialize (H m Hm). unfold unmatched in H.
    apply andb_true_iff in H as [_ H]. now apply negb_true_iff in H. }
  pose proof (no_located_calls _ Hc) as Hcalls.
  pose proof (no_located_constructors _ Hn) as Hnews.
  assert (H1 : addTypeParametersToKatalistCalls host sourceFile
               = Some sourceFile).
  { unfold addTypeParametersToKatalistCalls, typeParametersComplete.
    rewrite Hcalls. simpl.
    assert (Hsame : map (typeParameters host (getFilePath sourceFile))
                      (getStatements sourceFile)
                    = getStatements sourceFile).
    { rewrite <- (map_id (getStatements sourceFile)) at 2.
      apply map_ext_in. intros s Hs. apply typeParameters_id.
      intros m Hm. apply Hc. eapply in_fileDescendants; eauto. }
    rewrite Hsame. now rewrite withStatements_same. }
  assert (H2 : addKatalistSchemaImports host sourceFile = sourceFile).
  { unfold addKatalistSchemaImports. rewrite Hcalls. simpl.
    rewrite app_nil_r. destruct sourceFile; reflexivity. }
  assert (H3 : removeZodOutput sourceFile = Some sourceFile).
  { unfold removeZodOutput, zodOutputRemovalComplete.
    rewrite Hnews. simpl.
    rewrite (statements_unchanged zodOutputEdit sourceFile).
    - now rewrite withStatements_same.
    - intros m Hm. apply zodOutputEdit_skips. now apply Hn. }
  assert (H4 : removeSchemaGenerationOptions sourceFile = Some sourceFile).
  { unfold removeSchemaGenerationOptions, generationOptionsRemovalComplete.
    rewrite Hcalls. simpl.
    rewrite (statements_unchanged generationOptionsEdit sourceFile).
    - now rewrite withStatements_same.
    - intros m Hm. apply generationOptionsEdit_skips. now apply Hc. }
  repeat split; try assumption.
  unfold transformSourceFile. rewrite H1, H2, H3. exact H4.
Qed.

Lemma no_literal_not_located (site : Node) :
  secondArgumentIsLiteral site = false -> isKatalistCall site = false.
Proof.
  unfold secondArgumentIsLiteral, isKatalistCall, hasSchemaGenerationOptions.
  intros H. apply andb_false_iff. right.
  destruct (getExpression site) as [e|]; [|reflexivity].
  destruct (negb (isKind PropertyAccessExpression e)); [reflexivity|].
  destruct (negb (String.eqb (getName e) "get")); [reflexivity|].
  destruct (Nat.ltb (List.length (getArguments site)) 2); [reflexivity|].
  destruct (nth_error (getArguments site) 1) as [o|]; [|reflexivity].
  rewrite H. reflexivity.
Qed.

Lemma call_is_not_constructor (n : Node) :
  isKind CallExpression n = true -> isHttpClientWithZodOutput n = false.
Proof.
  unfold isHttpClientWithZodOutput, isKind.
  destruct (getKind n); simpl; congruence.
Qed.

Lemma unmatched_split (m : Node) :
  unmatched m = true ->
  isKatalistCall m = false /\ isHttpClientWithZodOutput m = false.
Proof.
  unfold unmatched. intros H. apply andb_true_iff in H as [H1 H2].
  split; now apply negb_true_iff.
Qed.

(** A subtree in which the locators match nothing is left as it is by
    the three tree edits. *)
Lemma rewrite_of_unmatched_subtree (n : Node) :
  (forall m, In m (subtree n) -> unmatched m = true) ->
  mapTree typeArgumentEdit n = n
  /\ mapTree zodOutputEdit n = n
  /\ mapTree generationOptionsEdit n = n
  /\ rewriteAsWritten n = n.
Proof.
  intros H.
  assert (H1 : mapTree typeArgumentEdit n = n).
  { apply mapTree_id. intros m Hm. apply typeArgumentEdit_skips.
    apply (unmatched_split m (H m Hm)). }
  assert (H3 : mapTree zodOutputEdit n = n).
  { apply mapTree_id. intros m Hm. apply zodOutputEdit_skips.
    apply (unmatched_split m (H m Hm)). }
  assert (H4 : mapTree generationOptionsEdit n = n).
  { apply mapTree_id. intros m Hm. apply generationOptionsEdit_skips.
    apply (unmatched_split m (H m Hm)). }
  repeat split; try assumption.
  unfold rewriteAsWritten. now rewrite H1, H3, H4.
Qed.

Lemma run_of_unmatched_subtree (host : Host) (filePath : string) (n : Node) :
  (forall m, In m (subtree n) -> unmatched m = true) ->
  typeParameters host filePath n = n
  /\ rewrite host filePath n = n.
Proof.
  intros H.
  assert (H1 : typeParameters host filePath n = n).
  { apply typeParameters_id. intros m Hm.
    apply (unmatched_split m (H m Hm)). }
  destruct (rewrite_of_unmatched_subtree n H) as (_ & H3 & H4 & _).
  split; [exact H1|]. unfold rewrite. now rewrite H1, H3, H4.
Qed.

(** What holds of the claim: a call site whose second argument is not
    an object literal is not matched by the locator in any file; when
    nothing below it is matched either, the three tree edits leave it as
    it is wherever they reach it; on a file in which nothing matches,
    the locators return empty lists and the four passes complete without
    raising and without a change. *)
Lemma site_without_options_literal_is_not_located (host : Host)
  (filePath : string) (site : Node) :
  isKind CallExpression site = true ->
  secondArgumentIsLiteral site = false ->
  (forall m, In m (getDescendants site) -> unmatched m = true) ->
  isKatalistCall site = false
  /\ (forall sourceFile,
        ~ In site (findKatalistCallsWithSchemaGeneration sourceFile))
  /\ typeParameters host filePath site = site
  /\ mapTree zodOutputEdit site = site
  /\ mapTree generationOptionsEdit site = site
  /\ rewrite host filePath site = site
  /\ (forall sourceFile,
        (forall m, In m (fileDescendants sourceFile) -> unmatched m = true) ->
        findKatalistCallsWithSchemaGeneration sourceFile = []
        /\ findHttpClientCallsWithZodOutput sourceFile = []
        /\ transformSourceFile host sourceFile = Some sourceFile).
Proof.
  intros Hk Hlit Hbelow.
  pose proof (no_literal_not_located site Hlit) as Hnot.
  assert (Hall : forall m, In m (subtree site) -> unmatched m = true).
  { intros m [<-|Hm]; [|now apply Hbelow].
    unfold unmatched. now rewrite Hnot, (call_is_not_constructor site Hk). }
  destruct (rewrite_of_unmatched_subtree site Hall) as (_ & H3 & H4 & _).
  destruct (run_of_unmatched_subtree host filePath site Hall) as (H1 & Hr).
  split; [exact Hnot|]. split.
  { intros sourceFile Hin. apply located_calls_in in Hin as [_ Hin]. congruence. }
  repeat split; try assumption.
  - now apply (transform_of_unmatched_file host sourceFile).
  - now apply (transform_of_unmatched_file host sourceFile).
  - now apply (transform_of_unmatched_file host sourceFile).
Qed.

(** The sites of the specification, [client.get(url, ...options)] and
    [client.get(url, options)], on their own: neither is located and the
    three edits leave both as they are. *)
Lemma spread_and_identifier_sites_are_skipped :
  isKatalistCall Build.spreadGet = false
  /\ isKatalistCall Build.identifierGet = false
  /\ rewrite Build.sampleHost "/proj/src/api.ts" Build.spreadGet
     = Build.spreadGet
  /\ rewrite Build.sampleHost "/proj/src/api.ts" Build.identifierGet
     = Build.identifierGet.
Proof. repeat split. Qed.

(** C9 (evaluation at the failing input): the file holds
    [const user = await m.get(k, opts).get(url, { generateSchema: true,
    interfaceName: "User" });].  The call site [m.get(k, opts)] has an
    identifier as its second argument and is not located.  The first
    pass reads the text of the tagged call, in which the first [.get(]
    is that of [m.get(k, opts)], and puts the type parameter there: the
    run completes, the site [m.get(k, opts)] is gone from the file and
    [m.get<UserSchemaType>(k, opts)] stands in its place, while the
    tagged call itself has no type argument and the file no import. *)
Theorem C9_type_parameter_lands_on_the_receiver :
  isKind CallExpression (Build.cacheGet []) = true
  /\ secondArgumentIsLiteral (Build.cacheGet []) = false
  /\ In (Build.cacheGet []) (fileDescendants Build.fileWithChainedGet)
  /\ ~ In (Build.cacheGet [])
         (findKatalistCallsWithSchemaGeneration Build.fileWithChainedGet)
  /\ nodeText Build.chainHost "/proj/src/api.ts" (Build.chainedGet [])
     = "m.get(k, opts).get(" ++ dquote ++ "https://example.org/users/1"
       ++ dquote ++ ", { generateSchema: true, interfaceName: " ++ dquote
       ++ "User" ++ dquote ++ " })"
  /\ newCallText
       (nodeText Build.chainHost "/proj/src/api.ts" (Build.chainedGet []))
       "UserSchemaType"
     = "m.get<UserSchemaType>(k, opts).get(" ++ dquote
       ++ "https://example.org/users/1"
       ++ dquote ++ ", { generateSchema: true, interfaceName: " ++ dquote
       ++ "User" ++ dquote ++ " })"
  /\ exists transformed,
       transformSourceFile Build.chainHost Build.fileWithChainedGet
       = Some transformed
       /\ ~ In (Build.cacheGet []) (fileDescendants transformed)
       /\ In (Build.cacheGet ["UserSchemaType"]) (fileDescendants transformed)
       /\ In (Build.call
                (Build.access (Build.cacheGet ["UserSchemaType"]) "get") []
                [Build.str "https://example.org/users/1"; Build.obj []])
            (fileDescendants transformed)
       /\ getImportDeclarations transformed = [].
Proof.
  split; [reflexivity|]. split; [reflexivity|]. split.
  { simpl. tauto. }
  split.
  { intros H. apply located_calls_in in H as [_ H]. discriminate H. }
  split; [reflexivity|]. split; [reflexivity|].
  eexists. split; [reflexivity|]. split.
  { simpl. intros H.
    repeat (destruct H as [H|H]; [discriminate H|]). exact H. }
  split; [simpl; tauto|]. split; [simpl; tauto|]. reflexivity.
Qed.

Lemma existsb_names_false (name : string) (cs : list Node) :
  existsb (String.eqb name) (map getName (filter isNamedProperty cs)) = false ->
  forall q, In q cs -> propertyNamed name q = false.
Proof.
  induction cs as [|c rest IH]; intros H q Hq; [destruct Hq|].
  simpl in H. unfold propertyNamed in *.
  destruct (isNamedProperty c) eqn:Hc.
  - simpl in H. apply orb_false_iff in H as [Hn Hrest].
    destruct Hq as [<-|Hq].
    + rewrite Hc. simpl. now rewrite String.eqb_sym.
    + now apply IH.
  - destruct Hq as [<-|Hq]; [now rewrite Hc | now apply IH].
Qed.

Lemma filter_all {A : Type} (f : A -> bool) (l : list A) :
  (forall x, In x l -> f x = true) -> filter f l = l.
Proof.
  induction l as [|a l IH]; intros H; [reflexivity|].
  simpl. rewrite (H a (or_introl eq_refl)). f_equal. apply IH.
  intros x Hx. apply H. right. exact Hx.
Qed.

Lemma existsb_filter_false {A : Type} (f g : A -> bool) (l : list A) :
  existsb f l = false -> existsb f (filter g l) = false.
Proof.
  induction l as [|a l IH]; [reflexivity|]. simpl.
  intros H. apply orb_false_iff in H as [Ha Hl].
  destruct (g a); simpl; [rewrite Ha|]; now apply IH.
Qed.

(** Removing properties keeps the names of an object literal distinct. *)
Lemma distinct_names_filter (g : Node -> bool) (cs : list Node) :
  distinct (map getName (filter isNamedProperty cs)) = true ->
  distinct (map getName (filter isNamedProperty (filter g cs))) = true.
Proof.
  induction cs as [|c rest IH]; [reflexivity|]. simpl.
  destruct (g c) eqn:Hg; destruct (isNamedProperty c) eqn:Hc; simpl;
    rewrite ?Hc; simpl; intros H.
  - apply andb_true_iff in H as [Hn Hd]. apply andb_true_iff. split.
    + apply negb_true_iff. apply negb_true_iff in Hn.
      revert Hn. clear. induction rest as [|r rest IH]; [reflexivity|].
      simpl. destruct (isNamedProperty r) eqn:Hr; simpl.
      * intros H. apply orb_false_iff in H as [H1 H2].
        destruct (g r); simpl; rewrite ?Hr; simpl; [rewrite H1|]; now apply IH.
      * intros H. destruct (g r); simpl; rewrite ?Hr; now apply IH.
    + now apply IH.
  - now apply IH.
  - apply andb_true_iff in H as [_ Hd]. now apply IH.
  - now apply IH.
Qed.

(** In a literal with distinct names, removing the first property of a
    name removes every property of that name. *)
Lemma removeFirst_filter (name : string) (cs : list Node) :
  distinct (map getName (filter isNamedProperty cs)) = true ->
  removeFirst name cs = filter (fun p => negb (propertyNamed name p)) cs.
Proof.
  induction cs as [|c rest IH]; [reflexivity|]. intros H. simpl.
  destruct (propertyNamed name c) eqn:Hp; simpl.
  - symmetry. apply filter_all. intros q Hq. apply negb_true_iff.
    unfold propertyNamed in Hp. apply andb_true_iff in Hp as [Hc Hn].
    apply String.eqb_eq in Hn. subst name.
    simpl in H. rewrite Hc in H. simpl in H.
    apply andb_true_iff in H as [H _]. apply negb_true_iff in H.
    now apply (existsb_names_false (getName c) rest H).
  - f_equal. apply IH. simpl in H.
    destruct (isNamedProperty c); [|exact H].
    simpl in H. now apply andb_true_iff in H as [_ H].
Qed.

Lemma filter_filter {A : Type} (f g : A -> bool) (l : list A) :
  filter f (filter g l) = filter (fun x => g x && f x) l.
Proof.
  induction l as [|a l IH]; [reflexivity|]. simpl.
  destruct (g a); simpl; [destruct (f a)|]; now rewrite IH.
Qed.

(** The three removals on a literal with distinct names: what stays is
    what is not a generation option, in its order. *)
Lemma removeGenerationOptions_children (optionsArg : Node) :
  distinct (propertyNames optionsArg) = true ->
  getChildren (removeGenerationOptions optionsArg)
  = filter (fun p => negb (isGenerationOption p)) (getChildren optionsArg).
Proof.
  destruct optionsArg as [k nm ta cs]. unfold propertyNames. simpl.
  intros H. unfold removeGenerationOptions, removeProperty. simpl.
  rewrite (removeFirst_filter "generateSchema" cs H).
  rewrite (removeFirst_filter "interfaceName");
    [|now apply distinct_names_filter].
  rewrite (removeFirst_filter "sourceFile");
    [|now repeat apply distinct_names_filter].
  rewrite !filter_filter. apply filter_ext. intros p.
  unfold isGenerationOption.
  destruct (propertyNamed "generateSchema" p),
    (propertyNamed "interfaceName" p), (propertyNamed "sourceFile" p);
    reflexivity.
Qed.



Lemma in_mapSet (key : string) (value : HttpClientInfo) (m : BindingMap)
  (entry : string * HttpClientInfo) :
  In entry (mapSet key value m) -> snd entry = value \/ In entry m.
Proof.
  induction m as [|[k v] rest IH]; simpl.
  - intros [<-|[]]. now left.
  - destruct (String.eqb k key).
    + intros [<-|H]; [now left | right; now right].
    + intros [<-|H]; [right; now left|].
      destruct (IH H) as [->|Hin]; [now left | right; now right].
Qed.

(** Without [<anonymous>] in the filter, the loop only ever stores
    bindings whose function is named by the filter. *)
Lemma extraction_keeps_filtered (names : list string)
  (sites : list (Node * list Node)) (state : BindingMap * bool) :
  names <> [] ->
  arrayIncludes "<anonymous>" names = false ->
  (forall entry, In entry (fst state) ->
                 arrayIncludes (functionName (snd entry)) names = true) ->
  forall entry,
    In entry (fst (fold_left (extractionStep (Some names)) sites state)) ->
    arrayIncludes (functionName (snd entry)) names = true.
Proof.
  intros Hne Hanon. revert state.
  induction sites as [|site rest IH]; intros state Hstate; [exact Hstate|].
  simpl. apply IH. clear IH.
  destruct state as [m processed]. destruct site as [call ancestors].
  unfold extractionStep.
  destruct ancestors as [|parent above]; [exact Hstate|].
  destruct (negb (isKind VariableDeclaration parent)); [exact Hstate|].
  rewrite Hanon. simpl.
  assert (Hlen : Nat.ltb 0 (List.length names) = true).
  { destruct names; [congruence | reflexivity]. }
  rewrite Hlen. simpl. rewrite andb_true_r.
  destruct (arrayIncludes (findContainingFunctionName above) names) eqn:Hin;
    simpl; [|exact Hstate].
  destruct (extractTypeFromHttpClientArgs (getArguments call)); [|exact Hstate].
  simpl. intros entry Hentry.
  apply in_mapSet in Hentry as [->|Hentry]; [exact Hin | now apply Hstate].
Qed.

(** With [<anonymous>] in the filter, nothing is stored once a first
    binding has been. *)
Lemma extraction_stops_after_first (names : list string)
  (sites : list (Node * list Node)) (m : BindingMap) :
  arrayIncludes "<anonymous>" names = true ->
  fold_left (extractionStep (Some names)) sites (m, true) = (m, true).
Proof.
  intros Hanon. induction sites as [|site rest IH]; [reflexivity|].
  simpl. destruct site as [call ancestors].
  destruct ancestors as [|parent above]; [exact IH|].
  destruct (negb (isKind VariableDeclaration parent)); [exact IH|].
  rewrite Hanon. simpl. rewrite andb_false_r. simpl. exact IH.
Qed.

Lemma extraction_takes_first (names : list string)
  (sites : list (Node * list Node)) :
  arrayIncludes "<anonymous>" names = true ->
  fst (fold_left (extractionStep (Some names)) sites ([], false))
  = firstn 1 (flat_map (fun site => match bindingOf site with
                                    | Some b => [b]
                                    | None => []
                                    end) sites).
Proof.
  intros Hanon. induction sites as [|site rest IH]; [reflexivity|].
  simpl. destruct site as [call ancestors]. unfold bindingOf. simpl.
  destruct ancestors as [|parent above]; [exact IH|].
  destruct (isKind VariableDeclaration parent); simpl; [|exact IH].
  rewrite Hanon. simpl. rewrite andb_false_r. simpl.
  destruct (extractTypeFromHttpClientArgs (getArguments call)); [|exact IH].
  simpl. now rewrite (extraction_stops_after_first names rest _ Hanon).
Qed.

(** C6 (as amended): with a non-empty filter that does not hold
    [<anonymous>], every binding of the returned map has its function
    name in the filter; with a filter that holds [<anonymous>], the map
    is the first binding of the file in source order, whatever its
    function, and every later binding is left out. *)
Theorem C6_filter_of_the_binding_map (sourceFile : SourceFile)
  (names : list string) :
  names <> [] ->
  (arrayIncludes "<anonymous>" names = false ->
   forall entry,
     In entry (extractHttpClientVariablesWithZodOutput sourceFile (Some names)) ->
     arrayIncludes (functionName (snd entry)) names = true)
  /\ (arrayIncludes "<anonymous>" names = true ->
      extractHttpClientVariablesWithZodOutput sourceFile (Some names)
      = firstn 1 (allBindings sourceFile)).
Proof.
  intros Hne. split.
  - intros Hanon entry Hentry.
    apply (extraction_keeps_filtered names (httpClientSites sourceFile)
             ([], false) Hne Hanon); [intros e []|exact Hentry].
  - intros Hanon. apply extraction_takes_first. exact Hanon.
Qed.

Lemma C6_filter_of_the_binding_map_witness :
  extractHttpClientVariablesWithZodOutput
    (Build.sourceOf Build.correlationSample) (Some ["bar"; "<anonymous>"])
  = firstn 1 (allBindings (Build.sourceOf Build.correlationSample)).
Proof.
  apply (C6_filter_of_the_binding_map
           (Build.sourceOf Build.correlationSample) ["bar"; "<anonymous>"]).
  - discriminate.
  - reflexivity.
Defined.

(** C6 (counterexample): with the filter [["<anonymous>"]] the map holds
    the binding made in the function [foo], a name that is neither in
    the filter nor the anonymous marker, and the first anonymous binding
    of the file, [b], is not in it. *)
Lemma C6_first_binding_wins_over_anonymous :
  let result :=
    extractHttpClientVariablesWithZodOutput
      (Build.sourceOf Build.correlationSample) (Some ["<anonymous>"]) in
  result
  = [("a:foo", {| typeName := "AOutputSchemaType"; functionName := "foo" |})]
  /\ arrayIncludes "foo" ["<anonymous>"] = false
  /\ In ("b:anonymous",
         {| typeName := "BOutputSchemaType"; functionName := "anonymous" |})
       (allBindings (Build.sourceOf Build.correlationSample))
  /\ ~ In ("b:anonymous",
           {| typeName := "BOutputSchemaType"; functionName := "anonymous" |})
         result.
Proof.
  repeat split.
  - right. left. reflexivity.
  - intros [H|[]]. discriminate H.
Qed.









Lemma typeArgumentEdit_children (n : Node) :
  getChildren (typeArgumentEdit n) = getChildren n.
Proof.
  unfold typeArgumentEdit.
  destruct (isKatalistCall n); [|reflexivity].
  destruct (typeNameToAdd n) as [T|]; [|reflexivity].
  destruct n; reflexivity.
Qed.











Lemma removeProperty_head (name : string) (o : Node) :
  getKind (removeProperty name o) = getKind o
  /\ getName (removeProperty name o) = getName o.
Proof. destruct o; split; reflexivity. Qed.










Lemma mapTree_typeArgumentEdit_children (k : SyntaxKind) (nm : string)
  (ta : list string) (cs : list Node) :
  getChildren (mapTree typeArgumentEdit (mkNode k nm ta cs))
  = map (mapTree typeArgumentEdit) cs.
Proof. cbn [mapTree]. now rewrite typeArgumentEdit_children. Qed.

(** The type name the first pass derives for a call does not depend on
    what the pass does below the call. *)
Lemma typeNameToAdd_rebuilt (k : SyntaxKind) (nm : string)
  (ta : list string) (cs : list Node) :
  typeNameToAdd (mkNode k nm ta (map (mapTree typeArgumentEdit) cs))
  = typeNameToAdd (mkNode k nm ta cs).
Proof.
  pose proof (proj1 typeArgumentEdit_gentle) as Hh.
  unfold typeNameToAdd, getExpression, getArguments.
  cbn [getChildren getTypeArguments].
  destruct cs as [|e args]; [reflexivity|]. cbn [map hd_error tl].
  rewrite (mapTree_isKind _ _ e Hh).
  destruct (negb (isKind PropertyAccessExpression e)); [reflexivity|].
  destruct (Nat.ltb 0 (List.length ta)); [reflexivity|].
  rewrite length_map.
  destruct (Nat.leb 2 (List.length args)); [|reflexivity].
  destruct args as [|u [|o rest]]; try reflexivity. cbn [map nth_error].
  rewrite (mapTree_isKind _ _ o Hh).
  destruct (isKind ObjectLiteralExpression o); [|reflexivity].
  destruct o as [ko nmo tao cso]. unfold getProperty.
  rewrite mapTree_typeArgumentEdit_children. cbn [getChildren].
  rewrite (find_map_propertyNamed _ _ cso Hh).
  destruct (find (propertyNamed "interfaceName") cso) as [p|];
    cbn [option_map]; [|reflexivity].
  rewrite (mapTree_isKind _ _ p Hh).
  destruct (isKind PropertyAssignment p); [|reflexivity].
  unfold getInitializer. destruct p as [kp nmp tap csp].
  rewrite mapTree_typeArgumentEdit_children. cbn [getChildren].
  destruct csp as [|i r]; [reflexivity|]. cbn [map hd_error].
  now rewrite (mapTree_isKind _ _ i Hh), (proj2 (mapTree_head _ i Hh)).
Qed.

(** What the completion of the first pass says of one located call. *)
Lemma typed_call_is_flat (host : Host) (sourceFile : SourceFile)
  (callExpr : Node) (typeName : string) :
  typeParametersComplete host sourceFile = true ->
  In callExpr (findKatalistCallsWithSchemaGeneration sourceFile) ->
  typeNameToAdd callExpr = Some typeName ->
  (exists replaced,
     replaceWithTypeParameter host (getFilePath sourceFile) callExpr typeName
     = Some replaced)
  /\ (forall m, In m (getDescendants callExpr) -> isKatalistCall m = false).
Proof.
  unfold typeParametersComplete. rewrite forallb_forall.
  intros H Hin Ht. specialize (H callExpr Hin). rewrite Ht in H.
  destruct (replaceWithTypeParameter _ _ _ _) as [r|]; [|discriminate].
  split; [now exists r|]. intros m Hm.
  apply negb_true_iff in H.
  destruct (isKatalistCall m) eqn:E; [|reflexivity].
  assert (Hex : existsb isKatalistCall (getDescendants callExpr) = true).
  { apply existsb_exists. now exists m. }
  congruence.
Qed.

(** When every call is typed as written, the first pass is the edit
    [typeArgumentEdit] at each node of the file. *)
Lemma typed_as_written_subtree (host : Host) (sourceFile : SourceFile) :
  typedAsWritten host sourceFile ->
  typeParametersComplete host sourceFile = true ->
  forall n, In n (fileDescendants sourceFile) ->
            typeParameters host (getFilePath sourceFile) n
            = mapTree typeArgumentEdit n.
Proof.
  intros Hw Hc n.
  induction n as [k nm ta cs IH] using Node_induction.
  rewrite Forall_forall in IH. intros Hin.
  assert (Hcs : map (typeParameters host (getFilePath sourceFile)) cs
                = map (mapTree typeArgumentEdit) cs).
  { apply map_ext_in. intros c Hcin. apply (IH c Hcin).
    now apply (child_in_file sourceFile (mkNode k nm ta cs) c). }
  destruct (isKatalistCall (mkNode k nm ta cs)) eqn:Hloc.
  - destruct (typeNameToAdd (mkNode k nm ta cs)) as [T|] eqn:Ht.
    + assert (Hl : In (mkNode k nm ta cs)
                     (findKatalistCallsWithSchemaGeneration sourceFile))
        by (apply located_calls_in; now split).
      destruct (typed_call_is_flat host sourceFile _ T Hc Hl Ht) as (_ & Hflat).
      cbn [typeParameters]. rewrite Hloc, Ht.
      unfold typeParameterEdit, addTypeParameter, replaceWithTypeParameter.
      rewrite Hloc, Ht, (Hw _ T Hl Ht).
      cbn [mapTree].
      assert (Hsame : map (mapTree typeArgumentEdit) cs = cs).
      { rewrite <- (map_id cs) at 2. apply map_ext_in. intros c Hcin.
        apply mapTree_id. intros m Hm. apply typeArgumentEdit_skips.
        apply Hflat. apply (in_descendants k nm ta cs c m Hcin Hm). }
      rewrite Hsame. unfold typeArgumentEdit. now rewrite Hloc, Ht.
    + cbn [typeParameters mapTree]. rewrite Hloc, Ht, Hcs.
      unfold typeArgumentEdit.
      rewrite (isKatalistCall_rebuilt _ _ _ _ _ typeArgumentEdit_gentle), Hloc.
      now rewrite typeNameToAdd_rebuilt, Ht.
  - cbn [typeParameters mapTree]. rewrite Hloc, Hcs.
    symmetry. apply typeArgumentEdit_skips.
    now rewrite (isKatalistCall_rebuilt _ _ _ _ _ typeArgumentEdit_gentle).
Qed.

Lemma typed_as_written_statements (host : Host) (sourceFile : SourceFile) :
  typedAsWritten host sourceFile ->
  typeParametersComplete host sourceFile = true ->
  map (typeParameters host (getFilePath sourceFile)) (getStatements sourceFile)
  = map (mapTree typeArgumentEdit) (getStatements sourceFile).
Proof.
  intros Hw Hc. apply map_ext_in. intros s Hs.
  apply (typed_as_written_subtree host sourceFile Hw Hc).
  apply (in_fileDescendants sourceFile s s Hs). now left.
Qed.

(** What a run that completes leaves: the statements rewritten, the path
    kept, the imports followed by those of the calls located after the
    first pass. *)
Lemma transform_result (host : Host) (sourceFile transformed : SourceFile) :
  transformSourceFile host sourceFile = Some transformed ->
  typeParametersComplete host sourceFile = true
  /\ getStatements transformed
     = map (rewrite host (getFilePath sourceFile)) (getStatements sourceFile)
  /\ getFilePath transformed = getFilePath sourceFile
  /\ getImportDeclarations transformed
     = (getImportDeclarations sourceFile
        ++ importsToAdd (getImportDeclarations sourceFile)
             (calculateHttpSchemasPath host (getFilePath sourceFile))
             (findKatalistCallsWithSchemaGeneration
                (withStatements sourceFile
                   (map (typeParameters host (getFilePath sourceFile))
                      (getStatements sourceFile)))))%list.
Proof.
  unfold transformSourceFile, addTypeParametersToKatalistCalls, removeZodOutput,
    removeSchemaGenerationOptions.
  destruct (typeParametersComplete host sourceFile); [|discriminate].
  destruct (zodOutputRemovalComplete _); [|discriminate].
  destruct (generationOptionsRemovalComplete _); [|discriminate].
  intros [= <-]. simpl. rewrite !map_map. repeat split.
Qed.

(** A property and a callee keep their head through the first pass, so
    a located call whose text is not replaced is located afterwards. *)
Lemma typeParameters_propertyNamed (host : Host) (filePath name : string)
  (p : Node) :
  propertyNamed name p = true ->
  propertyNamed name (typeParameters host filePath p) = true.
Proof.
  intros H.
  assert (Hc : isKind CallExpression p = false).
  { unfold propertyNamed, isNamedProperty, isKind in *.
    destruct (getKind p); try discriminate; reflexivity. }
  destruct (typeParameters_head host filePath p Hc) as [Hk Hn].
  unfold propertyNamed, isNamedProperty, isKind in *. now rewrite Hk, Hn.
Qed.

Lemma typeParameters_hasProperty (host : Host) (filePath name : string)
  (o : Node) :
  isKind ObjectLiteralExpression o = true ->
  hasProperty name o = true ->
  isKind ObjectLiteralExpression (typeParameters host filePath o) = true
  /\ hasProperty name (typeParameters host filePath o) = true.
Proof.
  intros Ho H. destruct o as [k nm ta cs].
  assert (Hn : isKatalistCall (mkNode k nm ta cs) = false).
  { unfold isKatalistCall. now rewrite (not_call_of_literal _ Ho). }
  rewrite (typeParameters_unlocated host filePath k nm ta cs Hn).
  split; [exact Ho|].
  unfold hasProperty, getProperty in *. cbn [getChildren] in *.
  destruct (find (propertyNamed name) cs) as [p|] eqn:E; [|discriminate].
  apply find_some in E as [Hin Hp].
  destruct (find (propertyNamed name) (map (typeParameters host filePath) cs))
    eqn:E'; [reflexivity|].
  pose proof (find_none _ _ E' (typeParameters host filePath p)
                (in_map _ _ _ Hin)) as Hno.
  now rewrite (typeParameters_propertyNamed host filePath name p Hp) in Hno.
Qed.

Lemma located_stays_located_below (host : Host) (filePath : string)
  (k : SyntaxKind) (nm : string) (ta : list string) (cs : list Node) :
  isKatalistCall (mkNode k nm ta cs) = true ->
  isKatalistCall (mkNode k nm ta (map (typeParameters host filePath) cs))
  = true.
Proof.
  intros H. unfold isKatalistCall, hasSchemaGenerationOptions in *.
  apply andb_true_iff in H as [Hk H]. apply andb_true_iff.
  split; [exact Hk|].
  destruct cs as [|e [|u [|o rest]]]; cbn in H |- *; try discriminate.
  - destruct (negb (isKind PropertyAccessExpression e)); [discriminate|].
    destruct (negb (String.eqb (getName e) "get")); discriminate.
  - destruct (negb (isKind PropertyAccessExpression e)); [discriminate|].
    destruct (negb (String.eqb (getName e) "get")); discriminate.
  - destruct (isKind PropertyAccessExpression e) eqn:He; [|discriminate].
    cbn [negb] in H.
    assert (Hc : isKind CallExpression e = false).
    { unfold isKind in *. destruct (getKind e); try discriminate; reflexivity. }
    destruct (typeParameters_head host filePath e Hc) as [Hke Hne].
    unfold isKind at 1. rewrite Hke. fold (isKind PropertyAccessExpression e).
    rewrite He, Hne. cbn [negb].
    destruct (negb (String.eqb (getName e) "get")); [discriminate|].
    destruct (isKind ObjectLiteralExpression o) eqn:Ho; [|discriminate].
    cbn [negb] in H. apply andb_true_iff in H as [Hg Hi].
    destruct (typeParameters_hasProperty host filePath "generateSchema" o
                Ho Hg) as [Ho' Hg'].
    destruct (typeParameters_hasProperty host filePath "interfaceName" o
                Ho Hi) as [_ Hi'].
    now rewrite Ho', Hg', Hi'.
Qed.

(** A located call is still in the file after a first pass that
    completes: it is not below a call that was replaced. *)
Lemma located_survives_typing (host : Host) (sourceFile : SourceFile)
  (x : Node) :
  typeParametersComplete host sourceFile = true ->
  In x (fileDescendants sourceFile) ->
  isKatalistCall x = true ->
  In (typeParameters host (getFilePath sourceFile) x)
    (fileDescendants
       (withStatements sourceFile
          (map (typeParameters host (getFilePath sourceFile))
             (getStatements sourceFile)))).
Proof.
  intros Hc Hin Hx.
  assert (Hsub : forall s,
            (forall n, In n (subtree s) -> In n (fileDescendants sourceFile)) ->
            In x (subtree s) ->
            In (typeParameters host (getFilePath sourceFile) x)
              (subtree (typeParameters host (getFilePath sourceFile) s))).
  { induction s as [k nm ta cs IH] using Node_induction.
    rewrite Forall_forall in IH. intros Hfile [<-|Hd]; [now left|].
    simpl in Hd. apply in_flat_map in Hd as (c & Hcs & Hxc).
    assert (Hkeep : typeParameters host (getFilePath sourceFile)
                      (mkNode k nm ta cs)
                    = mkNode k nm ta
                        (map (typeParameters host (getFilePath sourceFile)) cs)).
    { cbn [typeParameters].
      destruct (isKatalistCall (mkNode k nm ta cs)) eqn:Hloc; [|reflexivity].
      destruct (typeNameToAdd (mkNode k nm ta cs)) as [T|] eqn:Ht;
        [|reflexivity].
      exfalso.
      assert (Hl : In (mkNode k nm ta cs)
                     (findKatalistCallsWithSchemaGeneration sourceFile)).
      { apply located_calls_in. split; [|exact Hloc].
        apply Hfile. now left. }
      destruct (typed_call_is_flat host sourceFile _ T Hc Hl Ht) as (_ & Hflat).
      assert (Hxd : In x (getDescendants (mkNode k nm ta cs)))
        by (apply (in_descendants k nm ta cs c x Hcs Hxc)).
      rewrite (Hflat x Hxd) in Hx. discriminate. }
    rewrite Hkeep. right.
    apply (in_descendants k nm ta _
             (typeParameters host (getFilePath sourceFile) c)).
    - now apply in_map.
    - apply (IH c Hcs); [|exact Hxc].
      intros n Hn. apply Hfile. eapply in_subtree_child; eauto. }
  unfold fileDescendants in Hin |- *. cbn [getStatements withStatements].
  apply in_flat_map in Hin as (s & Hs & Hxs). apply in_flat_map.
  exists (typeParameters host (getFilePath sourceFile) s).
  split; [now apply in_map|]. apply Hsub; [|exact Hxs].
  intros n Hn. apply in_flat_map. now exists s.
Qed.

(** The same when every call is typed as written. *)
Lemma transform_result_as_written (host : Host)
  (sourceFile transformed : SourceFile) :
  typedAsWritten host sourceFile ->
  transformSourceFile host sourceFile = Some transformed ->
  getStatements transformed = map rewriteAsWritten (getStatements sourceFile)
  /\ getFilePath transformed = getFilePath sourceFile
  /\ getImportDeclarations transformed
     = (getImportDeclarations sourceFile
        ++ importsToAdd (getImportDeclarations sourceFile)
             (calculateHttpSchemasPath host (getFilePath sourceFile))
             (findKatalistCallsWithSchemaGeneration
                (withStatements sourceFile
                   (map (mapTree typeArgumentEdit)
                      (getStatements sourceFile)))))%list.
Proof.
  intros Hw Hrun.
  destruct (transform_result host sourceFile transformed Hrun)
    as (Hc & Hst & Hpath & Himp).
  pose proof (typed_as_written_statements host sourceFile Hw Hc) as Heq.
  split.
  { rewrite Hst. unfold rewrite, rewriteAsWritten.
    rewrite <- !(map_map (typeParameters host (getFilePath sourceFile))
                   (fun n => mapTree generationOptionsEdit (mapTree zodOutputEdit n))).
    rewrite Heq. now rewrite map_map. }
  split; [exact Hpath|]. now rewrite Himp, Heq.
Qed.


Lemma importsToAdd_in (existingImports : list ImportDeclaration)
  (base : string) (calls : list Node) (call : Node) (T : string)
  (others : list string) :
  In call calls ->
  getTypeArguments call = T :: others ->
  hasImport existingImports (schemaNameOf T) T = false ->
  In (schemaImport base (schemaNameOf T) T)
    (importsToAdd existingImports base calls).
Proof.
  intros Hin Hta Hno. unfold importsToAdd. apply in_flat_map.
  exists call. split; [exact Hin|]. rewrite Hta, Hno. now left.
Qed.

Lemma hasImport_app (a b : list ImportDeclaration) (schemaName T : string) :
  hasImport (a ++ b) schemaName T
  = hasImport a schemaName T || hasImport b schemaName T.
Proof. unfold hasImport. apply existsb_app. Qed.

Lemma hasImport_in (l : list ImportDeclaration) (d : ImportDeclaration)
  (schemaName T : string) :
  In d l ->
  includes schemaName (moduleSpecifier d) = true ->
  In T (namedImports d) ->
  hasImport l schemaName T = true.
Proof.
  intros Hd Hm Hn. unfold hasImport. apply existsb_exists.
  exists d. split; [exact Hd|]. rewrite Hm. simpl.
  apply existsb_exists. exists T. split; [exact Hn | apply String.eqb_refl].
Qed.

(** Proves [typedAsWritten] of a sample host and a sample file by going
    through the located calls. *)
Ltac typed_as_written :=
  let c := fresh "c" in
  let T := fresh "T" in
  let Hin := fresh "Hin" in
  let Ht := fresh "Ht" in
  intros c T Hin Ht; vm_compute in Hin;
  repeat (destruct Hin as [Hin|Hin];
          [subst c; vm_compute in Ht;
           first [discriminate Ht | injection Ht as Ht; subst T; reflexivity]|]);
  destruct Hin.




(** *** Idempotence of the run *)

Lemma propertyNames_rebuilt (edit : Node -> Node) (k : SyntaxKind)
  (nm : string) (ta : list string) (cs : list Node) :
  keepsHead edit ->
  propertyNames (mkNode k nm ta (map (mapTree edit) cs))
  = propertyNames (mkNode k nm ta cs).
Proof.
  intros Hh. unfold propertyNames. simpl.
  induction cs as [|c rest IH]; [reflexivity|]. simpl.
  assert (Hn : isNamedProperty (mapTree edit c) = isNamedProperty c).
  { unfold isNamedProperty. now rewrite !(mapTree_isKind edit _ c Hh). }
  rewrite Hn. destruct (isNamedProperty c); simpl; [|exact IH].
  now rewrite (proj2 (mapTree_head edit c Hh)), IH.
Qed.

Lemma distinct_mapTree (edit : Node -> Node) (n : Node) :
  keepsHead edit -> keepsDistinct edit ->
  everywhere distinctPropertyNames n = true ->
  everywhere distinctPropertyNames (mapTree edit n) = true.
Proof.
  intros Hh Hd.
  induction n as [k nm ta cs IH] using Node_induction.
  rewrite Forall_forall in IH. intros H. simpl mapTree. apply Hd.
  simpl in H. apply andb_true_iff in H as [Hn Hcs].
  simpl. apply andb_true_iff. split.
  - unfold distinctPropertyNames in Hn |- *.
    rewrite (propertyNames_rebuilt edit k nm ta cs Hh). exact Hn.
  - rewrite forallb_forall in Hcs. apply forallb_forall. intros c' Hc'.
    apply in_map_iff in Hc' as (c & <- & Hc). apply (IH c Hc). now apply Hcs.
Qed.

Lemma in_removeFirst (name : string) (cs : list Node) (x : Node) :
  In x (removeFirst name cs) -> In x cs.
Proof.
  induction cs as [|c rest IH]; [intros []|]. simpl.
  destruct (propertyNamed name c); [now right|].
  intros [<-|H]; [now left | right; now apply IH].
Qed.

Lemma distinct_removeFirst (name : string) (cs : list Node) :
  distinct (map getName (filter isNamedProperty cs)) = true ->
  distinct (map getName (filter isNamedProperty (removeFirst name cs))) = true.
Proof.
  intros H. rewrite (removeFirst_filter name cs H).
  now apply distinct_names_filter.
Qed.

Lemma distinct_removeProperty (name : string) (o : Node) :
  everywhere distinctPropertyNames o = true ->
  everywhere distinctPropertyNames (removeProperty name o) = true.
Proof.
  destruct o as [k nm ta cs]. simpl. intros H.
  apply andb_true_iff in H as [Hn Hcs]. apply andb_true_iff. split.
  - unfold distinctPropertyNames, propertyNames, isKind in Hn |- *.
    simpl in Hn |- *.
    destruct (kind_eqb k ObjectLiteralExpression); [|reflexivity].
    now apply distinct_removeFirst.
  - rewrite forallb_forall in Hcs. apply forallb_forall. intros x Hx.
    apply Hcs. now apply (in_removeFirst name).
Qed.

Lemma typeArgumentEdit_keepsDistinct : keepsDistinct typeArgumentEdit.
Proof.
  intros n H. unfold typeArgumentEdit.
  destruct (isKatalistCall n); [|exact H].
  destruct (typeNameToAdd n) as [T|]; [|exact H].
  destruct n; exact H.
Qed.

Lemma distinct_removeZodOutputFrom (arg : Node) :
  everywhere distinctPropertyNames arg = true ->
  everywhere distinctPropertyNames (removeZodOutputFrom arg) = true.
Proof.
  intros H. unfold removeZodOutputFrom.
  destruct (isKind ObjectLiteralExpression arg && hasProperty "zodOutput" arg);
    [|exact H].
  now repeat apply distinct_removeProperty.
Qed.

Lemma constructor_is_not_literal (n : Node) :
  isHttpClientWithZodOutput n = true ->
  isKind ObjectLiteralExpression n = false.
Proof.
  unfold isHttpClientWithZodOutput, isKind. intros H.
  apply andb_true_iff in H as [H _].
  destruct (getKind n); simpl in *; congruence.
Qed.

Lemma located_call_is_not_literal (n : Node) :
  isKatalistCall n = true -> isKind ObjectLiteralExpression n = false.
Proof.
  unfold isKatalistCall, isKind. intros H.
  apply andb_true_iff in H as [H _].
  destruct (getKind n); simpl in *; congruence.
Qed.

Lemma zodOutputEdit_keepsDistinct : keepsDistinct zodOutputEdit.
Proof.
  intros n H. unfold zodOutputEdit.
  destruct (isHttpClientWithZodOutput n) eqn:Hloc; [|exact H].
  pose proof (constructor_is_not_literal n Hloc) as Hk.
  destruct n as [k nm ta [|e args]]; [exact H|].
  simpl in *. apply andb_true_iff in H as [_ Hcs].
  apply andb_true_iff in Hcs as [He Hargs].
  apply andb_true_iff. split.
  - unfold distinctPropertyNames, isKind in *. simpl in *. now rewrite Hk.
  - rewrite He. simpl. rewrite forallb_forall in *. intros x Hx.
    apply in_map_iff in Hx as (a & <- & Ha).
    apply distinct_removeZodOutputFrom. now apply Hargs.
Qed.

Lemma generationOptionsEdit_keepsDistinct : keepsDistinct generationOptionsEdit.
Proof.
  intros n H. unfold generationOptionsEdit.
  destruct (isKatalistCall n) eqn:Hloc; [|exact H].
  pose proof (located_call_is_not_literal n Hloc) as Hk.
  destruct n as [k nm ta [|e [|u [|o rest]]]]; try exact H.
  destruct (isKind ObjectLiteralExpression o); [|exact H].
  simpl in *. apply andb_true_iff in H as [_ Hcs].
  apply andb_true_iff in Hcs as [He Hcs].
  apply andb_true_iff in Hcs as [Hu Hcs].
  apply andb_true_iff in Hcs as [Ho Hrest].
  apply andb_true_iff. split.
  - unfold distinctPropertyNames, isKind in *. simpl in *. now rewrite Hk.
  - rewrite He, Hu, Hrest. simpl. rewrite andb_true_r.
    unfold removeGenerationOptions. now repeat apply distinct_removeProperty.
Qed.

Lemma find_filtered_out (p keep : Node -> bool) (cs : list Node) :
  (forall x, p x = true -> keep x = false) ->
  find p (filter keep cs) = None.
Proof.
  intros H. induction cs as [|c rest IH]; [reflexivity|]. simpl.
  destruct (keep c) eqn:Hk; [|exact IH]. simpl.
  destruct (p c) eqn:Hp; [|exact IH].
  rewrite (H c Hp) in Hk. discriminate.
Qed.

Lemma stripped_has_no_generateSchema (o : Node) :
  distinct (propertyNames o) = true ->
  hasProperty "generateSchema" (removeGenerationOptions o) = false.
Proof.
  intros Hd. unfold hasProperty, getProperty.
  rewrite (removeGenerationOptions_children o Hd).
  rewrite find_filtered_out; [reflexivity|].
  intros x Hx. unfold isGenerationOption. now rewrite Hx.
Qed.

Lemma everywhere_children (p : Node -> bool) (n c : Node) :
  everywhere p n = true -> In c (getChildren n) -> everywhere p c = true.
Proof.
  destruct n as [k nm ta cs]. simpl. intros H Hc.
  apply andb_true_iff in H as [_ H]. rewrite forallb_forall in H. now apply H.
Qed.

Lemma everywhere_removeProperty (p : Node -> bool) (name : string) (o : Node) :
  p (removeProperty name o) = true ->
  everywhere p o = true ->
  everywhere p (removeProperty name o) = true.
Proof.
  intros Hp H. destruct o as [k nm ta cs]. simpl in *.
  rewrite Hp. simpl. apply andb_true_iff in H as [_ H].
  rewrite forallb_forall in *. intros x Hx. apply H.
  now apply (in_removeFirst name).
Qed.

Lemma literal_unmatched (o : Node) :
  isKind ObjectLiteralExpression o = true ->
  notKatalistCall o = true /\ notHttpClientWithZodOutput o = true.
Proof.
  intros Ho. unfold notKatalistCall, notHttpClientWithZodOutput,
    isKatalistCall, isHttpClientWithZodOutput.
  now rewrite (not_call_of_literal o Ho), (not_new_of_literal o Ho).
Qed.

Lemma removeProperty_isKind (k : SyntaxKind) (name : string) (o : Node) :
  isKind k (removeProperty name o) = isKind k o.
Proof. destruct o. reflexivity. Qed.

Lemma everywhere_removeGenerationOptions (p : Node -> bool) (o : Node) :
  (forall x, isKind ObjectLiteralExpression x = true -> p x = true) ->
  isKind ObjectLiteralExpression o = true ->
  everywhere p o = true ->
  everywhere p (removeGenerationOptions o) = true.
Proof.
  intros Hp Ho H. unfold removeGenerationOptions.
  repeat (apply everywhere_removeProperty;
          [apply Hp; now rewrite !removeProperty_isKind|]).
  exact H.
Qed.

Lemma everywhere_removeZodOutputFrom (p : Node -> bool) (arg : Node) :
  (forall x, isKind ObjectLiteralExpression x = true -> p x = true) ->
  everywhere p arg = true ->
  everywhere p (removeZodOutputFrom arg) = true.
Proof.
  intros Hp H. unfold removeZodOutputFrom.
  destruct (isKind ObjectLiteralExpression arg) eqn:Ho; [|exact H].
  destruct (hasProperty "zodOutput" arg); [|exact H]. simpl.
  repeat (apply everywhere_removeProperty;
          [apply Hp; now rewrite !removeProperty_isKind|]).
  exact H.
Qed.

Lemma located_call_shape (n : Node) :
  isKatalistCall n = true ->
  exists k nm ta e u o rest,
    n = mkNode k nm ta (e :: u :: o :: rest)
    /\ isKind ObjectLiteralExpression o = true.
Proof.
  intros H. unfold isKatalistCall, hasSchemaGenerationOptions in H.
  apply andb_true_iff in H as [_ H].
  destruct n as [k nm ta [|e [|u [|o rest]]]]; simpl in H; try discriminate.
  - destruct (negb (isKind PropertyAccessExpression e)); [discriminate|].
    destruct (negb (String.eqb (getName e) "get")); discriminate.
  - destruct (negb (isKind PropertyAccessExpression e)); [discriminate|].
    destruct (negb (String.eqb (getName e) "get")); discriminate.
  - exists k, nm, ta, e, u, o, rest. split; [reflexivity|].
    destruct (negb (isKind PropertyAccessExpression e)); [discriminate|].
    destruct (negb (String.eqb (getName e) "get")); [discriminate|].
    destruct (isKind ObjectLiteralExpression o); [reflexivity | discriminate].
Qed.

Lemma stripped_call_not_located (k : SyntaxKind) (nm : string)
  (ta : list string) (e u o : Node) (rest : list Node) :
  distinct (propertyNames o) = true ->
  isKatalistCall
    (mkNode k nm ta (e :: u :: removeGenerationOptions o :: rest)) = false.
Proof.
  intros Hd. unfold isKatalistCall, hasSchemaGenerationOptions. simpl.
  apply andb_false_iff. right.
  destruct (negb (isKind PropertyAccessExpression e)); [reflexivity|].
  destruct (negb (String.eqb (getName e) "get")); [reflexivity|].
  destruct (negb (isKind ObjectLiteralExpression (removeGenerationOptions o)));
    [reflexivity|].
  now rewrite (stripped_has_no_generateSchema o Hd).
Qed.

Lemma distinct_of_literal (o : Node) :
  isKind ObjectLiteralExpression o = true ->
  everywhere distinctPropertyNames o = true ->
  distinct (propertyNames o) = true.
Proof.
  intros Ho H. destruct o as [k nm ta cs]. simpl in H.
  apply andb_true_iff in H as [H _].
  unfold distinctPropertyNames in H. now rewrite Ho in H.
Qed.

(** After the stripping pass no call of the tree is matched by the
    locator, when object literals name their properties once. *)
Lemma no_call_after_stripping (n : Node) :
  everywhere distinctPropertyNames n = true ->
  everywhere notKatalistCall (mapTree generationOptionsEdit n) = true.
Proof.
  induction n as [k nm ta cs IH] using Node_induction.
  rewrite Forall_forall in IH. intros H.
  assert (Hkids : forallb (everywhere notKatalistCall)
                    (map (mapTree generationOptionsEdit) cs) = true).
  { apply forallb_forall. intros c' Hc'.
    apply in_map_iff in Hc' as (c & <- & Hc). apply (IH c Hc).
    apply (everywhere_children _ _ c H). exact Hc. }
  assert (Hdkids : forallb (everywhere distinctPropertyNames)
                     (map (mapTree generationOptionsEdit) cs) = true).
  { apply forallb_forall. intros c' Hc'.
    apply in_map_iff in Hc' as (c & <- & Hc).
    apply (distinct_mapTree generationOptionsEdit _
             (proj1 generationOptionsEdit_gentle)
             generationOptionsEdit_keepsDistinct).
    apply (everywhere_children _ _ c H). exact Hc. }
  simpl mapTree.
  remember (map (mapTree generationOptionsEdit) cs) as cs' eqn:Ecs.
  clear Ecs IH H. unfold generationOptionsEdit.
  destruct (isKatalistCall (mkNode k nm ta cs')) eqn:Hloc.
  - destruct (located_call_shape _ Hloc)
      as (k' & nm' & ta' & e & u & o & rest & HR & Ho).
    injection HR as <- <- <- ->. rewrite Ho.
    simpl in Hkids, Hdkids.
    apply andb_true_iff in Hkids as [He Hkids].
    apply andb_true_iff in Hkids as [Hu Hkids].
    apply andb_true_iff in Hkids as [Hoo Hrest].
    apply andb_true_iff in Hdkids as [_ Hdkids].
    apply andb_true_iff in Hdkids as [_ Hdkids].
    apply andb_true_iff in Hdkids as [Hdo _].
    pose proof (distinct_of_literal o Ho Hdo) as Hdist.
    simpl. unfold notKatalistCall at 1.
    rewrite (stripped_call_not_located k nm ta e u o rest Hdist). simpl.
    rewrite He, Hu, Hrest. simpl. rewrite andb_true_r.
    apply everywhere_removeGenerationOptions; [|exact Ho|exact Hoo].
    intros x Hx. apply (literal_unmatched x Hx).
  - simpl. unfold notKatalistCall at 1. rewrite Hloc. simpl.
    exact Hkids.
Qed.

Lemma hasProperty_removed (name : string) (o : Node) :
  distinct (propertyNames o) = true ->
  hasProperty name (removeProperty name o) = false.
Proof.
  destruct o as [k nm ta cs]. unfold propertyNames, hasProperty, getProperty.
  simpl. intros Hd. rewrite (removeFirst_filter name cs Hd).
  rewrite find_filtered_out; [reflexivity|].
  intros x Hx. now rewrite Hx.
Qed.

Lemma find_removeFirst_none (p : Node -> bool) (name : string)
  (cs : list Node) :
  find p cs = None -> find p (removeFirst name cs) = None.
Proof.
  induction cs as [|c rest IH]; [reflexivity|]. simpl.
  destruct (p c) eqn:Hp; [discriminate|]. intros H.
  destruct (propertyNamed name c); [exact H|].
  simpl. rewrite Hp. now apply IH.
Qed.

Lemma hasProperty_removeProperty_none (name other : string) (o : Node) :
  hasProperty name o = false ->
  hasProperty name (removeProperty other o) = false.
Proof.
  destruct o as [k nm ta cs]. unfold hasProperty, getProperty. simpl.
  destruct (find (propertyNamed name) cs) eqn:E; [discriminate|].
  intros _. now rewrite (find_removeFirst_none _ other cs E).
Qed.

Lemma removeZodOutputFrom_clean (arg : Node) :
  everywhere distinctPropertyNames arg = true ->
  isKind ObjectLiteralExpression (removeZodOutputFrom arg)
  && hasProperty "zodOutput" (removeZodOutputFrom arg) = false.
Proof.
  intros Hd. unfold removeZodOutputFrom.
  destruct (isKind ObjectLiteralExpression arg) eqn:Ho; simpl.
  - destruct (hasProperty "zodOutput" arg) eqn:Hz.
    + rewrite !removeProperty_isKind, Ho. simpl.
      apply hasProperty_removeProperty_none.
      apply hasProperty_removed. now apply distinct_of_literal.
    + now rewrite Ho, Hz.
  - now rewrite Ho.
Qed.

(** After [removeZodOutput] no constructor call of the tree is matched
    by its locator, when object literals name their properties once. *)
Lemma no_constructor_after_removal (n : Node) :
  everywhere distinctPropertyNames n = true ->
  everywhere notHttpClientWithZodOutput (mapTree zodOutputEdit n) = true.
Proof.
  induction n as [k nm ta cs IH] using Node_induction.
  rewrite Forall_forall in IH. intros H.
  assert (Hkids : forallb (everywhere notHttpClientWithZodOutput)
                    (map (mapTree zodOutputEdit) cs) = true).
  { apply forallb_forall. intros c' Hc'.
    apply in_map_iff in Hc' as (c & <- & Hc). apply (IH c Hc).
    apply (everywhere_children _ _ c H). exact Hc. }
  assert (Hdkids : forallb (everywhere distinctPropertyNames)
                     (map (mapTree zodOutputEdit) cs) = true).
  { apply forallb_forall. intros c' Hc'.
    apply in_map_iff in Hc' as (c & <- & Hc).
    apply (distinct_mapTree zodOutputEdit _ (proj1 zodOutputEdit_gentle)
             zodOutputEdit_keepsDistinct).
    apply (everywhere_children _ _ c H). exact Hc. }
  simpl mapTree.
  remember (map (mapTree zodOutputEdit) cs) as cs' eqn:Ecs.
  clear Ecs IH H. unfold zodOutputEdit.
  destruct (isHttpClientWithZodOutput (mkNode k nm ta cs')) eqn:Hloc.
  - destruct cs' as [|e args].
    { unfold isHttpClientWithZodOutput, hasZodOutputArgument in Hloc.
      simpl in Hloc. rewrite andb_false_r in Hloc. discriminate. }
    simpl in Hkids, Hdkids.
    apply andb_true_iff in Hkids as [He Hargs].
    apply andb_true_iff in Hdkids as [_ Hdargs].
    rewrite forallb_forall in Hargs, Hdargs.
    simpl. apply andb_true_iff. split.
    + unfold notHttpClientWithZodOutput, isHttpClientWithZodOutput,
        hasZodOutputArgument. simpl.
      apply negb_true_iff. apply andb_false_iff. right.
      apply andb_false_iff. right.
      apply not_true_iff_false. intros Hex.
      apply existsb_exists in Hex as (x & Hx & Hp).
      apply in_map_iff in Hx as (a & <- & Ha).
      rewrite (removeZodOutputFrom_clean a (Hdargs a Ha)) in Hp.
      discriminate.
    + rewrite He. simpl. apply forallb_forall. intros x Hx.
      apply in_map_iff in Hx as (a & <- & Ha).
      apply everywhere_removeZodOutputFrom; [|now apply Hargs].
      intros y Hy. apply (literal_unmatched y Hy).
  - simpl. unfold notHttpClientWithZodOutput at 1. rewrite Hloc. simpl.
    exact Hkids.
Qed.

Lemma call_text_has_parenthesis (n : Node) :
  isKind CallExpression n = true -> includes "(" (getText n) = true.
Proof.
  destruct n as [k nm ta cs]. intros H. apply isKind_eq in H. simpl in H.
  subst k. simpl.
  apply StringFacts.includes_app_r. apply StringFacts.includes_app_r.
  reflexivity.
Qed.

Lemma includes_head_and_tail (p : string) (texts : list string)
  (a b x : string) :
  In x texts -> includes p x = true ->
  includes p (hd EmptyString texts ++ a ++ b ++ commaList (tl texts) ++ ")")
  = true.
Proof.
  intros Hin Hx. destruct texts as [|t rest]; [destruct Hin|].
  destruct Hin as [->|Hin]; simpl.
  - now apply StringFacts.includes_app_l.
  - do 3 apply StringFacts.includes_app_r. apply StringFacts.includes_app_l.
    unfold commaList. now apply (StringFacts.includes_concat p ", " rest x).
Qed.

(** The text of a node holds the text of each of its children. *)
Lemma parent_text_includes (p : string) (k : SyntaxKind) (nm : string)
  (ta : list string) (cs : list Node) (c : Node) :
  In c cs -> includes p (getText c) = true ->
  includes p (getText (mkNode k nm ta cs)) = true.
Proof.
  intros Hc Hp.
  assert (Hin : In (getText c) (map getText cs)) by now apply in_map.
  assert (Hcat : forall sep,
             includes p (String.concat sep (map getText cs)) = true).
  { intros sep. now apply (StringFacts.includes_concat p sep _ (getText c)). }
  destruct k; cbn [getText];
    try (repeat apply StringFacts.includes_app_r; now apply Hcat);
    try (apply StringFacts.includes_app_l; now apply Hcat).
  - destruct (map getText cs) as [|t rest]; [destruct Hin|].
    apply StringFacts.includes_app_r.
    apply StringFacts.includes_app_l. unfold commaList. apply Hcat.
  - now apply (includes_head_and_tail p _ _ _ (getText c)).
  - apply StringFacts.includes_app_r.
    now apply (includes_head_and_tail p _ _ _ (getText c)).
  - destruct (map getText cs) as [|t rest]; [destruct Hin|].
    do 2 apply StringFacts.includes_app_r. apply Hcat.
Qed.

Lemma fixed_or_changed (edit : Node -> Node) (P : Node -> Prop)
  (cs : list Node) :
  (forall c, In c cs -> mapTree edit c = c \/ P (mapTree edit c)) ->
  map (mapTree edit) cs = cs
  \/ exists c', In c' (map (mapTree edit) cs) /\ P c'.
Proof.
  induction cs as [|c rest IH]; intros H; [now left|].
  destruct (H c (or_introl eq_refl)) as [Hc|Hc].
  - destruct IH as [Hrest|(c' & Hin & Hp)].
    + intros x Hx. apply H. now right.
    + left. simpl. now rewrite Hc, Hrest.
    + right. exists c'. split; [now right | exact Hp].
  - right. exists (mapTree edit c). split; [now left | exact Hc].
Qed.

(** The stripping pass leaves a subtree as it is, or leaves one whose
    text holds an opening parenthesis (that of a call it stripped). *)
Lemma stripped_or_same (x : Node) :
  mapTree generationOptionsEdit x = x
  \/ includes "(" (getText (mapTree generationOptionsEdit x)) = true.
Proof.
  induction x as [k nm ta cs IH] using Node_induction.
  rewrite Forall_forall in IH. simpl mapTree.
  assert (Hedit : forall R,
             generationOptionsEdit R = R
             \/ isKind CallExpression (generationOptionsEdit R) = true).
  { intros R. unfold generationOptionsEdit.
    destruct (isKatalistCall R) eqn:Hloc; [|now left]. right.
    destruct (located_call_shape R Hloc)
      as (k' & nm' & ta' & e & u & o & rest & -> & Ho).
    rewrite Ho. unfold isKatalistCall in Hloc.
    apply andb_true_iff in Hloc as [Hk _]. exact Hk. }
  destruct (fixed_or_changed generationOptionsEdit
              (fun c' => includes "(" (getText c') = true) cs IH)
    as [Hsame|(c' & Hin & Hp)].
  - rewrite Hsame.
    destruct (Hedit (mkNode k nm ta cs)) as [->|Hcall]; [now left|].
    right. now apply call_text_has_parenthesis.
  - right.
    destruct (Hedit (mkNode k nm ta (map (mapTree generationOptionsEdit) cs)))
      as [->|Hcall].
    + now apply (parent_text_includes "(" k nm ta _ c').
    + now apply call_text_has_parenthesis.
Qed.

Lemma zodOutput_arguments_mapped (edit : Node -> Node) (args : list Node) :
  gentle edit ->
  existsb (fun arg => isKind ObjectLiteralExpression arg
                      && hasProperty "zodOutput" arg)
    (map (mapTree edit) args)
  = existsb (fun arg => isKind ObjectLiteralExpression arg
                        && hasProperty "zodOutput" arg) args.
Proof.
  intros Hg. induction args as [|a rest IH]; [reflexivity|]. simpl.
  rewrite IH. f_equal.
  rewrite (mapTree_isKind edit _ a (proj1 Hg)).
  destruct (isKind ObjectLiteralExpression a) eqn:Ho; [|reflexivity]. simpl.
  now apply hasProperty_mapTree.
Qed.

(** A constructor call that is matched once the stripping pass went
    through its children was matched before. *)
Lemma constructor_matched_before (k : SyntaxKind) (nm : string)
  (ta : list string) (cs : list Node) :
  isHttpClientWithZodOutput
    (mkNode k nm ta (map (mapTree generationOptionsEdit) cs)) = true ->
  isHttpClientWithZodOutput (mkNode k nm ta cs) = true.
Proof.
  unfold isHttpClientWithZodOutput, hasZodOutputArgument, getExpression,
    getArguments.
  destruct cs as [|e args]; [exact (fun H => H)|].
  change (isKind NewExpression
            (mkNode k nm ta (map (mapTree generationOptionsEdit) (e :: args))))
    with (isKind NewExpression (mkNode k nm ta (e :: args))).
  simpl.
  intros H. apply andb_true_iff in H as [Hk H].
  apply andb_true_iff in H as [Ht Hex].
  rewrite (zodOutput_arguments_mapped _ args generationOptionsEdit_gentle)
    in Hex.
  rewrite Hk, Hex, andb_true_r. simpl.
  destruct (stripped_or_same e) as [Hsame|Hparen].
  - now rewrite Hsame in Ht.
  - apply String.eqb_eq in Ht. rewrite Ht in Hparen. discriminate.
Qed.

(** The stripping pass makes no constructor call matched. *)
Lemma constructors_stay_unmatched (n : Node) :
  everywhere notHttpClientWithZodOutput n = true ->
  everywhere notHttpClientWithZodOutput (mapTree generationOptionsEdit n)
  = true.
Proof.
  induction n as [k nm ta cs IH] using Node_induction.
  rewrite Forall_forall in IH. intros H.
  assert (Hkids : forallb (everywhere notHttpClientWithZodOutput)
                    (map (mapTree generationOptionsEdit) cs) = true).
  { apply forallb_forall. intros c' Hc'.
    apply in_map_iff in Hc' as (c & <- & Hc). apply (IH c Hc).
    apply (everywhere_children _ _ c H). exact Hc. }
  assert (Hnode : isHttpClientWithZodOutput
                    (mkNode k nm ta (map (mapTree generationOptionsEdit) cs))
                  = false).
  { apply not_true_iff_false. intros Hloc.
    apply constructor_matched_before in Hloc.
    simpl in H. apply andb_true_iff in H as [H _].
    unfold notHttpClientWithZodOutput in H. rewrite Hloc in H. discriminate. }
  simpl mapTree.
  remember (map (mapTree generationOptionsEdit) cs) as cs' eqn:Ecs.
  clear Ecs IH H. unfold generationOptionsEdit.
  destruct (isKatalistCall (mkNode k nm ta cs')) eqn:Hloc.
  - destruct (located_call_shape _ Hloc)
      as (k' & nm' & ta' & e & u & o & rest & HR & Ho).
    injection HR as <- <- <- ->. rewrite Ho.
    simpl in Hkids.
    apply andb_true_iff in Hkids as [He Hkids].
    apply andb_true_iff in Hkids as [Hu Hkids].
    apply andb_true_iff in Hkids as [Hoo Hrest].
    simpl. apply andb_true_iff. split.
    + unfold notHttpClientWithZodOutput. apply negb_true_iff.
      apply call_is_not_constructor.
      unfold isKatalistCall in Hloc. apply andb_true_iff in Hloc as [Hk _].
      exact Hk.
    + rewrite He, Hu, Hrest. simpl. rewrite andb_true_r.
      apply everywhere_removeGenerationOptions; [|exact Ho|exact Hoo].
      intros x Hx. apply (literal_unmatched x Hx).
  - simpl. unfold notHttpClientWithZodOutput at 1. rewrite Hnode. simpl.
    exact Hkids.
Qed.













(** Once the removal passes have gone over a tree whose object literals
    name their properties once, the locators match nothing in it. *)
Lemma nothing_matched_after_removals (s m : Node) :
  everywhere distinctPropertyNames s = true ->
  In m (subtree (mapTree generationOptionsEdit (mapTree zodOutputEdit s))) ->
  unmatched m = true.
Proof.
  intros Hd1 Hm.
  pose proof (distinct_mapTree zodOutputEdit _ (proj1 zodOutputEdit_gentle)
                zodOutputEdit_keepsDistinct Hd1) as Hd3.
  pose proof (no_call_after_stripping _ Hd3) as Hcalls.
  pose proof (constructors_stay_unmatched _
                (no_constructor_after_removal _ Hd1)) as Hnews.
  rewrite everywhere_forall in Hcalls, Hnews.
  specialize (Hcalls m Hm). specialize (Hnews m Hm).
  unfold unmatched. unfold notKatalistCall in Hcalls.
  unfold notHttpClientWithZodOutput in Hnews. now rewrite Hcalls, Hnews.
Qed.

(** After a run that completes, when the file as the first pass leaves
    it names each property of an object literal once, the locators match
    nothing. *)
Lemma nothing_matched_after_run (host : Host)
  (sourceFile typed transformed : SourceFile) :
  addTypeParametersToKatalistCalls host sourceFile = Some typed ->
  distinctKeys typed = true ->
  transformSourceFile host sourceFile = Some transformed ->
  forall m, In m (fileDescendants transformed) -> unmatched m = true.
Proof.
  intros Ht Hd Hrun m Hm.
  destruct (transform_result host sourceFile transformed Hrun)
    as (Hc & Hst & _).
  unfold addTypeParametersToKatalistCalls in Ht. rewrite Hc in Ht.
  injection Ht as <-.
  unfold fileDescendants in Hm. rewrite Hst in Hm.
  apply in_flat_map in Hm as (s' & Hs' & Hm).
  apply in_map_iff in Hs' as (s & <- & Hs).
  unfold distinctKeys in Hd. rewrite forallb_forall in Hd. cbn in Hd.
  apply (nothing_matched_after_removals
           (typeParameters host (getFilePath sourceFile) s)).
  - apply Hd. now apply in_map.
  - exact Hm.
Qed.

(** The same for a file whose calls are typed as written: the object
    literals of the file itself are to name each property once. *)
Lemma nothing_matched_after_run_as_written (host : Host)
  (sourceFile transformed : SourceFile) :
  typedAsWritten host sourceFile ->
  distinctKeys sourceFile = true ->
  transformSourceFile host sourceFile = Some transformed ->
  forall m, In m (fileDescendants transformed) -> unmatched m = true.
Proof.
  intros Hw Hd Hrun.
  destruct (transform_result host sourceFile transformed Hrun) as (Hc & _).
  apply (nothing_matched_after_run host sourceFile
           (withStatements sourceFile
              (map (typeParameters host (getFilePath sourceFile))
                 (getStatements sourceFile))));
    [|clear Hrun|exact Hrun].
  - unfold addTypeParametersToKatalistCalls. now rewrite Hc.
  - rewrite (typed_as_written_statements host sourceFile Hw Hc).
    unfold distinctKeys in *. cbn. rewrite forallb_forall in *.
    intros s' Hs'. apply in_map_iff in Hs' as (s & <- & Hs).
    apply (distinct_mapTree typeArgumentEdit s
             (proj1 typeArgumentEdit_gentle) typeArgumentEdit_keepsDistinct).
    now apply Hd.
Qed.





(** The run on the source of tests/test-transformation.ts gives the file
    the repository keeps. *)
Lemma test_transformation_file :
  transformSourceFile Build.sampleHost Build.testTransformationBefore
  = Some Build.testTransformationAfter.
Proof. reflexivity. Qed.

(** On the source of tests/integration.test.ts the run types and strips
    the call of [get] and adds its import; the calls of [post], [put] and
    [delete] keep their text, generation options included. *)
Lemma integration_source_only_get_is_rewritten :
  exists transformed,
    transformSourceFile Build.sampleHost Build.integrationSource
    = Some transformed
    /\ map moduleSpecifier (getImportDeclarations transformed)
       = ["./index"; "../http-schemas/Post"]
    /\ map getText (getStatements transformed)
       = ([getText (Build.const "katalist"
                     (Build.call (Build.ident "Katalist") [] []));
          getText (Build.const "post"
                     (Build.await
                        (Build.typedGet (Build.ident "katalist")
                           (Build.str
                              "https://jsonplaceholder.typicode.com/posts/1")
                           "PostSchemaType")))]
          ++ skipn 2 (map getText (getStatements Build.integrationSource)))%list.
Proof. eexists. repeat split. Qed.

End TransformerFacts.

(* ================================================================== *)
(** * Further properties of the code                                    *)
(* ================================================================== *)

Module SchemaShapeFacts.
Import SchemaSynthesis SchemaShape SchemaSamples SchemaSynthesisFacts.

Lemma map_entries_ext (f g : schema -> schema) (ps : list (string * schema)) :
  Forall (fun entry => f (snd entry) = g (snd entry)) ps ->
  map (fun entry => (fst entry, f (snd entry))) ps
  = map (fun entry => (fst entry, g (snd entry))) ps.
Proof.
  induction 1 as [|e rest He _ IH]; [reflexivity|].
  simpl. now rewrite He, IH.
Qed.

(** X1. Running [addRequiredToAllObjects] on a schema it has already
    processed changes nothing: the pass is idempotent, whatever
    [required] members the tree carried before. *)
Theorem addRequired_idempotent (s : schema) :
  addRequiredToAllObjects (addRequiredToAllObjects s)
  = addRequiredToAllObjects s.
Proof.
  induction s as [d t ty props items req IHp _] using schema_induction.
  destruct props as [ps|]; [|reflexivity].
  cbn [addRequiredToAllObjects].
  destruct (typeIs "object" (Schema d t ty (Some ps) items req)) eqn:Hobj.
  - cbn [addRequiredToAllObjects].
    assert (Hobj' : forall ps' r,
               typeIs "object" (Schema d t ty (Some ps') items r) = true)
      by (intros; exact Hobj).
    rewrite Hobj'.
    rewrite requiredProps_addRequired, map_map. cbn [fst snd].
    rewrite (map_entries_ext
               (fun x => addRequiredToAllObjects (addRequiredToAllObjects x))
               addRequiredToAllObjects ps IHp).
    destruct (requiredProps ps); reflexivity.
  - cbn [addRequiredToAllObjects]. now rewrite Hobj.
Qed.

Lemma addRequired_keeps_the_rest (s : schema) :
  withoutRequired (addRequiredToAllObjects s) = withoutRequired s.
Proof.
  induction s as [d t ty props items req IHp _] using schema_induction.
  destruct props as [ps|]; [|reflexivity].
  cbn [addRequiredToAllObjects].
  destruct (typeIs "object" (Schema d t ty (Some ps) items req)); [|reflexivity].
  cbn [withoutRequired]. rewrite map_map. cbn [fst snd].
  now rewrite (map_entries_ext
                 (fun x => withoutRequired (addRequiredToAllObjects x))
                 withoutRequired ps IHp).
Qed.

(** X2. The schema [jsontoJsonSchema] returns differs from the one the
    generator built in three members only: the title of the root is the
    one passed, the root has no [$schema], and [required] members may
    have been written.  Types, property names and their order, nested
    properties and array items are the generator's. *)
Theorem synthesis_changes_title_dialect_and_required_only
  (generate : json -> schema) (value : json) (title : string) :
  titleOf (jsontoJsonSchema generate value title) = Some title
  /\ dialectOf (jsontoJsonSchema generate value title) = None
  /\ withoutRequired (jsontoJsonSchema generate value title)
     = withoutRequired
         (Schema None (Some title) (typeOf (generate value))
            (propertiesOf (generate value)) (itemsOf (generate value)) None).
Proof.
  unfold jsontoJsonSchema.
  destruct (generate value) as [d t ty props items req].
  split; [|split].
  - destruct props as [ps|]; [|reflexivity]. cbn [addRequiredToAllObjects].
    now destruct (typeIs "object" _).
  - destruct props as [ps|]; [|reflexivity]. cbn [addRequiredToAllObjects].
    now destruct (typeIs "object" _).
  - rewrite addRequired_keeps_the_rest. reflexivity.
Qed.

(** X3. [addRequiredToAllObjects] never writes an empty [required]
    array (the guard [requiredProps.length > 0]): on a tree without one,
    the result has none, at any depth. *)
Theorem addRequired_writes_no_empty_array (s : schema) :
  noEmptyRequired s = true ->
  noEmptyRequired (addRequiredToAllObjects s) = true.
Proof.
  induction s as [d t ty props items req IHp _] using schema_induction.
  intros H. destruct props as [ps|]; [|exact H].
  cbn [addRequiredToAllObjects].
  destruct (typeIs "object" (Schema d t ty (Some ps) items req)); [|exact H].
  cbn [noEmptyRequired] in *.
  apply andb_true_iff in H as [H Hitems].
  apply andb_true_iff in H as [Hreq Hprops].
  rewrite Hitems, andb_true_r. apply andb_true_iff. split.
  - destruct (requiredProps ps); [exact Hreq | reflexivity].
  - rewrite forallb_forall. intros entry Hin.
    apply in_map_iff in Hin as (e0 & <- & Hin0). cbn [snd].
    rewrite Forall_forall in IHp. apply (IHp e0 Hin0).
    rewrite forallb_forall in Hprops. exact (Hprops e0 Hin0).
Qed.

Lemma addRequired_writes_no_empty_array_witness :
  noEmptyRequired
    (addRequiredToAllObjects (inferSchema (JObject [("a", JNull)]))) = true.
Proof.
  apply (addRequired_writes_no_empty_array
           (inferSchema (JObject [("a", JNull)]))).
  reflexivity.
Defined.

(** X4. When the generator's schema carries no [required] member (the
    generate-schema package writes none), every object node that
    [jsontoJsonSchema] reaches from the root through [properties] of
    object nodes lists as required exactly its properties whose type is
    not ["null"]. *)
Theorem synthesis_is_exact_along_properties
  (generate : json -> schema) (value : json) (title : string) :
  noRequired (generate value) = true ->
  everyReachedObjectExact (jsontoJsonSchema generate value title) = true.
Proof.
  intros H. unfold jsontoJsonSchema.
  destruct (generate value) as [d t ty props items req] eqn:E.
  apply addRequired_exact_where_reached.
  cbn [noRequired] in *. exact H.
Qed.

Lemma synthesis_is_exact_along_properties_witness :
  everyReachedObjectExact
    (jsontoJsonSchema inferSchema
       (JObject [("id", JNumber "1"); ("gone", JNull);
                 ("owner", JObject [("name", JString "n")])]) "User") = true.
Proof.
  apply (synthesis_is_exact_along_properties inferSchema
           (JObject [("id", JNumber "1"); ("gone", JNull);
                     ("owner", JObject [("name", JString "n")])]) "User").
  reflexivity.
Defined.

End SchemaShapeFacts.

Module CallerPathFacts.
Import JsString CallerDetection Samples CallerDetectionFacts.
#[local] Arguments Ascii.eqb : simpl never.

Lemma extensionAt_cases (s e : string) :
  extensionAt s = Some e -> e = ".ts" \/ e = ".js".
Proof.
  unfold extensionAt.
  destruct (startsWith ".ts" s); [intros [= <-]; now left|].
  destruct (startsWith ".js" s); [intros [= <-]; now right|discriminate].
Qed.

(** What the greedy class followed by the extension matches: a non-empty
    run of characters of the class, then [.ts] or [.js]. *)
Lemma pathBody_shape (s m : string) :
  pathBody s = Some m ->
  exists stem ext,
    m = stem ++ ext /\ stem <> EmptyString /\ allPathChars stem = true
    /\ (ext = ".ts" \/ ext = ".js").
Proof.
  revert m. induction s as [|c t IH]; intros m; [discriminate|].
  rewrite pathBody_cons.
  destruct (pathChar c) eqn:Hc; [|discriminate].
  destruct (pathBody t) as [m'|].
  - intros [= <-]. destruct (IH m' eq_refl) as (stem & ext & -> & _ & Hall & Hext).
    exists (String c stem), ext. repeat split; try assumption.
    + discriminate.
    + cbn [allPathChars]. now rewrite Hc, Hall.
  - destruct (extensionAt t) as [e|] eqn:He; [|discriminate].
    intros [= <-]. exists (String c EmptyString), e. repeat split.
    + discriminate.
    + cbn [allPathChars]. now rewrite Hc.
    + eapply extensionAt_cases; eauto.
Qed.

Lemma slashPath_shape (s m : string) :
  slashPath s = Some m ->
  exists stem ext,
    m = "/" ++ stem ++ ext /\ stem <> EmptyString /\ allPathChars stem = true
    /\ (ext = ".ts" \/ ext = ".js").
Proof.
  destruct s as [|c t]; [discriminate|]. unfold slashPath.
  destruct (Ascii.eqb c slash) eqn:E; [|discriminate].
  apply Ascii.eqb_eq in E. subst c.
  destruct (pathBody t) as [b|] eqn:Hb; [|discriminate].
  intros [= <-].
  destruct (pathBody_shape _ _ Hb) as (stem & ext & -> & Hne & Hall & Hext).
  exists stem, ext. repeat split; assumption.
Qed.

Lemma captureAt_shape (s c : string) :
  captureAt s = Some c ->
  exists stem ext,
    stripProtocol c = "/" ++ stem ++ ext /\ stem <> EmptyString
    /\ allPathChars stem = true /\ (ext = ".ts" \/ ext = ".js").
Proof.
  unfold captureAt. destruct (startsWith "file://" s).
  - destruct (slashPath (drop 7 s)) as [m|] eqn:E; [|discriminate].
    intros [= <-].
    destruct (slashPath_shape _ _ E) as (stem & ext & -> & Hne & Hall & Hext).
    exists stem, ext. repeat split; assumption.
  - intros E.
    destruct (slashPath_shape _ _ E) as (stem & ext & -> & Hne & Hall & Hext).
    exists stem, ext. repeat split; assumption.
Qed.

Lemma fileMatch_shape (line c : string) :
  fileMatch line = Some c ->
  exists stem ext,
    stripProtocol c = "/" ++ stem ++ ext /\ stem <> EmptyString
    /\ allPathChars stem = true /\ (ext = ".ts" \/ ext = ".js").
Proof.
  induction line as [|a t IH]; simpl.
  - discriminate.
  - destruct (Nat.eqb (nat_of_ascii a) 40).
    + destruct (captureAt t) eqn:E.
      * intros [= <-]. eapply captureAt_shape; eauto.
      * exact IH.
    + destruct (captureAt (String a t)) eqn:E.
      * intros [= <-]. eapply captureAt_shape; eauto.
      * exact IH.
Qed.

(** The loop returns at a line exactly when the line is a user frame. *)
Lemma inspectLine_iff (line filePath : string) :
  inspectLine line = Some filePath <-> isUserFrame line filePath.
Proof.
  split; [|apply inspect_user_frame].
  unfold inspectLine, isUserFrame.
  destruct (fileMatch line) as [c|]; [|discriminate].
  destruct (negb (truthy (stripProtocol c))); [discriminate|].
  destruct (truthy (stripProtocol c)); [|discriminate].
  destruct (isInternalLibrary (normalizePath (stripProtocol c))) eqn:E;
    [discriminate|].
  intros [= <-]. exists c. repeat split. exact E.
Qed.

Lemma scanLines_iff (stackLines : list string) (filePath : string) :
  scanLines stackLines = Some filePath <->
  exists before line after,
    stackLines = (before ++ line :: after)%list
    /\ (forall l, In l before -> inspectLine l = None)
    /\ inspectLine line = Some filePath.
Proof.
  split.
  - induction stackLines as [|l rest IH]; [discriminate|].
    simpl. destruct (inspectLine l) as [p|] eqn:E.
    + intros [= <-]. exists [], l, rest. repeat split; [|exact E].
      intros x [].
    + intros H. destruct (IH H) as (before & line & after & -> & Hb & Hl).
      exists (l :: before), line, after. repeat split; [|exact Hl].
      intros x [<-|Hin]; [exact E | now apply Hb].
  - intros (before & line & after & -> & Hb & Hl).
    induction before as [|b before IH]; simpl.
    + now rewrite Hl.
    + rewrite (Hb b (or_introl eq_refl)). apply IH.
      intros x Hin. apply Hb. now right.
Qed.

Lemma caller_frame (stack : option string) (filePath : string) :
  getCallerFilePath stack = Some filePath ->
  exists s before line after,
    stack = Some s
    /\ split newline s = (before ++ line :: after)%list
    /\ (forall l, In l before -> inspectLine l = None)
    /\ isUserFrame line filePath.
Proof.
  unfold getCallerFilePath. destruct stack as [s|]; [|discriminate].
  destruct (truthy s); [|discriminate].
  intros H. apply scanLines_iff in H as (b & l & a & E & Hb & Hl).
  exists s, b, l, a. repeat split; try assumption. now apply inspectLine_iff.
Qed.

(** X5. [getCallerFilePath] returns a path exactly when some line of
    the trace is a user frame (the pattern matches it and the captured
    path, without [file://], is not classified as library-internal), and
    the path is the one of the first such line: every line before it
    makes the loop go on. *)
Theorem caller_is_the_first_user_frame (stack filePath : string) :
  getCallerFilePath (Some stack) = Some filePath <->
  exists before line after,
    split newline stack = (before ++ line :: after)%list
    /\ (forall l, In l before -> inspectLine l = None)
    /\ isUserFrame line filePath.
Proof.
  split.
  - intros H. apply caller_frame in H as (s & b & l & a & [= <-] & E & Hb & Hl).
    exists b, l, a. repeat split; assumption.
  - intros (b & l & a & E & Hb & Hl).
    assert (Hs : scanLines (split newline stack) = Some filePath).
    { apply scanLines_iff. exists b, l, a. repeat split; try assumption.
      now apply inspectLine_iff. }
    unfold getCallerFilePath. destruct stack; [|exact Hs].
    discriminate Hs.
Qed.

(** X6. Whatever the trace, a path that [getCallerFilePath] returns is
    a slash, a non-empty run of characters that are neither white space
    nor [)] nor [:], and then [.ts] or [.js]; and it is not classified as
    library-internal.  So it never carries the [file://] protocol, and
    never ends in [.tsx] or [.jsx]. *)
Theorem caller_path_shape (stack : option string) (filePath : string) :
  getCallerFilePath stack = Some filePath ->
  (exists stem ext,
      filePath = "/" ++ stem ++ ext /\ stem <> EmptyString
      /\ allPathChars stem = true /\ (ext = ".ts" \/ ext = ".js"))
  /\ isInternalLibrary (normalizePath filePath) = false.
Proof.
  intros H.
  apply caller_frame in H as (s & b & l & a & _ & _ & _ & c & Hm & -> & Hlib).
  split; [|exact Hlib]. eapply fileMatch_shape; eauto.
Qed.

Lemma caller_path_shape_witness :
  (exists stem ext,
      "/home/u/src/page.ts" = "/" ++ stem ++ ext /\ stem <> EmptyString
      /\ allPathChars stem = true /\ (ext = ".ts" \/ ext = ".js"))
  /\ isInternalLibrary (normalizePath "/home/u/src/page.ts") = false.
Proof.
  apply (caller_path_shape (Some (libraryFrame ++ nl ++ componentFrame))).
  reflexivity.
Defined.

End CallerPathFacts.

Module ReplaceFacts.
Import JsString StringFacts.
#[local] Arguments Ascii.eqb : simpl never.

Lemma startsWith_self_app (p t : string) : startsWith p (p ++ t) = true.
Proof.
  induction p as [|a p IH]; [reflexivity|].
  simpl. now rewrite Ascii.eqb_refl, IH.
Qed.

Lemma drop_length_app (p t : string) : drop (String.length p) (p ++ t) = t.
Proof. induction p as [|a p IH]; [reflexivity | exact IH]. Qed.

(** A text without the pattern is left as it is. *)
Lemma replaceFirst_absent (p r s : string) :
  includes p s = false -> replaceFirst p r s = s.
Proof.
  induction s as [|c t IH]; simpl; intros H.
  - rewrite orb_false_r in H. now rewrite H.
  - apply orb_false_iff in H as [Hs Ht]. rewrite Hs. now rewrite (IH Ht).
Qed.

(** A pattern that matches at the head of [s ++ a...] and holds no [a]
    matches inside [s]. *)
Lemma startsWith_inside (a : ascii) (q s rest : string) :
  includes (String a EmptyString) q = false ->
  startsWith q (s ++ String a rest) = true -> startsWith q s = true.
Proof.
  revert s. induction q as [|c q IH]; intros s Hq H; [reflexivity|].
  simpl in Hq. apply orb_false_iff in Hq as [Hc Hq].
  rewrite andb_true_r in Hc.
  destruct s as [|d s].
  - simpl in H. rewrite Ascii.eqb_sym, Hc in H. discriminate.
  - simpl in *. apply andb_true_iff in H as [Hd H].
    rewrite Hd. simpl. now apply IH.
Qed.

(** When the first letter of the pattern occurs nowhere else in it, the
    first occurrence of the pattern in [s ++ pattern ++ t], [s] free of
    the pattern, is the one after [s]. *)
Lemma replaceFirst_after_free (a : ascii) (p' r s t : string) :
  includes (String a EmptyString) p' = false ->
  includes (String a p') s = false ->
  replaceFirst (String a p') r (s ++ String a p' ++ t) = s ++ r ++ t.
Proof.
  intros Hp. induction s as [|c s IH]; intros Hs.
  - cbn [append]. unfold replaceFirst; fold replaceFirst.
    change (String a (p' ++ t)) with (String a p' ++ t).
    now rewrite startsWith_self_app, drop_length_app.
  - simpl in Hs. apply orb_false_iff in Hs as [Hhead Hs].
    change (String c s ++ String a p' ++ t)
      with (String c (s ++ String a p' ++ t)).
    unfold replaceFirst; fold replaceFirst.
    assert (Hno : startsWith (String a p') (String c (s ++ String a p' ++ t))
                  = false).
    { apply not_true_iff_false. intros H. simpl in H.
      apply andb_true_iff in H as [Hac H].
      change (String a p' ++ t) with (String a (p' ++ t)) in H.
      apply (startsWith_inside a p' s _ Hp) in H.
      rewrite Hac, H in Hhead. discriminate. }
    rewrite Hno. cbn [append]. f_equal. now apply IH.
Qed.

Lemma append_differs (s a b : string) : a <> b -> s ++ a <> s ++ b.
Proof.
  intros Hab. induction s as [|c s IH]; [exact Hab|].
  cbn [append]. intros [= H]. now apply IH.
Qed.

End ReplaceFacts.

Module RunFacts.
Import JsString Ast Transformer Located SchemaModule.
Import StringFacts ReplaceFacts TreeFacts TransformerFacts.
#[local] Arguments Ascii.eqb : simpl never.

Lemma write_hit (path content : string) (disk : Disk) :
  write path content disk path = Some content.
Proof. unfold write. now rewrite String.eqb_refl. Qed.

Lemma write_miss (path p content : string) (disk : Disk) :
  p <> path -> write path content disk p = disk p.
Proof.
  intros H. unfold write. apply String.eqb_neq in H. now rewrite H.
Qed.

(** X7. A run of [transformHttpClientCall] that completes read the text
    at the source path, and what it returns is the formatter's layout,
    under the path of the source, of the text ts-morph holds after the
    four passes; that text is written at the write target, and every
    other path of the disk is left as it was.  The target is the source
    itself when the flag is off, and also when the flag is on and the
    path holds no [.ts]; when the flag is on and the extension is the
    first [.ts] of the path, the target is the sibling [.transformed.ts]
    and the source is left as it was. *)
Theorem run_writes_its_target_only (host : Host) (disk disk' : Disk)
  (sourceFilePath : string) (addTransformFilePath : bool) (text : string) :
  transformHttpClientCall host disk sourceFilePath addTransformFilePath
  = Some (text, disk') ->
  (exists content transformed,
     disk sourceFilePath = Some content
     /\ transformSourceFile host (parsedAt host sourceFilePath content)
        = Some transformed
     /\ text = formatContent host (sourceText host transformed)
                 (resolve host sourceFilePath))
  /\ disk' (OutputPath.writeTarget sourceFilePath addTransformFilePath)
     = Some text
  /\ (forall p,
        p <> OutputPath.writeTarget sourceFilePath addTransformFilePath ->
        disk' p = disk p)
  /\ (addTransformFilePath = false ->
      OutputPath.writeTarget sourceFilePath addTransformFilePath
      = sourceFilePath)
  /\ (addTransformFilePath = true ->
      includes ".ts" sourceFilePath = false ->
      OutputPath.writeTarget sourceFilePath addTransformFilePath
      = sourceFilePath)
  /\ (forall stem,
        addTransformFilePath = true ->
        sourceFilePath = stem ++ ".ts" ->
        includes ".ts" stem = false ->
        OutputPath.writeTarget sourceFilePath addTransformFilePath
        = stem ++ ".transformed.ts"
        /\ disk' sourceFilePath = disk sourceFilePath).
Proof.
  unfold transformHttpClientCall, addSourceFileAtPath.
  destruct (disk sourceFilePath) as [content|] eqn:Hdisk; [|discriminate].
  destruct (transformSourceFile host _) as [transformed|] eqn:Hrun;
    [|discriminate].
  intros [= <- <-].
  destruct (transform_result _ _ _ Hrun) as (_ & _ & Hpath & _).
  cbn [getFilePath parsedAt] in Hpath.
  split.
  { exists content, transformed. split; [reflexivity|]. split; [exact Hrun|].
    unfold formatWithBiome. now rewrite Hpath. }
  split; [apply write_hit|].
  split; [intros p Hp; now apply write_miss|].
  split; [now intros ->|].
  split.
  - intros -> Hno. unfold OutputPath.writeTarget, OutputPath.transformedPath.
    now apply replaceFirst_absent.
  - intros stem -> -> Hstem.
    assert (Ht : OutputPath.writeTarget (stem ++ ".ts") true
                 = stem ++ ".transformed.ts")
      by (now apply OutputPathFacts.transformedPath_before_extension).
    split; [exact Ht|]. rewrite Ht, write_miss; [exact Hdisk|].
    apply append_differs. discriminate.
Qed.

Lemma run_writes_its_target_only_witness :
  OutputPath.writeTarget "/proj/src/api.ts" true
  = "/proj/src/api.transformed.ts".
Proof.
  destruct (run_writes_its_target_only Build.sampleHost
              (Build.diskWith "/proj/src/api.ts" Build.fileWithTaggedGet)
              _ "/proj/src/api.ts" true _ eq_refl)
    as (_ & _ & _ & _ & _ & H).
  exact (proj1 (H "/proj/src/api" eq_refl eq_refl eq_refl)).
Defined.

Lemma rewrite_head (host : Host) (filePath : string) (n : Node) :
  isKatalistCall n = false ->
  getKind (rewrite host filePath n) = getKind n
  /\ getName (rewrite host filePath n) = getName n.
Proof.
  intros Hn. unfold rewrite.
  destruct n as [k nm ta cs].
  rewrite (typeParameters_unlocated host filePath k nm ta cs Hn).
  set (typed := mkNode k nm ta (map (typeParameters host filePath) cs)).
  destruct (mapTree_head generationOptionsEdit (mapTree zodOutputEdit typed)
              (proj1 generationOptionsEdit_gentle)) as [K3 N3].
  destruct (mapTree_head zodOutputEdit typed (proj1 zodOutputEdit_gentle))
    as [K2 N2].
  rewrite K3, K2, N3, N2. split; reflexivity.
Qed.

Lemma importsToAdd_shape (existingImports : list ImportDeclaration)
  (base : string) (calls : list Node) :
  Forall
    (fun d =>
       isTypeOnly d = true /\ defaultImport d = None
       /\ exists typeName,
            namedImports d = [typeName]
            /\ moduleSpecifier d = base ++ "/" ++ schemaNameOf typeName
            /\ hasImport existingImports (schemaNameOf typeName) typeName
               = false)
    (importsToAdd existingImports base calls).
Proof.
  apply Forall_forall. intros d Hd. unfold importsToAdd in Hd.
  apply in_flat_map in Hd as (c & _ & Hd).
  destruct (getTypeArguments c) as [|T others]; [destruct Hd|].
  destruct (hasImport existingImports (schemaNameOf T) T) eqn:Hhas;
    [destruct Hd|].
  destruct Hd as [<-|[]]. repeat split. exists T. repeat split. exact Hhas.
Qed.

(** X8. A run of the four passes that completes keeps the path of the
    file and its statements one for one: each is the statement of the
    source gone through the three tree edits, with its kind and its name
    unless it is itself a tagged call (in a file a call is below the
    statement that holds it); when no statement is a tagged call, and
    when the tagged calls are typed as written, the kinds and names of
    the statements are those of the source.  The run keeps every import
    declaration the file had, in order; what it appends are type-only
    imports of one name each, without default import, from
    [<schemas path>/<type name without its first SchemaType>], for type
    names the file had no import of; and the schemas path is relative: it
    starts with [..] or with [./]. *)
Theorem run_keeps_statements_and_imports (host : Host)
  (sourceFile transformed : SourceFile) :
  transformSourceFile host sourceFile = Some transformed ->
  let base := calculateHttpSchemasPath host (getFilePath sourceFile) in
  getFilePath transformed = getFilePath sourceFile
  /\ getStatements transformed
     = map (rewrite host (getFilePath sourceFile)) (getStatements sourceFile)
  /\ List.length (getStatements transformed)
     = List.length (getStatements sourceFile)
  /\ (forall s, isKatalistCall s = false ->
        getKind (rewrite host (getFilePath sourceFile) s) = getKind s
        /\ getName (rewrite host (getFilePath sourceFile) s) = getName s)
  /\ ((forall s, In s (getStatements sourceFile) -> isKatalistCall s = false)
      \/ typedAsWritten host sourceFile ->
      map getKind (getStatements transformed)
      = map getKind (getStatements sourceFile)
      /\ map getName (getStatements transformed)
         = map getName (getStatements sourceFile))
  /\ (exists added,
        getImportDeclarations transformed
        = (getImportDeclarations sourceFile ++ added)%list
        /\ Forall
             (fun d =>
                isTypeOnly d = true /\ defaultImport d = None
                /\ exists typeName,
                     namedImports d = [typeName]
                     /\ moduleSpecifier d
                        = base ++ "/" ++ schemaNameOf typeName
                     /\ hasImport (getImportDeclarations sourceFile)
                          (schemaNameOf typeName) typeName = false)
             added)
  /\ (startsWith ".." base = true \/ startsWith "./" base = true).
Proof.
  intros Hrun base.
  destruct (transform_result _ _ _ Hrun) as (_ & Hst & Hpath & Himp).
  split; [exact Hpath|].
  split; [exact Hst|].
  split; [now rewrite Hst, length_map|].
  split; [intros s Hs; now apply rewrite_head|].
  split.
  { intros [Hguard|Hwritten].
    - rewrite Hst, !map_map.
      split; apply map_ext_in; intros s Hs;
        now apply rewrite_head, Hguard.
    - destruct (transform_result_as_written _ _ _ Hwritten Hrun)
        as (Hst' & _).
      rewrite Hst', !map_map.
      split; apply map_ext; intros s; unfold rewriteAsWritten;
        destruct (mapTree_head generationOptionsEdit
                    (mapTree zodOutputEdit (mapTree typeArgumentEdit s))
                    (proj1 generationOptionsEdit_gentle)) as [K3 N3];
        destruct (mapTree_head zodOutputEdit (mapTree typeArgumentEdit s)
                    (proj1 zodOutputEdit_gentle)) as [K2 N2];
        destruct (mapTree_head typeArgumentEdit s
                    (proj1 typeArgumentEdit_gentle)) as [K1 N1];
        congruence. }
  split.
  - eexists. split; [exact Himp|]. apply importsToAdd_shape.
  - unfold base, calculateHttpSchemasPath.
    match goal with
    | |- context [if startsWith ".." ?x then _ else _] =>
        destruct (startsWith ".." x) eqn:E
    end; [left; exact E | right; reflexivity].
Qed.

Lemma run_keeps_statements_and_imports_witness :
  getStatements Build.testTransformationAfter
  = map (rewrite Build.sampleHost "/proj/tests/test-transformation.ts")
      (getStatements Build.testTransformationBefore).
Proof.
  exact (proj1 (proj2 (run_keeps_statements_and_imports Build.sampleHost
                         Build.testTransformationBefore
                         Build.testTransformationAfter eq_refl))).
Defined.

(** X9. After a run that completes on a file whose tagged calls are
    typed as written and whose object literals name each property once,
    neither locator finds anything in the tree the passes leave: no call
    of [get] is left with both [generateSchema] and [interfaceName] in
    its options literal, and no [new HttpClient] is left with a
    [zodOutput] option. *)
Theorem run_leaves_nothing_to_locate (host : Host)
  (sourceFile transformed : SourceFile) :
  typedAsWritten host sourceFile ->
  distinctKeys sourceFile = true ->
  transformSourceFile host sourceFile = Some transformed ->
  findKatalistCallsWithSchemaGeneration transformed = []
  /\ findHttpClientCallsWithZodOutput transformed = [].
Proof.
  intros Hw Hd Hrun.
  pose proof (nothing_matched_after_run_as_written host sourceFile
                transformed Hw Hd Hrun) as Hnone.
  split.
  - apply no_located_calls. intros m Hm.
    now destruct (unmatched_split m (Hnone m Hm)).
  - apply no_located_constructors. intros m Hm.
    now destruct (unmatched_split m (Hnone m Hm)).
Qed.

Lemma run_leaves_nothing_to_locate_witness :
  findKatalistCallsWithSchemaGeneration Build.testTransformationAfter = []
  /\ findHttpClientCallsWithZodOutput Build.testTransformationAfter = [].
Proof.
  apply (run_leaves_nothing_to_locate Build.sampleHost
           Build.testTransformationBefore Build.testTransformationAfter);
    [typed_as_written | reflexivity | reflexivity].
Defined.

(** X10. [addKatalistSchemaImports] reads the imports of the file once,
    before its loop, and never looks at what it has added: when the file
    has no import of a type name, every located call that carries this
    type name as its first type argument adds the import again, so
    [n] such calls leave [n] copies of the same declaration. *)
Theorem one_import_per_located_call (existingImports : list ImportDeclaration)
  (base typeName : string) (calls : list Node) :
  (forall c, In c calls -> hd_error (getTypeArguments c) = Some typeName) ->
  hasImport existingImports (schemaNameOf typeName) typeName = false ->
  importsToAdd existingImports base calls
  = repeat (schemaImport base (schemaNameOf typeName) typeName)
      (List.length calls).
Proof.
  intros Hall Hno. induction calls as [|c rest IH]; [reflexivity|].
  simpl. pose proof (Hall c (or_introl eq_refl)) as Hc.
  destruct (getTypeArguments c) as [|T others]; [discriminate|].
  injection Hc as ->. rewrite Hno. simpl. f_equal.
  apply IH. intros x Hx. apply Hall. now right.
Qed.

Lemma one_import_per_located_call_witness :
  importsToAdd [] "../http-schemas"
    [withTypeArguments ["UserSchemaType"]
       (Build.taggedGet (Build.ident "a") (Build.str "/users/1") "User" []);
     withTypeArguments ["UserSchemaType"]
       (Build.taggedGet (Build.ident "b") (Build.str "/users/2") "User" [])]
  = [schemaImport "../http-schemas" "User" "UserSchemaType";
     schemaImport "../http-schemas" "User" "UserSchemaType"].
Proof.
  apply (one_import_per_located_call [] "../http-schemas" "UserSchemaType").
  - intros c [<-|[<-|[]]]; reflexivity.
  - reflexivity.
Defined.

Lemma startsWith_app_same (a b c : string) :
  startsWith (a ++ b) (a ++ c) = startsWith b c.
Proof.
  induction a as [|x a IH]; [reflexivity|].
  simpl. now rewrite Ascii.eqb_refl, IH.
Qed.

Lemma includes_here (p s : string) :
  startsWith p s = true -> includes p s = true.
Proof. intros H. destruct s; simpl in *; now rewrite H. Qed.

(** The first [SchemaType] of [name ++ "SchemaType"] is the suffix when
    the name holds none. *)
Lemma schemaNameOf_round_trip (name : string) :
  includes "SchemaType" name = false ->
  schemaNameOf (name ++ "SchemaType") = name.
Proof.
  intros H. unfold schemaNameOf.
  pose proof (replaceFirst_after_free "S" "chemaType" EmptyString name
                EmptyString eq_refl H) as E.
  cbn [append] in E. rewrite E. now rewrite !append_empty_r.
Qed.

(** X11. For every interface name that holds no [SchemaType], the type
    name the first pass derives for the tagged call
    [client.get(url, { generateSchema: ..., interfaceName: "<name>",
    ... })] is [<name>SchemaType]; for the call that carries it, the
    import pass adds the import of [<name>SchemaType] from
    [<schemas path>/<name>] when the file has no matching import: the
    type alias that the schema module written for that interface name
    exports, and, for a source file in the project root (schemas path
    [./http-schemas]), the very path the facade writes the module to,
    without its [.ts]. *)
Theorem tagged_get_imports_its_schema_module (client : Node) (name : string)
  (url : Node) (more : list Node)
  (existingImports : list ImportDeclaration) (base formatted : string) :
  includes "SchemaType" name = false ->
  hasImport existingImports name (name ++ "SchemaType") = false ->
  typeNameToAdd (Build.taggedGet client url name more)
  = Some (name ++ "SchemaType")
  /\ importsToAdd existingImports base
       [withTypeArguments [name ++ "SchemaType"]
          (Build.taggedGet client url name more)]
     = [{| namedImports := [name ++ "SchemaType"];
           moduleSpecifier := base ++ "/" ++ name;
           isTypeOnly := true;
           defaultImport := None |}]
  /\ includes ("export type " ++ name ++ "SchemaType = ")
       (fileContent name formatted) = true
  /\ (base = "./http-schemas" ->
      (base ++ "/" ++ name) ++ ".ts" = schemaPath name).
Proof.
  intros Hn Hno.
  split; [reflexivity|]. split; [|split].
  - unfold importsToAdd. cbn [flat_map withTypeArguments
      Build.taggedGet Build.call getTypeArguments].
    rewrite (schemaNameOf_round_trip name Hn), Hno. reflexivity.
  - unfold fileContent.
    do 10 apply includes_app_r.
    apply includes_here.
    rewrite (startsWith_app_same "export type ").
    rewrite (startsWith_app_same name).
    reflexivity.
  - intros ->. reflexivity.
Qed.

Lemma tagged_get_imports_its_schema_module_witness :
  importsToAdd [] "./http-schemas"
    [withTypeArguments ["Post" ++ "SchemaType"]
       (Build.taggedGet (Build.ident "client") (Build.str "/posts/1") "Post"
          [Build.prop "headers" (Build.ident "h")])]
  = [{| namedImports := ["Post" ++ "SchemaType"];
        moduleSpecifier := "./http-schemas" ++ "/" ++ "Post";
        isTypeOnly := true;
        defaultImport := None |}].
Proof.
  apply (tagged_get_imports_its_schema_module (Build.ident "client") "Post"
           (Build.str "/posts/1") [Build.prop "headers" (Build.ident "h")]
           [] "./http-schemas" "z.object({})");
    reflexivity.
Defined.

Lemma mapTree_typeArguments (edit : Node -> Node) (n : Node) :
  (forall x, getTypeArguments (edit x) = getTypeArguments x) ->
  getTypeArguments (mapTree edit n) = getTypeArguments n.
Proof. intros H. destruct n as [k nm ta cs]. simpl. now rewrite H. Qed.

Lemma removeProperty_typeArguments (name : string) (o : Node) :
  getTypeArguments (removeProperty name o) = getTypeArguments o.
Proof. now destruct o. Qed.

Lemma zodOutputEdit_typeArguments (n : Node) :
  getTypeArguments (zodOutputEdit n) = getTypeArguments n.
Proof.
  unfold zodOutputEdit. destruct (isHttpClientWithZodOutput n); [|reflexivity].
  destruct n as [k nm ta [|e args]]; reflexivity.
Qed.

Lemma generationOptionsEdit_typeArguments (n : Node) :
  getTypeArguments (generationOptionsEdit n) = getTypeArguments n.
Proof.
  unfold generationOptionsEdit. destruct (isKatalistCall n); [|reflexivity].
  destruct n as [k nm ta [|e [|u [|o rest]]]]; try reflexivity.
  destruct (isKind ObjectLiteralExpression o); reflexivity.
Qed.

(** X12. A located call that already carries type arguments keeps them
    through the run, whatever its [interfaceName] says: the first pass
    adds nothing to it, and the import pass derives the import from the
    first type argument that is there, which it adds unless the file has
    one already. *)
Theorem typed_call_keeps_its_type_arguments (host : Host)
  (sourceFile transformed : SourceFile) (call : Node)
  (typeName : string) (others : list string) :
  transformSourceFile host sourceFile = Some transformed ->
  In call (fileDescendants sourceFile) ->
  isKatalistCall call = true ->
  getTypeArguments call = typeName :: others ->
  getTypeArguments (typeParameters host (getFilePath sourceFile) call)
  = typeName :: others
  /\ getTypeArguments (rewrite host (getFilePath sourceFile) call)
     = typeName :: others
  /\ (hasImport (getImportDeclarations sourceFile) (schemaNameOf typeName)
        typeName = false ->
      In (schemaImport
            (calculateHttpSchemasPath host (getFilePath sourceFile))
            (schemaNameOf typeName) typeName)
        (getImportDeclarations transformed)).
Proof.
  intros Hrun Hin Hloc Hta.
  destruct (transform_result _ _ _ Hrun) as (Hc & _ & _ & Himp).
  destruct call as [k nm ta cs]. simpl in Hta. subst ta.
  assert (Hnone : typeNameToAdd (mkNode k nm (typeName :: others) cs) = None).
  { unfold typeNameToAdd.
    destruct (getExpression _) as [e|]; [|reflexivity].
    destruct (negb (isKind PropertyAccessExpression e)); reflexivity. }
  assert (H1 : typeParameters host (getFilePath sourceFile)
                 (mkNode k nm (typeName :: others) cs)
               = mkNode k nm (typeName :: others)
                   (map (typeParameters host (getFilePath sourceFile)) cs)).
  { cbn [typeParameters]. now rewrite Hloc, Hnone. }
  split; [now rewrite H1|]. split.
  - unfold rewrite.
    rewrite (mapTree_typeArguments _ _ generationOptionsEdit_typeArguments).
    rewrite (mapTree_typeArguments _ _ zodOutputEdit_typeArguments).
    now rewrite H1.
  - intros Hno. rewrite Himp. apply in_or_app. right.
    apply (importsToAdd_in _ _ _
             (typeParameters host (getFilePath sourceFile)
                (mkNode k nm (typeName :: others) cs))
             typeName others).
    + apply located_calls_in. split.
      * now apply located_survives_typing.
      * rewrite H1. now apply located_stays_located_below.
    + now rewrite H1.
    + exact Hno.
Qed.

Lemma typed_call_keeps_its_type_arguments_witness :
  In (schemaImport "../http-schemas" "Foo" "Foo")
    (getImportDeclarations
       {| getFilePath := "/proj/src/api.ts";
          getImportDeclarations :=
            [{| namedImports := ["Foo"];
                moduleSpecifier := "../http-schemas/Foo";
                isTypeOnly := true;
                defaultImport := None |}];
          getStatements :=
            [Build.call (Build.access (Build.ident "client") "get") ["Foo"]
               [Build.str "/users/1"; Build.obj []]] |}).
Proof.
  apply (typed_call_keeps_its_type_arguments Build.sampleHost
           (Build.sourceOf
              [withTypeArguments ["Foo"]
                 (Build.taggedGet (Build.ident "client")
                    (Build.str "/users/1") "User" [])])
           _
           (withTypeArguments ["Foo"]
              (Build.taggedGet (Build.ident "client")
                 (Build.str "/users/1") "User" []))
           "Foo" []); try reflexivity.
  left. reflexivity.
Defined.










End RunFacts.

Module CompletionFacts.
Import JsString Ast Transformer Located.
Import StringFacts TreeFacts TransformerFacts.
#[local] Arguments Ascii.eqb : simpl never.

Lemma everywhere_intro (p : Node -> bool) (n : Node) :
  p n = true ->
  (forall c, In c (getChildren n) -> everywhere p c = true) ->
  everywhere p n = true.
Proof.
  destruct n as [k nm ta cs]. simpl. intros Hp Hc. rewrite Hp. simpl.
  apply forallb_forall. exact Hc.
Qed.

Lemma below_child (n c m : Node) :
  In c (getChildren n) -> In m (subtree c) -> In m (getDescendants n).
Proof. destruct n as [k nm ta cs]. apply in_descendants. Qed.

Lemma unmatched_below_children (n : Node) :
  nothingMatchedBelow n = true ->
  forall c, In c (getChildren n) ->
  forall m, In m (subtree c) -> unmatched m = true.
Proof.
  unfold nothingMatchedBelow. rewrite forallb_forall.
  intros H c Hc m Hm. apply H. eapply below_child; eauto.
Qed.

Lemma children_fixed (edit : Node -> Node) (n : Node) :
  (forall c, In c (getChildren n) -> mapTree edit c = c) ->
  mapTree edit n = edit n.
Proof.
  destruct n as [k nm ta cs]. simpl. intros H. f_equal. f_equal.
  induction cs as [|c rest IH]; [reflexivity|].
  simpl. rewrite (H c (or_introl eq_refl)). f_equal.
  apply IH. intros x Hx. apply H. now right.
Qed.

Lemma existsb_none {A : Type} (f : A -> bool) (l : list A) :
  (forall x, In x l -> f x = false) -> existsb f l = false.
Proof.
  induction l as [|a l IH]; intros H; [reflexivity|].
  simpl. rewrite (H a (or_introl eq_refl)). apply IH.
  intros x Hx. apply H. now right.
Qed.

Lemma new_text_has_parenthesis (n : Node) :
  isKind NewExpression n = true -> includes "(" (getText n) = true.
Proof.
  destruct n as [k nm ta cs]. intros H. apply isKind_eq in H. simpl in H.
  subst k. cbn [getText].
  do 3 apply includes_app_r. reflexivity.
Qed.

(** An edit that leaves a node as it is or leaves a text with an opening
    parenthesis does the same on whole subtrees. *)
Lemma edited_or_parenthesis (edit : Node -> Node) :
  (forall R, edit R = R \/ includes "(" (getText (edit R)) = true) ->
  forall x,
    mapTree edit x = x \/ includes "(" (getText (mapTree edit x)) = true.
Proof.
  intros Hedit x.
  induction x as [k nm ta cs IH] using Node_induction.
  rewrite Forall_forall in IH. simpl mapTree.
  destruct (fixed_or_changed edit
              (fun c' => includes "(" (getText c') = true) cs IH)
    as [Hsame|(c' & Hin & Hp)].
  - rewrite Hsame. apply Hedit.
  - right.
    destruct (Hedit (mkNode k nm ta (map (mapTree edit) cs))) as [->|Hpar].
    + now apply (parent_text_includes "(" k nm ta _ c').
    + exact Hpar.
Qed.

Lemma typeArgumentEdit_or_parenthesis (R : Node) :
  typeArgumentEdit R = R
  \/ includes "(" (getText (typeArgumentEdit R)) = true.
Proof.
  destruct (isKatalistCall R) eqn:Hloc;
    [|left; now apply typeArgumentEdit_skips].
  right. apply call_text_has_parenthesis.
  unfold isKind. rewrite (proj1 (typeArgumentEdit_head R)).
  unfold isKatalistCall in Hloc. now apply andb_true_iff in Hloc as [Hk _].
Qed.

Lemma zodOutputEdit_or_parenthesis (R : Node) :
  zodOutputEdit R = R \/ includes "(" (getText (zodOutputEdit R)) = true.
Proof.
  destruct (isHttpClientWithZodOutput R) eqn:Hloc.
  - right. apply new_text_has_parenthesis.
    unfold isKind. rewrite (proj1 (proj1 zodOutputEdit_gentle R)).
    unfold isHttpClientWithZodOutput in Hloc.
    now apply andb_true_iff in Hloc as [Hk _].
  - left. now apply zodOutputEdit_skips.
Qed.

(** A constructor call that is matched once an edit of this kind went
    through its children was matched before. *)
Lemma constructor_matched_before_edit (edit : Node -> Node)
  (k : SyntaxKind) (nm : string) (ta : list string) (cs : list Node) :
  gentle edit ->
  (forall R, edit R = R \/ includes "(" (getText (edit R)) = true) ->
  isHttpClientWithZodOutput (mkNode k nm ta (map (mapTree edit) cs)) = true ->
  isHttpClientWithZodOutput (mkNode k nm ta cs) = true.
Proof.
  intros Hg Hedit.
  unfold isHttpClientWithZodOutput, hasZodOutputArgument, getExpression,
    getArguments.
  destruct cs as [|e args]; [exact (fun H => H)|].
  change (isKind NewExpression
            (mkNode k nm ta (map (mapTree edit) (e :: args))))
    with (isKind NewExpression (mkNode k nm ta (e :: args))).
  simpl.
  intros H. apply andb_true_iff in H as [Hk H].
  apply andb_true_iff in H as [Ht Hex].
  rewrite (zodOutput_arguments_mapped _ args Hg) in Hex.
  rewrite Hk, Hex, andb_true_r. simpl.
  destruct (edited_or_parenthesis edit Hedit e) as [Hsame|Hparen].
  - now rewrite Hsame in Ht.
  - apply String.eqb_eq in Ht. rewrite Ht in Hparen. discriminate.
Qed.

Lemma constructor_is_not_call (n : Node) :
  isHttpClientWithZodOutput n = true -> isKatalistCall n = false.
Proof.
  unfold isHttpClientWithZodOutput, isKatalistCall. intros H.
  apply andb_true_iff in H as [Hk _]. apply isKind_eq in Hk.
  unfold isKind. now rewrite Hk.
Qed.

Lemma matched_cases (n : Node) :
  unmatched n = false ->
  (isKatalistCall n = true /\ isHttpClientWithZodOutput n = false)
  \/ (isKatalistCall n = false /\ isHttpClientWithZodOutput n = true).
Proof.
  unfold unmatched. intros H.
  destruct (isKatalistCall n) eqn:Hc.
  - left. split; [reflexivity|]. apply call_is_not_constructor.
    unfold isKatalistCall in Hc. now apply andb_true_iff in Hc as [Hk _].
  - right. split; [reflexivity|].
    destruct (isHttpClientWithZodOutput n); [reflexivity | discriminate].
Qed.

Lemma flatNode_matched (n : Node) :
  flatNode n = true -> unmatched n = false -> nothingMatchedBelow n = true.
Proof. unfold flatNode. intros H Hu. now rewrite Hu in H. Qed.

Lemma removal_is_property (arg removed : Node) :
  In removed (zodOutputRemovals arg) -> In removed (getChildren arg).
Proof.
  unfold zodOutputRemovals, getProperty.
  destruct (isKind ObjectLiteralExpression arg && hasProperty "zodOutput" arg);
    [|intros []].
  intros H. apply in_app_or in H as [H|H].
  - destruct (find _ _) as [p|] eqn:E; [|destruct H].
    destruct H as [<-|[]]. now apply find_some in E.
  - destruct (find (propertyNamed "forceFileTransform") _) as [p|] eqn:E;
      [|destruct H].
    destruct H as [<-|[]]. now apply find_some in E.
Qed.

Lemma in_arguments (n arg : Node) :
  In arg (getArguments n) -> In arg (getChildren n).
Proof.
  unfold getArguments. destruct (getChildren n); [intros []|]. now right.
Qed.

Lemma property_subtree_below (n arg removed m : Node) :
  In arg (getChildren n) -> In removed (getChildren arg) ->
  In m (subtree removed) -> In m (getDescendants n).
Proof.
  intros Harg Hrem Hm. apply (below_child n arg m Harg).
  right. now apply (below_child arg removed m).
Qed.

Lemma constructorRemovalsClean_below (n : Node) :
  nothingMatchedBelow n = true -> constructorRemovalsClean n = true.
Proof.
  intros Hbelow. unfold constructorRemovalsClean.
  apply forallb_forall. intros removed Hrem.
  apply in_flat_map in Hrem as (arg & Harg & Hrem).
  apply negb_true_iff. apply existsb_none. intros m Hm.
  unfold nothingMatchedBelow in Hbelow. rewrite forallb_forall in Hbelow.
  apply (unmatched_split m). apply Hbelow.
  apply (property_subtree_below n arg removed m);
    [now apply in_arguments | now apply removal_is_property | exact Hm].
Qed.

Lemma generation_removal_below (n removed m : Node) :
  In removed (generationOptionRemovals n) ->
  In m (subtree removed) -> In m (getDescendants n).
Proof.
  unfold generationOptionRemovals.
  destruct (nth_error (getArguments n) 1) as [o|] eqn:Eo; [|intros []].
  destruct (isKind ObjectLiteralExpression o); [|intros []].
  intros Hrem Hm.
  assert (Ho : In o (getChildren n)).
  { apply in_arguments. eapply nth_error_In; eauto. }
  apply (property_subtree_below n o removed m Ho); [|exact Hm].
  apply in_flat_map in Hrem as (name & _ & Hrem).
  unfold getProperty in Hrem.
  destruct (find (propertyNamed name) (getChildren o)) as [p|] eqn:E;
    [|destruct Hrem].
  destruct Hrem as [<-|[]]. now apply find_some in E.
Qed.

Lemma callRemovalsClean_below (n : Node) :
  nothingMatchedBelow n = true -> callRemovalsClean n = true.
Proof.
  intros Hbelow. unfold callRemovalsClean.
  apply forallb_forall. intros removed Hrem.
  apply negb_true_iff. apply existsb_none. intros m Hm.
  unfold nothingMatchedBelow in Hbelow. rewrite forallb_forall in Hbelow.
  apply (unmatched_split m). apply Hbelow.
  now apply (generation_removal_below n removed m).
Qed.

Lemma callRemovalsClean_children (a b : Node) :
  getChildren a = getChildren b ->
  callRemovalsClean a = callRemovalsClean b.
Proof.
  intros H. unfold callRemovalsClean, generationOptionRemovals, getArguments.
  now rewrite H.
Qed.

Lemma unmatched_is_clean (x : Node) :
  unmatched x = true -> cleanIfConstructor x = true /\ cleanIfCall x = true.
Proof.
  intros H. destruct (unmatched_split x H) as [Hc Hn].
  unfold cleanIfConstructor, cleanIfCall. now rewrite Hc, Hn.
Qed.

Lemma unmatched_node_typed (k : SyntaxKind) (nm : string) (ta : list string)
  (cs : list Node) :
  unmatched (mkNode k nm ta cs) = true ->
  mapTree typeArgumentEdit (mkNode k nm ta cs)
  = mkNode k nm ta (map (mapTree typeArgumentEdit) cs)
  /\ unmatched (mkNode k nm ta (map (mapTree typeArgumentEdit) cs)) = true.
Proof.
  intros Hu. destruct (unmatched_split _ Hu) as [Hc Hn].
  assert (Hc1 : isKatalistCall
                  (mkNode k nm ta (map (mapTree typeArgumentEdit) cs))
                = false).
  { rewrite isKatalistCall_rebuilt; [exact Hc | apply typeArgumentEdit_gentle]. }
  split.
  - simpl. now apply typeArgumentEdit_skips.
  - unfold unmatched. rewrite Hc1. simpl. apply negb_true_iff.
    apply not_true_iff_false. intros H.
    apply constructor_matched_before_edit in H;
      [congruence
      |apply typeArgumentEdit_gentle
      |apply typeArgumentEdit_or_parenthesis].
Qed.

Lemma unmatched_node_cleaned (k : SyntaxKind) (nm : string) (ta : list string)
  (cs : list Node) :
  unmatched (mkNode k nm ta cs) = true ->
  mapTree zodOutputEdit (mkNode k nm ta cs)
  = mkNode k nm ta (map (mapTree zodOutputEdit) cs)
  /\ unmatched (mkNode k nm ta (map (mapTree zodOutputEdit) cs)) = true.
Proof.
  intros Hu. destruct (unmatched_split _ Hu) as [Hc Hn].
  assert (Hn1 : isHttpClientWithZodOutput
                  (mkNode k nm ta (map (mapTree zodOutputEdit) cs))
                = false).
  { apply not_true_iff_false. intros H.
    apply constructor_matched_before_edit in H;
      [congruence
      |apply zodOutputEdit_gentle
      |apply zodOutputEdit_or_parenthesis]. }
  split.
  - simpl. now apply zodOutputEdit_skips.
  - unfold unmatched. rewrite Hn1.
    rewrite isKatalistCall_rebuilt by apply zodOutputEdit_gentle.
    now rewrite Hc.
Qed.

(** The first pass on a flat subtree leaves constructor calls whose
    removals hold no other constructor call. *)
Lemma flat_typed_ok (n : Node) :
  everywhere flatNode n = true ->
  everywhere cleanIfConstructor (mapTree typeArgumentEdit n) = true.
Proof.
  induction n as [k nm ta cs IH] using Node_induction.
  rewrite Forall_forall in IH. intros Hflat.
  assert (Hnode : flatNode (mkNode k nm ta cs) = true).
  { simpl in Hflat. now apply andb_true_iff in Hflat as [H _]. }
  assert (Hkids : forall c, In c cs -> everywhere flatNode c = true).
  { intros c Hc. apply (everywhere_children _ _ c Hflat). exact Hc. }
  destruct (unmatched (mkNode k nm ta cs)) eqn:Hu.
  - destruct (unmatched_node_typed k nm ta cs Hu) as [-> Hu1].
    apply everywhere_intro.
    + apply (unmatched_is_clean _ Hu1).
    + simpl. intros c' Hc'. apply in_map_iff in Hc' as (c & <- & Hc).
      apply IH; auto.
  - pose proof (flatNode_matched _ Hnode Hu) as Hbelow.
    pose proof (unmatched_below_children _ Hbelow) as Hsub.
    rewrite children_fixed
      by (intros c Hc; apply rewrite_of_unmatched_subtree; now apply Hsub).
    apply everywhere_intro.
    + destruct (matched_cases _ Hu) as [[Hc Hn]|[Hc Hn]].
      * unfold cleanIfConstructor. rewrite call_is_not_constructor; [reflexivity|].
        unfold isKind. rewrite (proj1 (proj1 typeArgumentEdit_gentle _)).
        unfold isKatalistCall in Hc. now apply andb_true_iff in Hc as [Hk _].
      * rewrite typeArgumentEdit_skips by exact Hc.
        unfold cleanIfConstructor.
        rewrite constructorRemovalsClean_below by exact Hbelow.
        apply orb_true_r.
    + rewrite typeArgumentEdit_children. intros c Hc.
      apply everywhere_forall. intros m Hm. apply unmatched_is_clean.
      now apply (Hsub c Hc).
Qed.

(** The first and the third pass on a flat subtree leave located calls
    whose removals hold no other located call. *)
Lemma flat_cleaned_ok (n : Node) :
  everywhere flatNode n = true ->
  everywhere cleanIfCall (mapTree zodOutputEdit (mapTree typeArgumentEdit n))
  = true.
Proof.
  induction n as [k nm ta cs IH] using Node_induction.
  rewrite Forall_forall in IH. intros Hflat.
  assert (Hnode : flatNode (mkNode k nm ta cs) = true).
  { simpl in Hflat. now apply andb_true_iff in Hflat as [H _]. }
  assert (Hkids : forall c, In c cs -> everywhere flatNode c = true).
  { intros c Hc. apply (everywhere_children _ _ c Hflat). exact Hc. }
  destruct (unmatched (mkNode k nm ta cs)) eqn:Hu.
  - destruct (unmatched_node_typed k nm ta cs Hu) as [-> Hu1].
    destruct (unmatched_node_cleaned k nm ta _ Hu1) as [-> Hu3].
    apply everywhere_intro; [apply (unmatched_is_clean _ Hu3)|].
    simpl. intros c'' Hc''. apply in_map_iff in Hc'' as (c' & <- & Hc').
    apply in_map_iff in Hc' as (c & <- & Hc). apply IH; auto.
  - pose proof (flatNode_matched _ Hnode Hu) as Hbelow.
    pose proof (unmatched_below_children _ Hbelow) as Hsub.
    simpl getChildren in Hsub.
    rewrite (children_fixed typeArgumentEdit)
      by (intros c Hc; apply rewrite_of_unmatched_subtree; now apply Hsub).
    destruct (matched_cases _ Hu) as [[Hc Hn]|[Hc Hn]].
    + pose proof (typeArgumentEdit_children (mkNode k nm ta cs)) as Hch.
      simpl getChildren in Hch.
      assert (Hk1 : isKind CallExpression
                      (typeArgumentEdit (mkNode k nm ta cs)) = true).
      { unfold isKind. rewrite (proj1 (proj1 typeArgumentEdit_gentle _)).
        unfold isKatalistCall in Hc. now apply andb_true_iff in Hc as [Hk _]. }
      rewrite (children_fixed zodOutputEdit)
        by (rewrite Hch; intros c Hc';
            apply rewrite_of_unmatched_subtree; now apply (Hsub c)).
      rewrite zodOutputEdit_skips by (now apply call_is_not_constructor).
      apply everywhere_intro.
      * unfold cleanIfCall.
        rewrite (callRemovalsClean_children _ (mkNode k nm ta cs) Hch).
        rewrite callRemovalsClean_below by exact Hbelow. apply orb_true_r.
      * rewrite Hch. intros c Hc'. apply everywhere_forall. intros m Hm.
        apply unmatched_is_clean. now apply (Hsub c Hc').
    + rewrite typeArgumentEdit_skips by exact Hc.
      rewrite (children_fixed zodOutputEdit)
        by (intros c Hc'; apply rewrite_of_unmatched_subtree;
            now apply (Hsub c)).
      unfold zodOutputEdit. rewrite Hn.
      assert (Hk : k = NewExpression).
      { unfold isHttpClientWithZodOutput in Hn.
        apply andb_true_iff in Hn as [Hk _]. now apply isKind_eq in Hk. }
      subst k.
      destruct cs as [|e args].
      * apply everywhere_intro; [reflexivity | intros c []].
      * apply everywhere_intro; [reflexivity|].
        simpl. intros c [<-|Hc'].
        -- apply everywhere_forall. intros m Hm. apply unmatched_is_clean.
           apply (Hsub e); [now left | exact Hm].
        -- apply in_map_iff in Hc' as (arg & <- & Harg).
           apply everywhere_removeZodOutputFrom.
           ++ intros x Hx. unfold cleanIfCall.
              destruct (literal_unmatched x Hx) as [H1 _].
              unfold notKatalistCall in H1. now rewrite H1.
           ++ apply everywhere_forall. intros m Hm. apply unmatched_is_clean.
              apply (Hsub arg); [now right | exact Hm].
Qed.

Lemma flat_statements (sourceFile : SourceFile) :
  flat sourceFile = true ->
  forall s, In s (getStatements sourceFile) -> everywhere flatNode s = true.
Proof.
  unfold flat. rewrite forallb_forall. intros H s Hs.
  apply everywhere_forall. intros m Hm. apply H.
  eapply in_fileDescendants; eauto.
Qed.

Lemma in_file_statement (sourceFile : SourceFile) (m : Node) :
  In m (fileDescendants sourceFile) ->
  exists s, In s (getStatements sourceFile) /\ In m (subtree s).
Proof. unfold fileDescendants. intros H. now apply in_flat_map in H. Qed.

Lemma constructors_complete (sourceFile : SourceFile) :
  (forall s, In s (getStatements sourceFile) ->
             everywhere cleanIfConstructor s = true) ->
  zodOutputRemovalComplete sourceFile = true.
Proof.
  intros H. unfold zodOutputRemovalComplete. apply forallb_forall.
  intros call Hcall. apply located_constructors_in in Hcall as [Hin Hloc].
  destruct (in_file_statement _ _ Hin) as (s & Hs & Hm).
  pose proof (proj1 (everywhere_forall _ _) (H s Hs) call Hm) as Hok.
  unfold cleanIfConstructor in Hok. rewrite Hloc in Hok. exact Hok.
Qed.

Lemma calls_complete (sourceFile : SourceFile) :
  (forall s, In s (getStatements sourceFile) ->
             everywhere cleanIfCall s = true) ->
  generationOptionsRemovalComplete sourceFile = true.
Proof.
  intros H. unfold generationOptionsRemovalComplete. apply forallb_forall.
  intros call Hcall. apply located_calls_in in Hcall as [Hin Hloc].
  destruct (in_file_statement _ _ Hin) as (s & Hs & Hm).
  pose proof (proj1 (everywhere_forall _ _) (H s Hs) call Hm) as Hok.
  unfold cleanIfCall in Hok. rewrite Hloc in Hok. exact Hok.
Qed.

(** X15. The four passes complete, none of them raising, on every file
    in which no matched node holds another matched node (no tagged call
    or [HttpClient] constructor inside the arguments of another) and
    whose calls to type are read back, from their new text, as the calls
    with their type argument; the statements written are the statements
    rewritten by the three tree edits. *)
Theorem flat_file_run_completes (host : Host) (sourceFile : SourceFile) :
  flat sourceFile = true ->
  typedAsWritten host sourceFile ->
  exists transformed,
    transformSourceFile host sourceFile = Some transformed
    /\ getStatements transformed
       = map (rewrite host (getFilePath sourceFile)) (getStatements sourceFile)
    /\ getStatements transformed
       = map rewriteAsWritten (getStatements sourceFile).
Proof.
  intros Hflat Hwritten.
  assert (H1 : typeParametersComplete host sourceFile = true).
  { unfold typeParametersComplete. apply forallb_forall. intros c Hc.
    destruct (typeNameToAdd c) as [T|] eqn:Htype; [|reflexivity].
    unfold replaceWithTypeParameter. rewrite (Hwritten c T Hc Htype).
    apply negb_true_iff. apply existsb_none. intros m Hm.
    apply located_calls_in in Hc as [Hin Hloc].
    unfold flat in Hflat. rewrite forallb_forall in Hflat.
    assert (Hu : unmatched c = false) by (unfold unmatched; now rewrite Hloc).
    pose proof (flatNode_matched c (Hflat c Hin) Hu) as Hb.
    unfold nothingMatchedBelow in Hb. rewrite forallb_forall in Hb.
    apply (unmatched_split m (Hb m Hm)). }
  pose proof (typed_as_written_statements host sourceFile Hwritten H1)
    as Htyped.
  assert (Hrun : exists transformed,
             transformSourceFile host sourceFile = Some transformed).
  { unfold transformSourceFile, addTypeParametersToKatalistCalls.
    rewrite H1, Htyped.
    unfold removeZodOutput. rewrite constructors_complete.
    2:{ simpl. intros s' Hs'. apply in_map_iff in Hs' as (s & <- & Hs).
        apply flat_typed_ok. now apply (flat_statements sourceFile). }
    unfold removeSchemaGenerationOptions. rewrite calls_complete.
    2:{ simpl. intros s' Hs'. apply in_map_iff in Hs' as (s1 & <- & Hs1).
        apply in_map_iff in Hs1 as (s & <- & Hs).
        apply flat_cleaned_ok. now apply (flat_statements sourceFile). }
    eexists. reflexivity. }
  destruct Hrun as (transformed & Hrun). exists transformed.
  split; [exact Hrun|]. split.
  - exact (proj1 (proj2 (transform_result host sourceFile transformed Hrun))).
  - exact (proj1 (transform_result_as_written host sourceFile transformed
                    Hwritten Hrun)).
Qed.

Lemma flat_file_run_completes_witness :
  exists transformed,
    transformSourceFile Build.sampleHost Build.integrationSource
    = Some transformed
    /\ getStatements transformed
       = map (rewrite Build.sampleHost (getFilePath Build.integrationSource))
           (getStatements Build.integrationSource)
    /\ getStatements transformed
       = map rewriteAsWritten (getStatements Build.integrationSource).
Proof.
  apply (flat_file_run_completes Build.sampleHost Build.integrationSource);
    [reflexivity | typed_as_written].
Defined.

End CompletionFacts.

Module BindingFacts.
Import JsString Ast Transformer Bindings.
Import TreeFacts TransformerFacts.
#[local] Arguments Ascii.eqb : simpl never.

Lemma orAnonymous_not_empty (x : string) : orAnonymous x <> EmptyString.
Proof.
  unfold orAnonymous. destruct (String.eqb x EmptyString) eqn:E.
  - discriminate.
  - now apply String.eqb_neq in E.
Qed.

Lemma getNodeName_not_empty (n : Node) : getNodeName n <> EmptyString.
Proof.
  unfold getNodeName.
  destruct (isKind VariableDeclaration n); [apply orAnonymous_not_empty|].
  destruct (isKind FunctionDeclaration n); [apply orAnonymous_not_empty|].
  destruct (isKind FunctionExpression n); [apply orAnonymous_not_empty|].
  discriminate.
Qed.

Lemma function_name_not_empty (ancestors : list Node) :
  findContainingFunctionName ancestors <> EmptyString.
Proof.
  induction ancestors as [|current above IH]; [discriminate|].
  cbn [findContainingFunctionName].
  destruct (isKind FunctionDeclaration current || isKind FunctionExpression current);
    [apply getNodeName_not_empty|].
  destruct (isKind ArrowFunction current).
  - destruct above as [|parent above']; [discriminate|].
    destruct (isKind VariableDeclaration parent);
      [apply getNodeName_not_empty | discriminate].
  - destruct (isFunctionVariableDeclaration current);
      [apply getNodeName_not_empty | exact IH].
Qed.

Lemma walk_skips (before rest : list Node) :
  (forall a, In a before -> stopsWalk a = false) ->
  findContainingFunctionName (before ++ rest)%list
  = findContainingFunctionName rest.
Proof.
  induction before as [|a before IH]; intros H; [reflexivity|].
  pose proof (H a (or_introl eq_refl)) as Ha. unfold stopsWalk in Ha.
  apply orb_false_iff in Ha as [Ha Hv].
  apply orb_false_iff in Ha as [Ha Harrow].
  cbn [app findContainingFunctionName]. rewrite Ha, Harrow, Hv.
  apply IH. intros x Hx. apply H. now right.
Qed.

(** X16. [findContainingFunctionName] is decided by the nearest
    ancestor that is a function declaration, a function expression, an
    arrow function or a variable initialised with one: ancestors below
    it are skipped, and without any the name is ["global"].  For an
    arrow function the name is the one of the variable it initialises,
    and ["anonymous"] when its parent is no variable declaration; for a
    function expression it is the expression's own name, and
    ["anonymous"] when it has none, also when the expression initialises
    a variable.  The name is never empty. *)
Theorem containing_function_is_the_nearest (before : list Node) :
  (forall a, In a before -> stopsWalk a = false) ->
  findContainingFunctionName before = "global"
  /\ (forall rest,
        findContainingFunctionName (before ++ rest)%list
        = findContainingFunctionName rest)
  /\ (forall fn v above,
        isKind ArrowFunction fn = true ->
        isKind VariableDeclaration v = true ->
        findContainingFunctionName (before ++ fn :: v :: above)%list
        = orAnonymous (getName v))
  /\ (forall fn v above,
        isKind ArrowFunction fn = true ->
        isKind VariableDeclaration v = false ->
        findContainingFunctionName (before ++ fn :: v :: above)%list
        = "anonymous")
  /\ (forall fn above,
        isKind FunctionExpression fn = true ->
        findContainingFunctionName (before ++ fn :: above)%list
        = orAnonymous (getName fn))
  /\ (forall rest,
        findContainingFunctionName (before ++ rest)%list <> EmptyString).
Proof.
  intros H. split; [|split; [|split; [|split; [|split]]]].
  - rewrite <- (app_nil_r before). now rewrite walk_skips.
  - intros rest. now apply walk_skips.
  - intros fn v above Hfn Hv. rewrite (walk_skips _ _ H).
    cbn [findContainingFunctionName].
    assert (Hk : isKind FunctionDeclaration fn || isKind FunctionExpression fn
                 = false).
    { apply isKind_eq in Hfn. unfold isKind. now rewrite Hfn. }
    rewrite Hk, Hfn, Hv. unfold getNodeName. now rewrite Hv.
  - intros fn v above Hfn Hv. rewrite (walk_skips _ _ H).
    cbn [findContainingFunctionName].
    assert (Hk : isKind FunctionDeclaration fn || isKind FunctionExpression fn
                 = false).
    { apply isKind_eq in Hfn. unfold isKind. now rewrite Hfn. }
    now rewrite Hk, Hfn, Hv.
  - intros fn above Hfn. rewrite (walk_skips _ _ H).
    cbn [findContainingFunctionName]. rewrite Hfn, orb_true_r.
    unfold getNodeName. rewrite Hfn.
    apply isKind_eq in Hfn. unfold isKind. now rewrite Hfn.
  - intros rest. apply function_name_not_empty.
Qed.

Lemma containing_function_is_the_nearest_witness :
  findContainingFunctionName
    [Build.tok "{"; mkNode FunctionExpression EmptyString [] [];
     mkNode VariableDeclaration "g" [] []]
  = "anonymous".
Proof.
  apply (containing_function_is_the_nearest [Build.tok "{"]).
  - intros a [<-|[]]. reflexivity.
  - reflexivity.
Defined.

Lemma step_cases (names : option (list string)) (state : BindingMap * bool)
  (site : Node * list Node) :
  extractionStep names state site = state
  \/ exists b,
       bindingOf site = Some b
       /\ extractionStep names state site
          = (mapSet (fst b) (snd b) (fst state), true).
Proof.
  destruct state as [m flag]. destruct site as [call ancestors].
  unfold extractionStep, bindingOf. cbn [fst snd].
  destruct ancestors as [|parent above]; [now left|].
  destruct (isKind VariableDeclaration parent); [|now left]. cbn [negb].
  destruct (_ && _ && _); [now left|].
  destruct (_ && flag); [now left|].
  destruct (extractTypeFromHttpClientArgs (getArguments call)) as [T|];
    [|now left].
  right. eexists. split; reflexivity.
Qed.

Lemma step_unfiltered (state : BindingMap * bool) (site : Node * list Node) :
  fst (extractionStep None state site)
  = match bindingOf site with
    | Some b => mapSet (fst b) (snd b) (fst state)
    | None => fst state
    end.
Proof.
  destruct state as [m flag]. destruct site as [call ancestors].
  unfold extractionStep, bindingOf. cbn [fst snd].
  destruct ancestors as [|parent above]; [reflexivity|].
  destruct (isKind VariableDeclaration parent); [|reflexivity]. cbn.
  destruct (extractTypeFromHttpClientArgs (getArguments call)); reflexivity.
Qed.

Lemma fold_unfiltered (sites : list (Node * list Node))
  (state : BindingMap * bool) :
  fst (fold_left (extractionStep None) sites state)
  = fold_left (fun acc b => mapSet (fst b) (snd b) acc)
      (flat_map (fun site => match bindingOf site with
                             | Some b => [b]
                             | None => []
                             end) sites)
      (fst state).
Proof.
  revert state. induction sites as [|site rest IH]; intros state; [reflexivity|].
  cbn [fold_left flat_map]. rewrite IH, step_unfiltered.
  destruct (bindingOf site); reflexivity.
Qed.

Lemma mapGet_mapSet (key k : string) (v : HttpClientInfo) (m : BindingMap) :
  mapGet key (mapSet k v m)
  = if String.eqb k key then Some v else mapGet key m.
Proof.
  unfold mapGet. induction m as [|[k0 v0] m IH]; cbn [mapSet find fst].
  - now destruct (String.eqb k key).
  - destruct (String.eqb k0 k) eqn:E.
    + apply String.eqb_eq in E. subst k0. cbn [find fst].
      now destruct (String.eqb k key).
    + cbn [find fst]. destruct (String.eqb k0 key) eqn:E0.
      * apply String.eqb_eq in E0. subst k0.
        rewrite String.eqb_sym, E. reflexivity.
      * exact IH.
Qed.

Lemma find_app {A : Type} (f : A -> bool) (l1 l2 : list A) :
  find f (l1 ++ l2)%list
  = match find f l1 with Some x => Some x | None => find f l2 end.
Proof.
  induction l1 as [|a l1 IH]; [reflexivity|].
  simpl. now destruct (f a).
Qed.

Lemma mapGet_fold (key : string) (bs : list (string * HttpClientInfo))
  (m : BindingMap) :
  mapGet key (fold_left (fun acc b => mapSet (fst b) (snd b) acc) bs m)
  = match find (fun b => String.eqb (fst b) key) (rev bs) with
    | Some b => Some (snd b)
    | None => mapGet key m
    end.
Proof.
  revert m. induction bs as [|b bs IH]; intros m; [reflexivity|].
  cbn [fold_left rev]. rewrite IH, find_app, mapGet_mapSet.
  destruct (find _ (rev bs)); [reflexivity|].
  cbn [find]. now destruct (String.eqb (fst b) key).
Qed.

Lemma in_mapSet_entry (k : string) (v : HttpClientInfo) (m : BindingMap)
  (entry : string * HttpClientInfo) :
  In entry (mapSet k v m) -> entry = (k, v) \/ In entry m.
Proof.
  induction m as [|[k0 v0] m IH]; cbn [mapSet].
  - intros [<-|[]]. now left.
  - destruct (String.eqb k0 k) eqn:E.
    + apply String.eqb_eq in E. subst k0.
      intros [<-|H]; [now left | right; now right].
    + intros [<-|H]; [right; now left|].
      destruct (IH H) as [->|Hm]; [now left | right; now right].
Qed.

Lemma mapSet_keeps_keys_distinct (k : string) (v : HttpClientInfo)
  (m : BindingMap) :
  NoDup (map fst m) -> NoDup (map fst (mapSet k v m)).
Proof.
  induction m as [|[k0 v0] m IH]; cbn [mapSet map fst]; intros H.
  - constructor; [intros [] | constructor].
  - inversion H as [|x l Hnot Hrest]; subst.
    destruct (String.eqb k0 k) eqn:E; cbn [map fst]; [exact H|].
    constructor; [|now apply IH].
    intros Hin. apply in_map_iff in Hin as (entry & Hk & Hin).
    destruct (in_mapSet_entry _ _ _ _ Hin) as [->|Hm].
    + cbn [fst] in Hk. subst k0. now rewrite String.eqb_refl in E.
    + apply Hnot. rewrite <- Hk. now apply in_map.
Qed.

Lemma fold_invariant (names : option (list string))
  (P : BindingMap -> Prop) (sites : list (Node * list Node))
  (state : BindingMap * bool) :
  (forall m site b, P m -> In site sites -> bindingOf site = Some b ->
                    P (mapSet (fst b) (snd b) m)) ->
  P (fst state) ->
  P (fst (fold_left (extractionStep names) sites state)).
Proof.
  revert state. induction sites as [|site rest IH]; intros state Hstep H0;
    [exact H0|].
  cbn [fold_left]. apply IH.
  - intros m s b Hm Hs. apply Hstep; [exact Hm | now right].
  - destruct (step_cases names state site) as [->|(b & Hb & ->)]; [exact H0|].
    cbn [fst]. apply (Hstep _ site b H0); [now left | exact Hb].
Qed.

(** X17. The map [extractHttpClientVariablesWithZodOutput] returns
    holds no key twice, whatever the filter, and each of its entries is
    the binding [variable:function -> type] of a constructor site of the
    file.  Without a filter, the entry of a key is the last binding of
    the file, in source order, made under that key: clients declared
    under one variable name in functions of one name (two anonymous
    callbacks, say) share the key, and the later schema replaces the
    earlier. *)
Theorem binding_map_is_keyed (sourceFile : SourceFile)
  (names : option (list string)) :
  NoDup (map fst (extractHttpClientVariablesWithZodOutput sourceFile names))
  /\ (forall entry,
        In entry (extractHttpClientVariablesWithZodOutput sourceFile names) ->
        In entry (allBindings sourceFile))
  /\ (forall key,
        mapGet key (extractHttpClientVariablesWithZodOutput sourceFile None)
        = option_map snd
            (find (fun b => String.eqb (fst b) key)
               (rev (allBindings sourceFile)))).
Proof.
  unfold extractHttpClientVariablesWithZodOutput. split; [|split].
  - apply (fold_invariant names (fun m => NoDup (map fst m))).
    + intros m site b Hm _ _. now apply mapSet_keeps_keys_distinct.
    + constructor.
  - apply (fold_invariant names
             (fun m => forall entry, In entry m ->
                                     In entry (allBindings sourceFile))).
    + intros m site b Hm Hs Hb entry Hin.
      destruct (in_mapSet_entry _ _ _ _ Hin) as [->|Hold]; [|now apply Hm].
      unfold allBindings. apply in_flat_map. exists site. split; [exact Hs|].
      rewrite Hb. left. now destruct b.
    + intros entry [].
  - intros key. rewrite fold_unfiltered, mapGet_fold. cbn [fst].
    unfold allBindings.
    now destruct (find _ _).
Qed.

End BindingFacts.

Module FacadeEffectFacts.
Import JsString SchemaSynthesis Facade SchemaModule FacadeEffects FacadeSamples.

Lemma bindT_completion {A B : Type} (m : traced A) (k : A -> traced B) :
  snd (bindT m k) = bind (snd m) (fun a => snd (k a)).
Proof.
  destruct m as [log [a|e]]; [|reflexivity].
  simpl. now destruct (k a).
Qed.

Lemma generateSchemaT_completion (c : Collaborators) (data : json)
  (name : string) :
  snd (generateSchemaT c data name) = generateSchemaFile c data name.
Proof.
  unfold generateSchemaT, generateSchemaFile. rewrite bindT_completion.
  reflexivity.
Qed.

Lemma guardedTransformT_completion (c : Collaborators)
  (o : KatalistGeneratingSchemaOptions) :
  snd (guardedTransformT c o) = guardedTransform c o.
Proof.
  unfold guardedTransformT, guardedTransform.
  destruct (given (sourceFile o)); [|reflexivity].
  rewrite bindT_completion. reflexivity.
Qed.

Lemma afterResponseT_completion (v : verb) (c : Collaborators)
  (o : KatalistGeneratingSchemaOptions) :
  snd (afterResponseT v c o) = afterResponse v c o.
Proof.
  destruct v; cbn [afterResponseT afterResponse];
    unfold afterResponseGetT, afterResponseGet, afterResponseOtherT,
      afterResponseOther;
    destruct (generateSchema o && given (interfaceName o));
    rewrite ?bindT_completion; cbn [lift ret snd];
    try (rewrite guardedTransformT_completion; reflexivity);
    try reflexivity.
  all: destruct (responseJson c) as [body|e]; cbn [bind]; try reflexivity.
  all: rewrite ?bindT_completion; cbn [bind snd ret].
  all: destruct body as [|b|l|s|[|first rest]|members];
    cbn [bind snd ret];
    rewrite ?bindT_completion, ?generateSchemaT_completion,
      ?guardedTransformT_completion;
    try reflexivity.
  all: try (destruct (typeofObject first);
            rewrite ?bindT_completion, ?generateSchemaT_completion;
            cbn [snd ret];
            try reflexivity).
  all: try (destruct (generateSchemaFile c _ _); cbn [bind];
            rewrite ?guardedTransformT_completion; reflexivity).
Qed.

(** The effects aside, the traced facade is the facade. *)
Lemma callT_completion {Response : Type} (v : verb) (c : Collaborators)
  (o : KatalistGeneratingSchemaOptions) (data : option json)
  (response : Response) :
  snd (callT v c o data response) = call v c o data response.
Proof.
  unfold callT, call. rewrite bindT_completion.
  assert (Hin : snd (inputSchemaStepT v c (withDetectedSource v c o) data)
                = inputSchemaStep v c (withDetectedSource v c o) data).
  { unfold inputSchemaStepT, inputSchemaStep.
    destruct v, data as [[| | | | |members]|]; try reflexivity;
      destruct (generateInputSchema _ && _); try reflexivity;
      apply generateSchemaT_completion. }
  rewrite Hin. destruct (inputSchemaStep _ _ _ _); [|reflexivity].
  cbn [bind]. rewrite bindT_completion, afterResponseT_completion.
  reflexivity.
Qed.

(** The effect of the guarded call: one call of the transformer when a
    source file is set, and a normal return whatever the transformer
    does. *)
Lemma guardedTransformT_value (c : Collaborators)
  (o : KatalistGeneratingSchemaOptions) :
  guardedTransformT c o
  = (if given (sourceFile o) then [Transform (textOf (sourceFile o))] else [],
     Returned tt).
Proof.
  unfold guardedTransformT. destruct (given (sourceFile o)); [|reflexivity].
  cbn. now destruct (transform c (textOf (sourceFile o))).
Qed.

Lemma generateSchemaT_value (c : Collaborators) (data : json) (name : string) :
  generateSchemaT c data name
  = match jsonToZodSchema c data name with
    | Returned zodSchema =>
        ([SchemaWrite zodSchema name (schemaPath name)], Returned tt)
    | Thrown e => ([], Thrown e)
    end.
Proof.
  unfold generateSchemaT. now destruct (jsonToZodSchema c data name).
Qed.

Lemma withDetectedSource_fields (v : verb) (c : Collaborators)
  (o : KatalistGeneratingSchemaOptions) :
  generateSchema (withDetectedSource v c o) = generateSchema o
  /\ interfaceName (withDetectedSource v c o) = interfaceName o
  /\ generateInputSchema (withDetectedSource v c o) = generateInputSchema o
  /\ inputInterfaceName (withDetectedSource v c o) = inputInterfaceName o
  /\ (given (sourceFile o) = true ->
      withDetectedSource v c o = o).
Proof.
  unfold withDetectedSource.
  destruct (_ && negb (given (sourceFile o))) eqn:E.
  - destruct (CallerDetection.getCallerFilePath (stack c)) as [d|].
    + destruct (negb (String.eqb d EmptyString)); repeat split;
        intros H; rewrite H in E; now rewrite andb_false_r in E.
    + repeat split.
  - repeat split.
Qed.

(** X18. When no output schema is asked for ([generateSchema] off, or
    no [interfaceName]), [get] does nothing besides the request: the
    body is not read, nothing is written, and the transformer is not
    called, even when a [sourceFile] is given.  [delete] under the same
    options still calls the transformer on a given [sourceFile], and so
    do [post] and [put] when no input schema is asked for either. *)
Theorem verbs_without_schema_request {Response : Type} (c : Collaborators)
  (o : KatalistGeneratingSchemaOptions) (data : option json)
  (response : Response) :
  generateSchema o && given (interfaceName o) = false ->
  callT GET c o data response = ([], Returned response)
  /\ callT DELETE c o data response
     = (if given (sourceFile o)
        then [Transform (textOf (sourceFile o))] else [],
        Returned response)
  /\ (generateSchema o = false -> generateInputSchema o = false ->
      callT POST c o data response
      = (if given (sourceFile o)
         then [Transform (textOf (sourceFile o))] else [],
         Returned response)
      /\ callT PUT c o data response
         = (if given (sourceFile o)
            then [Transform (textOf (sourceFile o))] else [],
            Returned response)).
Proof.
  intros H. split; [|split].
  - unfold callT, withDetectedSource. rewrite H. cbn [andb].
    unfold afterResponseT, afterResponseGetT. rewrite H.
    now destruct data.
  - unfold callT, withDetectedSource. rewrite H. cbn [andb].
    unfold afterResponseT, afterResponseOtherT. rewrite H.
    cbn [inputSchemaStepT bindT ret]. rewrite guardedTransformT_value.
    cbn. destruct (given (sourceFile o)); reflexivity.
  - intros Hg Hi.
    assert (Hpost : forall v, v = POST \/ v = PUT ->
              callT v c o data response
              = (if given (sourceFile o)
                 then [Transform (textOf (sourceFile o))] else [],
                 Returned response)).
    { intros v Hv. unfold callT.
      assert (Ho : withDetectedSource v c o = o).
      { unfold withDetectedSource. destruct Hv as [-> | ->];
          now rewrite Hg, Hi. }
      rewrite Ho.
      assert (Hin : inputSchemaStepT v c o data = ret tt).
      { unfold inputSchemaStepT. rewrite Hi.
        destruct Hv as [-> | ->]; now destruct data as [[]|]. }
      rewrite Hin.
      assert (Haft : afterResponseT v c o = guardedTransformT c o).
      { destruct Hv as [-> | ->]; cbn [afterResponseT];
          unfold afterResponseOtherT; rewrite H; cbn [bindT ret];
          now destruct (guardedTransformT c o). }
      rewrite Haft, guardedTransformT_value. cbn.
      destruct (given (sourceFile o)); reflexivity. }
    split; apply Hpost; [now left | now right].
Qed.

Lemma verbs_without_schema_request_witness :
  callT GET transformFails
    {| generateSchema := false;
       interfaceName := Some "User";
       generateInputSchema := false;
       inputInterfaceName := None;
       sourceFile := Some "/proj/src/api.ts" |} None tt
  = ([], Returned tt).
Proof.
  apply (verbs_without_schema_request transformFails
           {| generateSchema := false;
              interfaceName := Some "User";
              generateInputSchema := false;
              inputInterfaceName := None;
              sourceFile := Some "/proj/src/api.ts" |} None tt).
  reflexivity.
Defined.

Lemma bindT_ret {A B : Type} (a : A) (k : A -> traced B) :
  bindT (ret a) k = k a.
Proof. unfold bindT, ret. now destruct (k a). Qed.

Lemma bindT_then_ret {A B : Type} (m : traced A) (b : B) :
  bindT m (fun _ => ret b)
  = (fst m, match snd m with
            | Returned _ => Returned b
            | Thrown e => Thrown e
            end).
Proof.
  destruct m as [log [a|e]]; [|reflexivity]. cbn. now rewrite app_nil_r.
Qed.

(** The synthesis of the schema module followed by the guarded call of
    the transformer. *)
Lemma synthesis_then_transform (c : Collaborators)
  (o : KatalistGeneratingSchemaOptions) (body : json) (name : string) :
  bindT (generateSchemaT c body name) (fun _ => guardedTransformT c o)
  = match jsonToZodSchema c body name with
    | Returned zodSchema =>
        ((SchemaWrite zodSchema name (schemaPath name)
          :: (if given (sourceFile o)
              then [Transform (textOf (sourceFile o))] else []))%list,
         Returned tt)
    | Thrown e => ([], Thrown e)
    end.
Proof.
  rewrite generateSchemaT_value.
  destruct (jsonToZodSchema c body name); [|reflexivity].
  cbn [bindT]. now rewrite guardedTransformT_value.
Qed.

(** X19. What [get] does once the body is read, by the shape of the
    body, when an output schema is asked for: for an object, and for an
    array whose first element is an object, an array or [null], the
    schema module is synthesized from the whole body and its write
    started at [./http-schemas/<interfaceName>.ts], and then the
    transformer is called on the source file; for an empty array or an
    array whose first element is a scalar, the hook returns at once,
    without schema and without transformation; for any other body
    ([null], a number, a string, a boolean) there is no schema, and the
    transformer is called all the same. *)
Theorem get_by_response_shape {Response : Type} (c : Collaborators)
  (o : KatalistGeneratingSchemaOptions) (data : option json)
  (response : Response) (body : json) :
  generateSchema o && given (interfaceName o) = true ->
  responseJson c = Returned body ->
  let o' := withDetectedSource GET c o in
  let name := textOf (interfaceName o) in
  let transformation :=
    if given (sourceFile o') then [Transform (textOf (sourceFile o'))]
    else [] in
  let synthesized :=
    match jsonToZodSchema c body name with
    | Returned zodSchema =>
        ((SchemaWrite zodSchema name ("./http-schemas/" ++ name ++ ".ts")
          :: transformation)%list,
         Returned response)
    | Thrown e => ([], Thrown e)
    end in
  callT GET c o data response
  = match body with
    | JObject _ => synthesized
    | JArray [] => ([], Returned response)
    | JArray (first :: _) =>
        if typeofObject first then synthesized else ([], Returned response)
    | _ => (transformation, Returned response)
    end.
Proof.
  intros Hreq Hbody. cbv zeta.
  destruct (withDetectedSource_fields GET c o) as (Hg & Hn & _).
  unfold callT.
  assert (Hin : inputSchemaStepT GET c (withDetectedSource GET c o) data
                = ret tt) by (now destruct data).
  rewrite Hin, bindT_ret, bindT_then_ret.
  unfold afterResponseT, afterResponseGetT.
  rewrite Hg, Hn, Hreq, Hbody.
  change (lift (Returned body)) with (ret body). rewrite bindT_ret.
  set (o' := withDetectedSource GET c o).
  set (name := textOf (interfaceName o)).
  assert (Hsyn : (fst (bindT (generateSchemaT c body name)
                         (fun _ => guardedTransformT c o')),
                  match snd (bindT (generateSchemaT c body name)
                               (fun _ => guardedTransformT c o')) with
                  | Returned _ => Returned response
                  | Thrown e => Thrown e
                  end)
                 = match jsonToZodSchema c body name with
                   | Returned zodSchema =>
                       ((SchemaWrite zodSchema name
                           ("./http-schemas/" ++ name ++ ".ts")
                         :: (if given (sourceFile o')
                             then [Transform (textOf (sourceFile o'))]
                             else []))%list,
                        Returned response)
                   | Thrown e => ([], Thrown e)
                   end).
  { rewrite synthesis_then_transform. unfold schemaPath.
    now destruct (jsonToZodSchema c body name). }
  rewrite guardedTransformT_value in *.
  destruct body as [|b|l|s|[|first rest]|members];
    try reflexivity; try exact Hsyn.
  destruct (typeofObject first); cbv iota; [exact Hsyn | reflexivity].
Qed.

Lemma get_by_response_shape_witness :
  callT GET
    {| stack := None;
       responseJson := Returned (JArray []);
       generate := inferSchema;
       jsonSchemaToZod := fun _ => Returned "z.array(z.any())";
       transform := fun _ => Returned "formatted" |}
    userOptions None tt
  = ([], Returned tt).
Proof.
  apply (get_by_response_shape
           {| stack := None;
              responseJson := Returned (JArray []);
              generate := inferSchema;
              jsonSchemaToZod := fun _ => Returned "z.array(z.any())";
              transform := fun _ => Returned "formatted" |}
           userOptions None tt (JArray [])); reflexivity.
Defined.

Lemma inputSchemaStepT_cases (v : verb) (c : Collaborators)
  (o : KatalistGeneratingSchemaOptions) (data : option json) :
  inputSchemaStepT v c o data = ([], Returned tt)
  \/ (exists e, inputSchemaStepT v c o data = ([], Thrown e))
  \/ ((v = POST \/ v = PUT)
      /\ exists zodSchema,
           inputSchemaStepT v c o data
           = ([SchemaWrite zodSchema (textOf (inputInterfaceName o))
                 (schemaPath (textOf (inputInterfaceName o)))],
              Returned tt)).
Proof.
  unfold inputSchemaStepT.
  destruct v, data as [[| | | | |members]|]; try (now left);
    destruct (generateInputSchema o && given (inputInterfaceName o));
    try (now left);
    rewrite generateSchemaT_value;
    destruct (jsonToZodSchema c _ _) as [z|e];
    try (right; left; now exists e);
    right; right; (split; [auto | now exists z]).
Qed.

Lemma afterResponseT_cases (v : verb) (c : Collaborators)
  (o : KatalistGeneratingSchemaOptions) :
  let transformation :=
    if given (sourceFile o) then [Transform (textOf (sourceFile o))] else [] in
  afterResponseT v c o = ([], Returned tt)
  \/ (exists e, afterResponseT v c o = ([], Thrown e))
  \/ afterResponseT v c o = (transformation, Returned tt)
  \/ (exists zodSchema,
        afterResponseT v c o
        = ((SchemaWrite zodSchema (textOf (interfaceName o))
              (schemaPath (textOf (interfaceName o)))
            :: transformation)%list,
           Returned tt)).
Proof.
  intros transformation.
  assert (Hsyn : forall body,
             (exists e,
                 bindT (generateSchemaT c body (textOf (interfaceName o)))
                   (fun _ => guardedTransformT c o) = ([], Thrown e))
             \/ (exists zodSchema,
                    bindT (generateSchemaT c body (textOf (interfaceName o)))
                      (fun _ => guardedTransformT c o)
                    = ((SchemaWrite zodSchema (textOf (interfaceName o))
                          (schemaPath (textOf (interfaceName o)))
                        :: transformation)%list,
                       Returned tt))).
  { intros body. rewrite synthesis_then_transform.
    destruct (jsonToZodSchema c body _) as [z|e];
      [right; now exists z | left; now exists e]. }
  assert (Hguard : guardedTransformT c o = (transformation, Returned tt))
    by apply guardedTransformT_value.
  assert (Hother : afterResponseOtherT c o = ([], Returned tt)
                   \/ (exists e, afterResponseOtherT c o = ([], Thrown e))
                   \/ afterResponseOtherT c o = (transformation, Returned tt)
                   \/ (exists zodSchema,
                         afterResponseOtherT c o
                         = ((SchemaWrite zodSchema (textOf (interfaceName o))
                               (schemaPath (textOf (interfaceName o)))
                             :: transformation)%list,
                            Returned tt))).
  { unfold afterResponseOtherT.
    destruct (generateSchema o && given (interfaceName o));
      [|rewrite bindT_ret; right; right; left; exact Hguard].
    destruct (responseJson c) as [body|e]; [|right; left; now exists e].
    change (lift (Returned body)) with (ret body). rewrite bindT_ret.
    destruct body as [|b|l|s|elements|members];
      try (rewrite bindT_ret; right; right; left; exact Hguard).
    destruct (Hsyn (JObject members)) as [H|H];
      [right; left; exact H | right; right; right; exact H]. }
  destruct v; cbn [afterResponseT]; try exact Hother.
  unfold afterResponseGetT.
  destruct (generateSchema o && given (interfaceName o)); [|now left].
  destruct (responseJson c) as [body|e]; [|right; left; now exists e].
  change (lift (Returned body)) with (ret body). rewrite bindT_ret.
  destruct body as [|b|l|s|[|first rest]|members];
    try (right; right; left; exact Hguard); try (now left).
  - destruct (typeofObject first); [|now left].
    destruct (Hsyn (JArray (first :: rest))) as [H|H];
      [right; left; exact H | right; right; right; exact H].
  - destruct (Hsyn (JObject members)) as [H|H];
      [right; left; exact H | right; right; right; exact H].
Qed.

Lemma bindT_returned {A B : Type} (log : list effect) (a : A)
  (k : A -> traced B) :
  bindT (log, Returned a) k = ((log ++ fst (k a))%list, snd (k a)).
Proof. cbn. now destruct (k a). Qed.

(** X20. The effects of any call of a verb, in order: at most one
    schema write for the request body ([post] and [put] only), then at
    most one for the response body, then at most one call of the
    transformer.  Each write goes to [./http-schemas/<name>.ts] under
    the interface name it was asked for; the transformer is called on
    the source file of the options, the detected one only when none was
    given; and when the call is rejected (the body is not JSON, or a
    synthesis fails) the transformer has not been called. *)
Theorem effects_of_a_call {Response : Type} (v : verb) (c : Collaborators)
  (o : KatalistGeneratingSchemaOptions) (data : option json)
  (response : Response) :
  exists inputWrite outputWrite transformation,
    fst (callT v c o data response)
    = (inputWrite ++ outputWrite ++ transformation)%list
    /\ (inputWrite = []
        \/ ((v = POST \/ v = PUT)
            /\ exists zodSchema,
                 inputWrite
                 = [SchemaWrite zodSchema (textOf (inputInterfaceName o))
                      ("./http-schemas/" ++ textOf (inputInterfaceName o)
                       ++ ".ts")]))
    /\ (outputWrite = []
        \/ exists zodSchema,
             outputWrite
             = [SchemaWrite zodSchema (textOf (interfaceName o))
                  ("./http-schemas/" ++ textOf (interfaceName o) ++ ".ts")])
    /\ (transformation = []
        \/ (given (sourceFile (withDetectedSource v c o)) = true
            /\ transformation
               = [Transform (textOf (sourceFile (withDetectedSource v c o)))]))
    /\ (given (sourceFile o) = true ->
        sourceFile (withDetectedSource v c o) = sourceFile o)
    /\ (forall e, snd (callT v c o data response) = Thrown e ->
                  transformation = []).
Proof.
  destruct (withDetectedSource_fields v c o) as (_ & Hn & _ & Hi & Hsame).
  assert (Hkeep : given (sourceFile o) = true ->
                  sourceFile (withDetectedSource v c o) = sourceFile o)
    by (intros H; now rewrite (Hsame H)).
  unfold callT. set (o' := withDetectedSource v c o) in *.
  assert (Htail : forall log : list effect,
             log = (if given (sourceFile o')
                    then [Transform (textOf (sourceFile o'))] else []) ->
             log = [] \/ (given (sourceFile o') = true
                          /\ log = [Transform (textOf (sourceFile o'))])).
  { intros log ->. destruct (given (sourceFile o')); [right|left]; auto. }
  destruct (inputSchemaStepT_cases v c o' data)
    as [Hin|[(e & Hin)|(Hv & z & Hin)]]; rewrite Hin.
  - rewrite bindT_returned, bindT_then_ret. cbn [fst snd app].
    destruct (afterResponseT_cases v c o')
      as [Ha|[(e & Ha)|[Ha|(z & Ha)]]]; rewrite Ha; cbn [fst snd].
    + exists [], [], []. repeat split; auto.
    + exists [], [], []. repeat split; auto.
    + exists [], [], (if given (sourceFile o')
                      then [Transform (textOf (sourceFile o'))] else []).
      split; [reflexivity|]. split; [now left|]. split; [now left|].
      split; [now apply Htail|]. split; [exact Hkeep | discriminate].
    + exists [], [SchemaWrite z (textOf (interfaceName o'))
                    (schemaPath (textOf (interfaceName o')))],
        (if given (sourceFile o')
         then [Transform (textOf (sourceFile o'))] else []).
      rewrite Hn.
      split; [reflexivity|]. split; [now left|].
      split; [right; now exists z|].
      split; [now apply Htail|]. split; [exact Hkeep | discriminate].
  - exists [], [], []. repeat split; auto.
  - rewrite bindT_returned, bindT_then_ret. cbn [fst snd].
    rewrite Hi.
    set (W := SchemaWrite z (textOf (inputInterfaceName o))
                (schemaPath (textOf (inputInterfaceName o)))).
    assert (HW : [W] = [] \/ ((v = POST \/ v = PUT)
                 /\ exists zodSchema,
                      [W] = [SchemaWrite zodSchema
                               (textOf (inputInterfaceName o))
                               ("./http-schemas/"
                                ++ textOf (inputInterfaceName o) ++ ".ts")])).
    { right. split; [exact Hv | now exists z]. }
    destruct (afterResponseT_cases v c o')
      as [Ha|[(e & Ha)|[Ha|(z' & Ha)]]]; rewrite Ha; cbn [fst snd].
    + exists [W], [], []. split; [reflexivity|]. split; [exact HW|].
      split; [now left|]. split; [now left|].
      split; [exact Hkeep | discriminate].
    + exists [W], [], []. split; [reflexivity|]. split; [exact HW|].
      split; [now left|]. split; [now left|].
      split; [exact Hkeep | reflexivity].
    + exists [W], [], (if given (sourceFile o')
                       then [Transform (textOf (sourceFile o'))] else []).
      split; [reflexivity|]. split; [exact HW|]. split; [now left|].
      split; [now apply Htail|]. split; [exact Hkeep | discriminate].
    + exists [W], [SchemaWrite z' (textOf (interfaceName o'))
                     (schemaPath (textOf (interfaceName o')))],
        (if given (sourceFile o')
         then [Transform (textOf (sourceFile o'))] else []).
      rewrite Hn.
      split; [reflexivity|]. split; [exact HW|].
      split; [right; now exists z'|].
      split; [now apply Htail|]. split; [exact Hkeep | discriminate].
Qed.

End FacadeEffectFacts.

Module MethodCallFacts.
Import JsString Ast Transformer Bindings MethodCalls.
Import StringFacts ReplaceFacts TreeFacts TransformerFacts.
#[local] Arguments Ascii.eqb : simpl never.

Lemma includes_self (p : string) : includes p p = true.
Proof.
  apply RunFacts.includes_here. rewrite <- (append_empty_r p) at 2.
  apply startsWith_self_app.
Qed.

(** X21. [addTypeParametersToMethodCalls] on one located call
    [client.method(...)] without type arguments: when the map binds
    [client:<containing function>], the call is replaced by what the
    parser reads from the text of the call with the first
    [client.method(] turned into [client.method<<bound type name>>(];
    when the map has no binding under that key (the client was bound in
    another function, or the call sits in a callback of the function
    that made the client) the call is left as it is and the loop goes on
    below it. *)
Theorem bound_method_call_gets_its_type (host : Host) (filePath : string)
  (variables : list string) (httpClientToTypeMap : BindingMap)
  (ancestors : list Node) (nm method : string) (pta : list string)
  (object : Node) (args : list Node) :
  let call :=
    mkNode CallExpression nm []
      (mkNode PropertyAccessExpression method pta [object] :: args) in
  let key :=
    getText object ++ ":" ++ findContainingFunctionName ancestors in
  isHttpClientMethodCall variables call = true ->
  (forall info replaced,
      mapGet key httpClientToTypeMap = Some info ->
      parseExpression host filePath
        (replace (getText object ++ "." ++ method ++ "(")
           (getText object ++ "." ++ method ++ "<" ++ typeName info ++ ">(")
           (nodeText host filePath call)) = Some replaced ->
      methodCalls host filePath variables httpClientToTypeMap ancestors call
      = replaced)
  /\ (mapGet key httpClientToTypeMap = None ->
      methodCallEdit host filePath variables httpClientToTypeMap ancestors
        call = call
      /\ methodCalls host filePath variables httpClientToTypeMap ancestors
           call
         = mkNode CallExpression nm []
             (map (methodCalls host filePath variables httpClientToTypeMap
                     (call :: ancestors))
                (mkNode PropertyAccessExpression method pta [object]
                 :: args))).
Proof.
  intros call key Hloc.
  assert (Hid : isKind Identifier object = true).
  { unfold isHttpClientMethodCall, methodCallFilter in Hloc. cbn in Hloc.
    apply andb_true_iff in Hloc as [Hloc _].
    now apply andb_true_iff in Hloc as [Hloc _]. }
  assert (Htyping : methodCallTyping httpClientToTypeMap ancestors call
                    = match mapGet key httpClientToTypeMap with
                      | Some info =>
                          Some (getText object, method, typeName info)
                      | None => None
                      end).
  { unfold methodCallTyping. cbn [call getExpression getChildren hd_error
      isKind getKind kind_eqb negb getName getTypeArguments List.length
      Nat.eqb].
    rewrite Hid. cbn [negb]. fold key.
    now destruct (mapGet key httpClientToTypeMap). }
  split.
  - intros info replaced Hget Hparse.
    unfold call at 1. cbn [methodCalls]. fold call.
    rewrite Hloc, Htyping, Hget.
    unfold methodCallEdit. rewrite Hloc, Htyping, Hget.
    unfold replaceWithMethodType, newMethodCallText. now rewrite Hparse.
  - intros Hget. split.
    + unfold methodCallEdit. now rewrite Hloc, Htyping, Hget.
    + unfold call at 1. cbn [methodCalls]. fold call.
      now rewrite Hloc, Htyping, Hget.
Qed.

Lemma bound_method_call_gets_its_type_witness :
  methodCalls getUsersHost "/proj/src/api.ts" ["httpClient"]
    [("httpClient:getUsers",
      {| typeName := "UserOutputSchemaType"; functionName := "getUsers" |})]
    [Build.function "getUsers" []]
    (Build.call (Build.access (Build.ident "httpClient") "get") []
       [Build.str "/users"])
  = Build.call (Build.access (Build.ident "httpClient") "get")
      ["UserOutputSchemaType"] [Build.str "/users"].
Proof.
  apply (proj1 (bound_method_call_gets_its_type getUsersHost
                  "/proj/src/api.ts" ["httpClient"]
                  [("httpClient:getUsers",
                    {| typeName := "UserOutputSchemaType";
                       functionName := "getUsers" |})]
                  [Build.function "getUsers" []]
                  EmptyString "get" [] (Build.ident "httpClient")
                  [Build.str "/users"] eq_refl)
           {| typeName := "UserOutputSchemaType";
              functionName := "getUsers" |});
    reflexivity.
Defined.

(** X22. After [addSchemaTypeImports] the file has, for every binding
    of the map, an import declaration that names the bound type from a
    module whose specifier holds [<schema name>Output]: one it had
    already, or the type-only import the pass appends.  The statements
    and the imports that were there are kept. *)
Theorem output_imports_cover_the_map (host : Host) (sourceFile : SourceFile)
  (httpClientToTypeMap : BindingMap) :
  getStatements (addSchemaTypeImports host sourceFile httpClientToTypeMap)
  = getStatements sourceFile
  /\ (exists added,
        getImportDeclarations
          (addSchemaTypeImports host sourceFile httpClientToTypeMap)
        = (getImportDeclarations sourceFile ++ added)%list
        /\ forall d, In d added ->
                     isTypeOnly d = true
                     /\ exists entry,
                          In entry httpClientToTypeMap
                          /\ namedImports d = [typeName (snd entry)])
  /\ (forall entry,
        In entry httpClientToTypeMap ->
        hasImport
          (getImportDeclarations
             (addSchemaTypeImports host sourceFile httpClientToTypeMap))
          (outputSchemaNameOf (typeName (snd entry)) ++ "Output")
          (typeName (snd entry)) = true).
Proof.
  split; [reflexivity|]. split.
  - eexists. split; [reflexivity|]. intros d Hd.
    unfold outputImportsToAdd in Hd.
    apply in_flat_map in Hd as (entry & Hentry & Hd).
    destruct (hasImport _ _ _); [destruct Hd|].
    destruct Hd as [<-|[]]. split; [reflexivity|]. now exists entry.
  - intros entry Hentry. cbn [addSchemaTypeImports getImportDeclarations].
    rewrite hasImport_app.
    destruct (hasImport (getImportDeclarations sourceFile) _ _) eqn:Hhas;
      [reflexivity|].
    cbn [orb].
    apply (hasImport_in _
             (schemaImport
                (calculateHttpSchemasPath host (getFilePath sourceFile))
                (outputSchemaNameOf (typeName (snd entry)) ++ "Output")
                (typeName (snd entry)))).
    + unfold outputImportsToAdd. apply in_flat_map. exists entry.
      split; [exact Hentry|]. cbv zeta. rewrite Hhas. now left.
    + cbn [schemaImport moduleSpecifier].
      do 2 apply includes_app_r. apply includes_self.
    + now left.
Qed.

(** The example of the documentation of the module, run: the call of
    the client made in [getUsers] gets the type of the embedded schema,
    and the file the import of that type. *)
Lemma addTypeToHttpClientCall_example :
  exists text result,
    addTypeToHttpClientCall getUsersHost getUsersSource None
    = Some (text, result)
    /\ getImportDeclarations result
       = [{| namedImports := ["UserOutputSchemaType"];
             moduleSpecifier := "../http-schemas/UserOutput";
             isTypeOnly := true;
             defaultImport := None |}]
    /\ In (Build.call (Build.access (Build.ident "httpClient") "get")
             ["UserOutputSchemaType"] [Build.str "/users"])
         (fileDescendants result).
Proof.
  eexists. eexists. split; [reflexivity|]. split; [reflexivity|].
  cbn. auto 20.
Qed.

Lemma descendantsIn_nodes (ancestors : list Node) (n : Node) :
  map fst (getDescendantsIn ancestors n) = getDescendants n.
Proof.
  revert ancestors.
  induction n as [k nm ta cs IH] using Node_induction.
  rewrite Forall_forall in IH. intros ancestors.
  cbn [getDescendantsIn getDescendants].
  generalize (mkNode k nm ta cs :: ancestors). intros above.
  induction cs as [|c rest IHrest]; [reflexivity|].
  cbn [flat_map]. rewrite map_app. cbn [map fst].
  rewrite (IH c (or_introl eq_refl)). cbn [app]. f_equal. f_equal.
  apply IHrest. intros x Hx. apply IH. now right.
Qed.

Lemma fileDescendantsIn_nodes (sourceFile : SourceFile) :
  map fst (fileDescendantsIn sourceFile) = fileDescendants sourceFile.
Proof.
  unfold fileDescendantsIn, fileDescendants.
  induction (getStatements sourceFile) as [|s rest IH]; [reflexivity|].
  cbn [flat_map]. rewrite map_app, IH. cbn [map fst subtree].
  now rewrite descendantsIn_nodes.
Qed.

Lemma arrayIncludes_in (x : string) (xs : list string) :
  In x xs -> arrayIncludes x xs = true.
Proof.
  intros H. unfold arrayIncludes. apply existsb_exists.
  exists x. split; [exact H | apply String.eqb_refl].
Qed.

(** X23. The two locators of the method-call pipeline agree with the
    binding map: for every constructor site [const v = new
    HttpClient({ zodOutput ... })] that gives a binding, its callee
    being the identifier [HttpClient], the binding is keyed
    [v:<function>], the callee is among the references
    [findHttpClientsReferences] returns, [v] is among the client
    variables, and so every call [v.get(...)], [v.post(...)],
    [v.put(...)] or [v.delete(...)], wherever it stands in the file, is
    one that [findHttpClientMethodCalls] keeps. *)
Theorem bound_clients_are_client_variables (sourceFile : SourceFile)
  (site : Node * list Node) (b : string * HttpClientInfo) (callee : Node) :
  In site (httpClientSites sourceFile) ->
  bindingOf site = Some b ->
  getExpression (fst site) = Some callee ->
  isKind Identifier callee = true ->
  In callee (findHttpClientsReferences sourceFile)
  /\ exists variable,
       fst b = variable ++ ":" ++ functionName (snd b)
       /\ In variable (httpClientVariables sourceFile)
       /\ forall method nm args,
            In method httpMethods ->
            methodCallFilter (httpClientVariables sourceFile)
              (mkNode CallExpression nm []
                 (Build.access (Build.ident variable) method :: args))
            = true.
Proof.
  intros Hsite Hb Hcallee Hid.
  unfold httpClientSites in Hsite. apply filter_In in Hsite as [Hin Hloc].
  destruct site as [call ancestors]. cbn [fst snd] in *.
  assert (Hk : isKind NewExpression call = true
               /\ String.eqb (getText callee) "HttpClient" = true).
  { unfold isHttpClientWithZodOutput, hasZodOutputArgument in Hloc.
    rewrite Hcallee in Hloc.
    apply andb_true_iff in Hloc as [Hk Hloc].
    now apply andb_true_iff in Hloc as [Ht _]. }
  destruct Hk as [Hk Ht]. split.
  - unfold findHttpClientsReferences, getDescendantsOfKind.
    apply filter_In. split; [|exact Ht].
    apply filter_In. split; [|exact Hid].
    apply (child_in_file sourceFile call callee).
    + rewrite <- fileDescendantsIn_nodes.
      now apply (in_map fst _ (call, ancestors)).
    + unfold getExpression in Hcallee.
      destruct (getChildren call) as [|e rest]; [discriminate|].
      injection Hcallee as ->. now left.
  - unfold bindingOf in Hb. cbn [fst snd] in Hb.
    destruct ancestors as [|parent above]; [discriminate|].
    destruct (isKind VariableDeclaration parent) eqn:Hv; [|discriminate].
    destruct (extractTypeFromHttpClientArgs (getArguments call)) as [T|];
      [|discriminate].
    injection Hb as <-. exists (getName parent). cbn [fst snd functionName].
    split; [reflexivity|].
    assert (Hvar : In (getName parent) (httpClientVariables sourceFile)).
    { unfold httpClientVariables. apply in_flat_map.
      exists (call, parent :: above). split; [exact Hin|].
      unfold httpClientVariableOf. rewrite Hk, Hcallee, Hid, Ht, Hv.
      now left. }
    split; [exact Hvar|].
    intros method nm args Hm. unfold methodCallFilter.
    cbn [getExpression getChildren hd_error Build.access Build.ident isKind
           getKind kind_eqb getName getText map String.concat].
    rewrite !append_empty_r.
    now rewrite (arrayIncludes_in _ _ Hvar), (arrayIncludes_in _ _ Hm).
Qed.

Lemma bound_clients_are_client_variables_witness :
  In (Build.ident "HttpClient") (findHttpClientsReferences getUsersSource)
  /\ exists variable,
       "httpClient:getUsers" = variable ++ ":" ++ "getUsers"
       /\ In variable (httpClientVariables getUsersSource)
       /\ forall method nm args,
            In method httpMethods ->
            methodCallFilter (httpClientVariables getUsersSource)
              (mkNode CallExpression nm []
                 (Build.access (Build.ident variable) method :: args))
            = true.
Proof.
  apply (bound_clients_are_client_variables getUsersSource
           (hd (Build.tok EmptyString, []) (httpClientSites getUsersSource))
           ("httpClient:getUsers",
            {| typeName := "UserOutputSchemaType";
               functionName := "getUsers" |})
           (Build.ident "HttpClient")).
  - left. reflexivity.
  - reflexivity.
  - reflexivity.
  - reflexivity.
Defined.

Lemma extraction_skips (before rest : list Node) :
  (forall a, In a before -> carriesZodOutput a = false) ->
  extractTypeFromHttpClientArgs (before ++ rest)%list
  = extractTypeFromHttpClientArgs rest.
Proof.
  induction before as [|a before IH]; intros H; [reflexivity|].
  pose proof (H a (or_introl eq_refl)) as Ha. unfold carriesZodOutput in Ha.
  cbn [app extractTypeFromHttpClientArgs].
  assert (Hrest : extractTypeFromHttpClientArgs (before ++ rest)%list
                  = extractTypeFromHttpClientArgs rest).
  { apply IH. intros x Hx. apply H. now right. }
  destruct (isKind ObjectLiteralExpression a); cbn [negb andb] in *;
    [|exact Hrest].
  destruct (getProperty "zodOutput" a) as [p|]; [|exact Hrest].
  now rewrite Ha.
Qed.

Lemma outputSchemaNameOf_round_trip (schemaName : string) :
  includes "OutputSchemaType" schemaName = false ->
  outputSchemaNameOf (schemaName ++ "OutputSchemaType") = schemaName.
Proof.
  intros H. unfold outputSchemaNameOf.
  pose proof (replaceFirst_after_free "O" "utputSchemaType" EmptyString
                schemaName EmptyString eq_refl H) as E.
  cbn [append] in E. rewrite E. now rewrite !append_empty_r.
Qed.

(** X26. The type of a client comes from the first argument of the
    constructor that is an object literal with a [zodOutput] property
    assignment, and from that argument only: what
    [extractSchemaNameFromZodOutput] makes of it is the result, also
    when it is nothing and a later argument would give a type.  For
    [zodOutput: { schemaName: "<S>", ... }] the type is
    [<S>OutputSchemaType], and, [<S>] holding no [OutputSchemaType], the
    import [addSchemaTypeImports] adds for it names that type from
    [<schemas path>/<S>Output]. *)
Theorem embedded_schema_names_its_type_and_module
  (before after : list Node) (arg zodOutputProperty : Node) :
  (forall a, In a before -> carriesZodOutput a = false) ->
  isKind ObjectLiteralExpression arg = true ->
  getProperty "zodOutput" arg = Some zodOutputProperty ->
  isKind PropertyAssignment zodOutputProperty = true ->
  extractTypeFromHttpClientArgs (before ++ arg :: after)%list
  = extractSchemaNameFromZodOutput zodOutputProperty
  /\ (forall schemaName more key functionName existingImports base,
        zodOutputProperty
        = Build.prop "zodOutput"
            (Build.obj (Build.prop "schemaName" (Build.str schemaName)
                        :: more)) ->
        includes "OutputSchemaType" schemaName = false ->
        hasImport existingImports (schemaName ++ "Output")
          (schemaName ++ "OutputSchemaType") = false ->
        extractTypeFromHttpClientArgs (before ++ arg :: after)%list
        = Some (schemaName ++ "OutputSchemaType")
        /\ outputImportsToAdd existingImports base
             [(key, {| typeName := schemaName ++ "OutputSchemaType";
                       functionName := functionName |})]
           = [{| namedImports := [schemaName ++ "OutputSchemaType"];
                 moduleSpecifier := base ++ "/" ++ schemaName ++ "Output";
                 isTypeOnly := true;
                 defaultImport := None |}]).
Proof.
  intros Hbefore Harg Hprop Hpa.
  assert (Hfirst : extractTypeFromHttpClientArgs (before ++ arg :: after)%list
                   = extractSchemaNameFromZodOutput zodOutputProperty).
  { rewrite (extraction_skips _ _ Hbefore).
    cbn [extractTypeFromHttpClientArgs]. now rewrite Harg, Hprop, Hpa. }
  split; [exact Hfirst|].
  intros schemaName more key functionName existingImports base -> Hfree Hno.
  split; [rewrite Hfirst; reflexivity|].
  unfold outputImportsToAdd. cbn [flat_map snd typeName].
  rewrite (outputSchemaNameOf_round_trip schemaName Hfree), Hno.
  reflexivity.
Qed.

Lemma embedded_schema_names_its_type_and_module_witness :
  extractTypeFromHttpClientArgs
    ([Build.ident "baseUrl";
      Build.obj [Build.prop "forceFileTransform" (Build.tok "true")]]
     ++ Build.obj
          [Build.prop "zodOutput" (Build.ident "schema");
           Build.prop "retry" (Build.tok "3")]
        :: [Build.obj
              [Build.prop "zodOutput"
                 (Build.obj [Build.prop "schemaName" (Build.str "User")])]])%list
  = extractSchemaNameFromZodOutput
      (Build.prop "zodOutput" (Build.ident "schema")).
Proof.
  apply (embedded_schema_names_its_type_and_module
           [Build.ident "baseUrl";
            Build.obj [Build.prop "forceFileTransform" (Build.tok "true")]]
           [Build.obj
              [Build.prop "zodOutput"
                 (Build.obj [Build.prop "schemaName" (Build.str "User")])]]
           (Build.obj
              [Build.prop "zodOutput" (Build.ident "schema");
               Build.prop "retry" (Build.tok "3")])
           (Build.prop "zodOutput" (Build.ident "schema"))).
  - intros a [<-|[<-|[]]]; reflexivity.
  - reflexivity.
  - reflexivity.
  - reflexivity.
Defined.

End MethodCallFacts.

Module FirstProbeFacts.
Import JsString FirstProbe.
#[local] Arguments Ascii.eqb : simpl never.

Lemma first_scanLines_iff (stackLines : list string) (filePath : string) :
  scanLines stackLines = Some filePath <->
  exists before line after,
    stackLines = (before ++ line :: after)%list
    /\ (forall l, In l before -> inspectLine l = None)
    /\ inspectLine line = Some filePath.
Proof.
  split.
  - induction stackLines as [|l rest IH]; [discriminate|].
    simpl. destruct (inspectLine l) as [p|] eqn:E.
    + intros [= <-]. exists [], l, rest. repeat split; [|exact E].
      intros x [].
    + intros H. destruct (IH H) as (before & line & after & -> & Hb & Hl).
      exists (l :: before), line, after. repeat split; [|exact Hl].
      intros x [<-|Hin]; [exact E | now apply Hb].
  - intros (before & line & after & -> & Hb & Hl).
    induction before as [|b before IH]; simpl.
    + now rewrite Hl.
    + rewrite (Hb b (or_introl eq_refl)). apply IH.
      intros x Hin. apply Hb. now right.
Qed.

Lemma first_inspectLine_iff (line filePath : string) :
  inspectLine line = Some filePath <->
  exists captured,
    fileMatch line = Some captured
    /\ filePath = stripProtocol captured
    /\ isCallerPath filePath = true.
Proof.
  unfold inspectLine. split.
  - destruct (fileMatch line) as [c|]; [|discriminate].
    destruct (isCallerPath (stripProtocol c)) eqn:E; [|discriminate].
    intros [= <-]. now exists c.
  - intros (c & -> & -> & H). now rewrite H.
Qed.

(** X24. The probe of the first version returns a path exactly when
    some line of the trace has a match of its pattern whose text,
    without a leading [file://], is not empty and holds none of
    [node_modules], [katalist], [ts-morph] and [ky]; the path is the one
    of the first such line.  The test is on substrings of the whole
    path: a file of the caller under a directory whose name holds [ky]
    or [katalist] is passed over like a library frame. *)
Theorem first_probe_returns_the_first_unfiltered_match
  (stack filePath : string) :
  getCallerFilePath (Some stack) = Some filePath <->
  exists before line after captured,
    split newline stack = (before ++ line :: after)%list
    /\ (forall l, In l before -> inspectLine l = None)
    /\ fileMatch line = Some captured
    /\ filePath = stripProtocol captured
    /\ filePath <> EmptyString
    /\ includes "node_modules" filePath = false
    /\ includes "katalist" filePath = false
    /\ includes "ts-morph" filePath = false
    /\ includes "ky" filePath = false.
Proof.
  assert (Hpath : forall p,
             isCallerPath p = true <->
             p <> EmptyString
             /\ includes "node_modules" p = false
             /\ includes "katalist" p = false
             /\ includes "ts-morph" p = false
             /\ includes "ky" p = false).
  { intros p. unfold isCallerPath, CallerDetection.truthy.
    rewrite !andb_true_iff, !negb_true_iff. rewrite String.eqb_neq.
    tauto. }
  split.
  - unfold getCallerFilePath.
    destruct (CallerDetection.truthy stack); [|discriminate].
    intros H. apply first_scanLines_iff in H as (b & l & a & E & Hb & Hl).
    apply first_inspectLine_iff in Hl as (c & Hm & Hp & Hok).
    apply Hpath in Hok. exists b, l, a, c. tauto.
  - intros (b & l & a & c & E & Hb & Hm & Hp & Hok).
    assert (Hs : scanLines (split newline stack) = Some filePath).
    { apply first_scanLines_iff. exists b, l, a. repeat split; try assumption.
      apply first_inspectLine_iff. exists c. repeat split; try assumption.
      now apply Hpath. }
    unfold getCallerFilePath. destruct stack; [|exact Hs].
    discriminate Hs.
Qed.

Lemma first_fileMatch_skips (lead rest : string) :
  noMatchWithin captureAt lead rest = true ->
  fileMatch (lead ++ rest) = fileMatch rest.
Proof.
  induction lead as [|c t IH]; [reflexivity|]. intros H.
  cbn [noMatchWithin] in H.
  destruct (captureAt (String c t ++ rest)) eqn:E; [discriminate|].
  cbn [append] in *. destruct rest; cbn [fileMatch]; rewrite E; now apply IH.
Qed.

Lemma later_fileMatch_skips (lead rest : string) :
  noMatchWithin CallerDetection.matchAt lead rest = true ->
  CallerDetection.fileMatch (lead ++ rest) = CallerDetection.fileMatch rest.
Proof.
  induction lead as [|c t IH]; [reflexivity|]. intros H.
  cbn [noMatchWithin] in H.
  destruct (CallerDetection.matchAt (String c t ++ rest)) eqn:E;
    [discriminate|].
  cbn [append] in *.
  destruct rest; cbn [CallerDetection.fileMatch]; rewrite E; now apply IH.
Qed.

Lemma noSpace_of_path (s : string) :
  CallerDetection.allPathChars s = true -> noSpace s = true.
Proof.
  induction s as [|c t IH]; [reflexivity|]. cbn. intros H.
  apply andb_true_iff in H as [Hc Ht]. rewrite (IH Ht), andb_true_r.
  unfold CallerDetection.pathChar in Hc.
  destruct (CallerDetection.isSpace c); [discriminate | reflexivity].
Qed.

Lemma runBody_cons (c : ascii) (t : string) :
  runBody (String c t)
  = if negb (CallerDetection.isSpace c) then
      match runBody t with
      | Some m => Some (String c m)
      | None =>
          match CallerDetection.extensionAt t with
          | Some e => Some (String c e)
          | None => None
          end
      end
    else None.
Proof. reflexivity. Qed.

Lemma extensionAt_own (ext tail : string) :
  ext = ".ts" \/ ext = ".js" ->
  CallerDetection.extensionAt (ext ++ tail) = Some ext.
Proof. intros [-> | ->]; reflexivity. Qed.

(** The greedy run stops at the last extension of the run: when nothing
    after the extension completes another match, the run up to it is
    what is captured. *)
Lemma runBody_exact (stem ext tail : string) :
  stem <> EmptyString ->
  noSpace stem = true ->
  ext = ".ts" \/ ext = ".js" ->
  runBody (ext ++ tail) = None ->
  runBody (stem ++ ext ++ tail) = Some (stem ++ ext).
Proof.
  intros Hne Hall Hext Htail.
  induction stem as [|c t IH]; [congruence|].
  cbn [noSpace] in Hall. apply andb_true_iff in Hall as [Hc Ht].
  change (String c t ++ ext ++ tail) with (String c (t ++ ext ++ tail)).
  rewrite runBody_cons, Hc.
  destruct t as [|c' t'].
  - cbn [append]. now rewrite Htail, (extensionAt_own ext tail Hext).
  - rewrite IH; [reflexivity | discriminate | exact Ht].
Qed.

(** X25. On a frame [<lead>(/<stem><ext><tail>], with no match of
    either pattern inside the lead, a stem of characters that are
    neither white space nor [)] nor [:], [.ts] or [.js] as extension,
    and a tail that starts outside that class and completes no other
    match (the usual [:line:col)]): the pattern of the first version
    captures the path with the opening parenthesis of the frame, and the
    first probe returns it so, while the later pattern captures the path
    alone. *)
Theorem first_pattern_keeps_the_parenthesis (lead stem ext tail : string) :
  noMatchWithin captureAt lead ("(/" ++ stem ++ ext ++ tail) = true ->
  noMatchWithin CallerDetection.matchAt lead ("(/" ++ stem ++ ext ++ tail)
  = true ->
  stem <> EmptyString ->
  CallerDetection.allPathChars stem = true ->
  ext = ".ts" \/ ext = ".js" ->
  CallerDetection.endsPath tail = true ->
  runBody (ext ++ tail) = None ->
  fileMatch (lead ++ "(/" ++ stem ++ ext ++ tail) = Some ("(/" ++ stem ++ ext)
  /\ CallerDetection.fileMatch (lead ++ "(/" ++ stem ++ ext ++ tail)
     = Some ("/" ++ stem ++ ext)
  /\ (isCallerPath ("(/" ++ stem ++ ext) = true ->
      inspectLine (lead ++ "(/" ++ stem ++ ext ++ tail)
      = Some ("(/" ++ stem ++ ext)).
Proof.
  intros Hlead1 Hlead2 Hne Hall Hext Htail Hrest.
  assert (H1 : fileMatch (lead ++ "(/" ++ stem ++ ext ++ tail)
               = Some ("(/" ++ stem ++ ext)).
  { rewrite (first_fileMatch_skips _ _ Hlead1).
    assert (Hrun : runBody ("(/" ++ stem ++ ext ++ tail)
                   = Some ("(/" ++ stem ++ ext)).
    { apply (runBody_exact ("(/" ++ stem) ext tail);
        [discriminate | | exact Hext | exact Hrest].
      cbn [append noSpace]. now rewrite (noSpace_of_path stem Hall). }
    cbn [append] in *. cbn [fileMatch]. unfold captureAt.
    cbn [startsWith]. rewrite Hrun. reflexivity. }
  split; [exact H1|]. split.
  - rewrite (later_fileMatch_skips _ _ Hlead2).
    pose proof (CallerDetectionFacts.slashPath_exact stem ext tail
                  Hne Hall Hext Htail) as Hs.
    cbn [append] in *. cbn [CallerDetection.fileMatch CallerDetection.matchAt].
    unfold CallerDetection.captureAt. cbn [startsWith]. now rewrite Hs.
  - intros Hok. unfold inspectLine. rewrite H1.
    assert (Hstrip : stripProtocol ("(/" ++ stem ++ ext) = "(/" ++ stem ++ ext).
    { unfold stripProtocol. cbn [append startsWith].
      now rewrite andb_false_r. }
    now rewrite Hstrip, Hok.
Qed.

Lemma first_pattern_keeps_the_parenthesis_witness :
  fileMatch ("    at main " ++ "(/" ++ "home/u/src/api" ++ ".ts" ++ ":3:5)")
  = Some ("(/" ++ "home/u/src/api" ++ ".ts").
Proof.
  apply (first_pattern_keeps_the_parenthesis "    at main " "home/u/src/api"
           ".ts" ":3:5)"); try reflexivity.
  - discriminate.
  - now left.
Defined.

End FirstProbeFacts.

Module FirstFacadeFacts.
Import JsString SchemaSynthesis Facade SchemaModule FacadeEffects FirstFacade.
Import FacadeSamples FacadeEffectFacts.

Lemma first_detection_fields (c : Collaborators)
  (o : KatalistGeneratingSchemaOptions) :
  generateSchema (FirstFacade.withDetectedSource c o) = generateSchema o
  /\ interfaceName (FirstFacade.withDetectedSource c o) = interfaceName o.
Proof.
  unfold FirstFacade.withDetectedSource.
  destruct (_ && negb (given (sourceFile o))); [|now split].
  destruct (FirstProbe.getCallerFilePath (stack c)) as [d|]; [|now split].
  destruct (negb (String.eqb d EmptyString)); now split.
Qed.

(** X27. [get] of the first version: without a schema request it does
    nothing besides the request; with one, an object body has its
    schema module synthesized and written to
    [./http-schemas/<interfaceName>.ts] before the transformer is called
    on the source file, and every other body, arrays included, gives no
    schema while the transformer is called all the same; the hook is the
    one whose completion [afterResponseFirstGet] describes. *)
Theorem first_get_by_response_shape {Response : Type} (c : Collaborators)
  (o : KatalistGeneratingSchemaOptions) (response : Response) :
  let o' := FirstFacade.withDetectedSource c o in
  let name := textOf (interfaceName o) in
  let transformation :=
    if given (sourceFile o') then [Transform (textOf (sourceFile o'))]
    else [] in
  (generateSchema o && given (interfaceName o) = false ->
   getT c o response = ([], Returned response))
  /\ (forall body,
        generateSchema o && given (interfaceName o) = true ->
        responseJson c = Returned body ->
        getT c o response
        = match body with
          | JObject _ =>
              match jsonToZodSchema c body name with
              | Returned zodSchema =>
                  ((SchemaWrite zodSchema name
                      ("./http-schemas/" ++ name ++ ".ts")
                    :: transformation)%list,
                   Returned response)
              | Thrown e => ([], Thrown e)
              end
          | _ => (transformation, Returned response)
          end)
  /\ snd (FirstFacade.afterResponseT c o) = afterResponseFirstGet c o.
Proof.
  cbv zeta.
  destruct (first_detection_fields c o) as (Hg & Hn).
  split; [|split].
  - intros H. unfold getT, FirstFacade.afterResponseT. rewrite Hg, Hn, H.
    reflexivity.
  - intros body H Hbody. unfold getT, FirstFacade.afterResponseT.
    rewrite Hg, Hn, H, Hbody.
    change (lift (Returned body)) with (ret body).
    rewrite bindT_ret, bindT_then_ret.
    destruct body as [|b|l|s|elements|members];
      try (rewrite bindT_ret, guardedTransformT_value; reflexivity).
    rewrite synthesis_then_transform. unfold schemaPath.
    now destruct (jsonToZodSchema c (JObject members) _).
  - unfold FirstFacade.afterResponseT, afterResponseFirstGet.
    destruct (generateSchema o && given (interfaceName o)); [|reflexivity].
    rewrite bindT_completion. cbn [lift snd].
    destruct (responseJson c) as [body|e]; [|reflexivity]. cbn [bind].
    rewrite bindT_completion.
    destruct body; cbn [snd ret bind];
      rewrite ?generateSchemaT_completion, ?guardedTransformT_completion;
      reflexivity.
Qed.

End FirstFacadeFacts.
